(** * userscript-x: the development server of `packages/dev`

    A shallow embedding of the rebuild-and-reload loop of the `usx dev`
    command: the metadata header generator and the banner of `builder.ts`,
    the injected hot reload client of `hot-reload-client.ts`, and the HTTP
    endpoint, the reload payload and the rebuild coordinator of
    `dev-server.ts`.

    JavaScript strings are sequences of UTF-16 code units; they are modelled
    as lists of code units so that [indexOf], [slice] and [trimStart] count
    positions exactly as the engine does. *)

From Stdlib Require Import Ascii String DecimalString.
From Stdlib Require Import List Bool Arith NArith ZArith Lia.
Import ListNotations.

Set Implicit Arguments.

(** ** JavaScript strings *)

Module Js.

(** A UTF-16 code unit. *)
Definition char := N.

Definition str := list char.

(** An ASCII literal of the source text as a JavaScript string. *)
Definition lit (s : string) : str :=
  map N_of_ascii (list_ascii_of_string s).

Arguments lit s%_string.

(** [s.startsWith(p)]: [p] is a prefix of [s]. *)
Fixpoint startsWith (p s : str) : bool :=
  match p, s with
  | [], _ => true
  | _ :: _, [] => false
  | c :: p', d :: s' => N.eqb c d && startsWith p' s'
  end.

(** [s === t] on strings. *)
Fixpoint eqb (s t : str) : bool :=
  match s, t with
  | [], [] => true
  | c :: s', d :: t' => N.eqb c d && eqb s' t'
  | _, _ => false
  end.

(** Least offset at which [p] occurs in [s]. *)
Fixpoint find (p s : str) : option nat :=
  if startsWith p s then Some 0
  else match s with
       | [] => None
       | _ :: s' => option_map S (find p s')
       end.

(** All offsets at which [p] occurs in [s], in increasing order. *)
Fixpoint occurrences (p s : str) : list nat :=
  (if startsWith p s then [0] else [])
  ++ match s with
     | [] => []
     | _ :: s' => map S (occurrences p s')
     end.

(** [s.indexOf(p, from)]: the index of the first occurrence of [p] at or
    after [from] (clamped to the length of [s]), or [-1]. *)
Definition indexOf (s p : str) (from : nat) : Z :=
  let k := Nat.min from (length s) in
  match find p (skipn k s) with
  | Some i => Z.of_nat (k + i)
  | None => (-1)%Z
  end.

(** [s.slice(start)] for the non-negative [start] the server passes. *)
Definition slice (s : str) (start : Z) : str :=
  skipn (Z.to_nat start) s.

(** WhiteSpace and LineTerminator code units of ECMAScript: TAB, LF, VT, FF,
    CR, SP, NBSP, U+1680, U+2000..U+200A, LS, PS, U+202F, U+205F, U+3000 and
    the byte order mark. *)
Definition isWhiteSpace (c : char) : bool :=
  ((9 <=? c) && (c <=? 13) || (c =? 32) || (c =? 160) || (c =? 5760)
   || (8192 <=? c) && (c <=? 8202) || (c =? 8232) || (c =? 8233)
   || (c =? 8239) || (c =? 8287) || (c =? 12288) || (c =? 65279))%N.

(** [s.trimStart()]. *)
Fixpoint trimStart (s : str) : str :=
  match s with
  | c :: s' => if isWhiteSpace c then trimStart s' else s
  | [] => []
  end.

(** [lines.join(sep)]. *)
Fixpoint join (sep : str) (lines : list str) : str :=
  match lines with
  | [] => []
  | [l] => l
  | l :: ls => l ++ sep ++ join sep ls
  end.

(** [s.split("\n")]: the pieces of [s] between line feeds. *)
Fixpoint splitLines (s : str) : list str :=
  match s with
  | [] => [[]]
  | c :: s' =>
      if N.eqb c 10 then [] :: splitLines s'
      else match splitLines s' with
           | l :: ls => (c :: l) :: ls
           | [] => [[c]]
           end
  end.

(** [key.padEnd(n)]: pad with spaces on the right up to length [n]. *)
Definition padEnd (s : str) (n : nat) : str :=
  s ++ repeat 32%N (n - length s).

(** [p] occurs in [s] right after [pre], and at no smaller offset. *)
Definition FirstAt (p s pre post : str) : Prop :=
  s = pre ++ p ++ post
  /\ forall j, j < length pre -> startsWith p (skipn j s) = false.

(** [p] occurs nowhere in [s]. *)
Definition Absent (p s : str) : Prop :=
  forall j, startsWith p (skipn j s) = false.

(** [p] occurs at most once in [s]. *)
Definition AtMostOnce (p s : str) : Prop :=
  forall i j, In i (occurrences p s) -> In j (occurrences p s) -> i = j.

(** [String(n)] for an integer [n], in decimal. *)
Definition ofInt (n : Z) : str :=
  lit (NilZero.string_of_int (Z.to_int n)).

End Js.

Import Js.

(** ** hot-reload-client.ts: the injected client text *)

Module HotReloadClient.

(** The template literal up to the interpolated port. *)
Definition clientHead : str := lit "
// Hot reload client - injected in development mode
(function() {
  const HOT_RELOAD_PORT = ".

(** The template literal after the interpolated port; the check mark of the
    completion message is the single code unit U+2713. *)
Definition clientTail : str :=
  lit ";
  let ws;
  let reconnectTimer;

  function connect() {
    try {
      ws = new WebSocket(`ws://localhost:${HOT_RELOAD_PORT}`);

      ws.onopen = () => {
        console.log('[USX] Hot reload connected');
        if (reconnectTimer) {
          clearTimeout(reconnectTimer);
          reconnectTimer = null;
        }
      };

      ws.onmessage = (event) => {
        const data = JSON.parse(event.data);

        if (data.type === 'reload' && data.code) {
          console.log('[USX] Hot reloading userscript...');

          try {
            // Call user-defined cleanup if available
            if (typeof window.__USX_CLEANUP__ === 'function') {
              try {
                window.__USX_CLEANUP__();
              } catch (cleanupError) {
                console.warn('[USX] Cleanup function error:', cleanupError);
              }
            }

            // Execute the new code
            // Using indirect eval to run in global scope
            (0, eval)(data.code);

            console.log('[USX] "
  ++ [10003%N]
  ++ lit " Hot reload complete');
          } catch (error) {
            console.error('[USX] Hot reload execution error:', error);
          }
        }
      };

      ws.onclose = () => {
        console.log('[USX] Hot reload disconnected, reconnecting...');
        // Reconnect after 1 second
        reconnectTimer = setTimeout(connect, 1000);
      };

      ws.onerror = (error) => {
        console.error('[USX] Hot reload error:', error);
        ws.close();
      };
    } catch (error) {
      console.error('[USX] Failed to connect to hot reload server:', error);
      reconnectTimer = setTimeout(connect, 1000);
    }
  }

  // Start connection
  connect();

  // Cleanup on page unload
  window.addEventListener('beforeunload', () => {
    if (ws) {
      ws.close();
    }
    if (reconnectTimer) {
      clearTimeout(reconnectTimer);
    }
  });
})();
".

(** [getHotReloadClient(port)]; the port is an integer and is printed in
    decimal, as [Number.prototype.toString] prints integers below 10^21. *)
Definition getHotReloadClient (port : Z) : str :=
  clientHead ++ ofInt port ++ clientTail.

End HotReloadClient.

(** ** builder.ts: metadata header and banner *)

Module Builder.

(** The line feed the header lines are joined with. *)
Definition nl : str := [10%N].

(** A metadata value of type [string | string[]]. *)
Inductive OneOrMany :=
| One (v : str)
| Many (vs : list str).

Inductive RunAt := DocumentStart | DocumentBody | DocumentEnd | DocumentIdle.

Inductive Sandbox := SandboxRaw | SandboxJavaScript | SandboxDOM.

(** [UserscriptMetadata] of config.ts. An optional field is [None] when it
    is [undefined]; [resource] holds the pairs of [Object.entries] in the
    order the engine enumerates them. *)
Record UserscriptMetadata := {
  name : str;
  namespace : option str;
  version : option str;
  description : option str;
  author : option str;
  match_ : option OneOrMany;
  exclude : option OneOrMany;
  include : option OneOrMany;
  grant : option OneOrMany;
  updateURL : option str;
  downloadURL : option str;
  supportURL : option str;
  icon : option str;
  runAt : option RunAt;
  require : option OneOrMany;
  resource : option (list (str * str));
  sandbox : option Sandbox;
  connect : option OneOrMany;
  noframes : option bool
}.

Record BuildOptions := {
  outDir : option str;
  outFile : option str
}.

(** [UserscriptConfig] of config.ts. *)
Record UserscriptConfig := {
  metadata : UserscriptMetadata;
  build : option BuildOptions
}.

Definition runAtText (r : RunAt) : str :=
  match r with
  | DocumentStart => lit "document-start"
  | DocumentBody => lit "document-body"
  | DocumentEnd => lit "document-end"
  | DocumentIdle => lit "document-idle"
  end.

Definition sandboxText (s : Sandbox) : str :=
  match s with
  | SandboxRaw => lit "raw"
  | SandboxJavaScript => lit "JavaScript"
  | SandboxDOM => lit "DOM"
  end.

(** The template [`// @${key.padEnd(12)} ${v}`]. *)
Definition metaLine (key v : str) : str :=
  lit "// @" ++ padEnd key 12 ++ lit " " ++ v.

(** The helper [addLine] of [generateHeader]; [lines] is the array it
    pushes to. *)
Definition addLine (lines : list str) (key : str) (value : option OneOrMany)
  : list str :=
  match value with
  | None => lines
  | Some (Many vs) => fold_left (fun ls v => ls ++ [metaLine key v]) vs lines
  | Some (One v) => lines ++ [metaLine key v]
  end.

Definition one (v : option str) : option OneOrMany := option_map One v.

Definition headerStart : str := lit "// ==UserScript==".

Definition headerEnd : str := lit "// ==/UserScript==".

(** [generateHeader(metadata)]. *)
Definition generateHeader (metadata : UserscriptMetadata) : str :=
  let lines := [headerStart] in
  let lines := addLine lines (lit "name") (Some (One (name metadata))) in
  let lines := addLine lines (lit "namespace") (one (namespace metadata)) in
  let lines := addLine lines (lit "version") (one (version metadata)) in
  let lines := addLine lines (lit "description") (one (description metadata)) in
  let lines := addLine lines (lit "author") (one (author metadata)) in
  let lines := addLine lines (lit "match") (match_ metadata) in
  let lines := addLine lines (lit "exclude") (exclude metadata) in
  let lines := addLine lines (lit "include") (include metadata) in
  let lines := addLine lines (lit "icon") (one (icon metadata)) in
  let lines := addLine lines (lit "grant") (grant metadata) in
  let lines := addLine lines (lit "require") (require metadata) in
  let lines :=
    match resource metadata with
    | Some entries =>
        fold_left
          (fun ls e =>
             addLine ls (lit "resource")
               (Some (One (fst e ++ lit " " ++ snd e))))
          entries lines
    | None => lines
    end in
  let lines := addLine lines (lit "connect") (connect metadata) in
  let lines :=
    addLine lines (lit "run-at")
      (option_map (fun r => One (runAtText r)) (runAt metadata)) in
  let lines :=
    addLine lines (lit "sandbox")
      (option_map (fun s => One (sandboxText s)) (sandbox metadata)) in
  let lines :=
    match noframes metadata with
    | Some true => lines ++ [lit "// @noframes"]
    | _ => lines
    end in
  let lines := addLine lines (lit "updateURL") (one (updateURL metadata)) in
  let lines := addLine lines (lit "downloadURL") (one (downloadURL metadata)) in
  let lines := addLine lines (lit "supportURL") (one (supportURL metadata)) in
  let lines := lines ++ [headerEnd] in
  let lines := lines ++ [[]] in
  join nl lines.

(** The banner [build] hands to the bundler: the header and, in development
    mode with a truthy port, a line feed and the hot reload client. *)
Definition banner (config : UserscriptConfig) (dev : bool)
    (hotReloadPort : option Z) : str :=
  let banner := generateHeader (metadata config) in
  match hotReloadPort with
  | Some port =>
      if dev && negb (port =? 0)%Z
      then banner ++ nl ++ HotReloadClient.getHotReloadClient port
      else banner
  | None => banner
  end.

(** The file the bundler writes for the option [banner.js]: the banner, a
    line feed and the bundled chunk. *)
Definition artifact (banner chunk : str) : str :=
  banner ++ nl ++ chunk.

End Builder.

(** ** Effects: state and exceptions *)

Module Eff.

(** A thrown JavaScript value. *)
Inductive Error :=
| ConfigNotFound          (* Error("Config file not found: ...") *)
| InvalidConfig           (* Error("Invalid config: must export ...") *)
| SyntaxError             (* JSON.parse on malformed text *)
| TypeError               (* property access on null *)
| Failure (msg : str).    (* raised by a collaborator *)

(** How a computation ends: normally or by a throw. The same type is the
    outcome of a settled promise. *)
Inductive Exc (A : Type) :=
| Ret (a : A)
| Throw (e : Error).

Arguments Ret {A} a.
Arguments Throw {A} e.

(** A computation over the mutable state [S]. *)
Definition M (S A : Type) := S -> S * Exc A.

Definition ret {S A} (a : A) : M S A := fun s => (s, Ret a).

Definition throw {S A} (e : Error) : M S A := fun s => (s, Throw e).

Definition bind {S A B} (m : M S A) (k : A -> M S B) : M S B :=
  fun s =>
    match m s with
    | (s', Ret a) => k a s'
    | (s', Throw e) => (s', Throw e)
    end.

(** [try { m } catch (error) { h error }]; the state changes made before the
    throw stay. *)
Definition tryCatch {S A} (m : M S A) (h : Error -> M S A) : M S A :=
  fun s =>
    match m s with
    | (s', Ret a) => (s', Ret a)
    | (s', Throw e) => h e s'
    end.

Definition gets {S A} (f : S -> A) : M S A := fun s => (s, Ret (f s)).

Definition modify {S} (f : S -> S) : M S unit := fun s => (f s, Ret tt).

(** Resume from an awaited promise: its value, or its rejection thrown. *)
Definition settled {S A} (p : Exc A) : M S A := fun s => (s, p).

(** Calling an [async] function: its body runs up to the outcome, which
    becomes the outcome of the promise returned; the call does not throw. *)
Definition async {S A} (m : M S A) : M S (Exc A) :=
  fun s => let (s', r) := m s in (s', Ret r).

(** [xs.forEach(f)]. *)
Fixpoint forEach {S A} (xs : list A) (f : A -> M S unit) : M S unit :=
  match xs with
  | [] => ret tt
  | x :: xs' => bind (f x) (fun _ => forEach xs' f)
  end.

Declare Scope eff_scope.
Delimit Scope eff_scope with eff.

Notation "x <- m ;; k" := (bind m (fun x => k))
  (at level 61, m at next level, right associativity) : eff_scope.
Notation "m ;; k" := (bind m (fun _ => k))
  (at level 61, right associativity) : eff_scope.

End Eff.

Import Eff.

(** ** dev-server.ts *)

Module DevServer.

Import Builder.
Local Open Scope eff_scope.

(** *** The reload payload *)

Definition headerEndMarker : str := lit "// ==/UserScript==".

Definition hotReloadMarker : str :=
  lit "// Hot reload client - injected in development mode".

Definition hotReloadEndMarker : str := lit "})();".

(** First stage of [notifyClients]: drop everything up to and including the
    first header end marker, then the leading white space. *)
Definition stripHeader (scriptContent : str) : str :=
  let headerEndIndex := indexOf scriptContent headerEndMarker 0 in
  if (headerEndIndex =? -1)%Z then scriptContent
  else
    trimStart
      (slice scriptContent
         (headerEndIndex + Z.of_nat (length headerEndMarker))%Z).

(** Second stage of [notifyClients]: drop the hot reload client. *)
Definition stripHotReload (code : str) : str :=
  let hotReloadIndex := indexOf code hotReloadMarker 0 in
  if (hotReloadIndex =? -1)%Z then code
  else
    let hotReloadEndIndex :=
      indexOf code hotReloadEndMarker (Z.to_nat hotReloadIndex) in
    if (hotReloadEndIndex =? -1)%Z then code
    else
      trimStart
        (slice code
           (hotReloadEndIndex + Z.of_nat (length hotReloadEndMarker))%Z).

(** The [code] of the reload message, from the text of the built script. *)
Definition reloadCode (scriptContent : str) : str :=
  stripHotReload (stripHeader scriptContent).

(** The object [{ type: "reload", code }]; it stands for its JSON text. *)
Record ReloadPayload := {
  type : str;
  code : str
}.

(** *** The world the server runs in *)

(** The namespace object of the configuration module: its default export,
    if truthy, and the namespace itself read as a configuration. *)
Record RawConfig := {
  raw_metadata : option UserscriptMetadata;
  raw_build : option BuildOptions
}.

Record ModuleNS := {
  mod_default : option RawConfig;
  mod_named : RawConfig
}.

(** The built script at [scriptPath]. [Unreadable] is a file that exists and
    whose read throws. *)
Inductive FileState :=
| Missing
| Readable (content : str)
| Unreadable (e : Error).

Definition existsSync (f : FileState) : bool :=
  match f with
  | Missing => false
  | _ => true
  end.

Definition readFileSync {S} (f : FileState) : M S str :=
  match f with
  | Missing => throw (Failure (lit "ENOENT"))
  | Readable content => ret content
  | Unreadable e => throw e
  end.

(** A WebSocket object, by identity. *)
Definition Client := nat.

Record Response := {
  status : nat;
  headers : list (str * str);
  body : str
}.

(** What the server does that can be observed, in order: console lines,
    calls to the builder, network sends and HTTP responses. *)
Inductive Action :=
| LogBuilding
| LogInitialBuildComplete
| LogFileChanged (path : str)
| LogFileAdded (path : str)
| LogRebuilding
| CallLoadConfig
| CallBuild (config : UserscriptConfig) (dev : bool) (hotReloadPort : Z)
| LogRebuildComplete
| LogBuildFailed (error : Error)
| Send (client : Client) (message : ReloadPayload)
| LogSentReload (size : nat) (kb : Z)
| LogReadFailed (error : Error)
| LogClientConnected (size : nat)
| LogClientDisconnected (size : nat)
| Respond (response : Response).

(** An activation of [rebuild] parked at one of its two awaits. The promise
    of [loadConfig] carries its outcome; the one of [build] is settled by
    the bundler. *)
Inductive Suspended :=
| AwaitLoadConfig (promise : Exc UserscriptConfig)
| AwaitBuild.

Record State := {
  (* constants of the closure of startDevServer *)
  wsPort : Z;
  outFile : str;
  (* variables of the closure *)
  rebuilding : bool;
  needsRebuild : bool;
  clients : list Client;
  (* activations of rebuild waiting for a promise *)
  suspended : list Suspended;
  (* the environment *)
  configFile : option ModuleNS;
  moduleMap : option ModuleNS;
  scriptFile : FileState;
  readyState : Client -> N;
  (* observable behaviour so far, oldest first *)
  trace : list Action
}.

Definition set_rebuilding (b : bool) (s : State) : State :=
  {| wsPort := wsPort s; outFile := outFile s; rebuilding := b;
     needsRebuild := needsRebuild s; clients := clients s;
     suspended := suspended s; configFile := configFile s;
     moduleMap := moduleMap s; scriptFile := scriptFile s;
     readyState := readyState s; trace := trace s |}.

Definition set_needsRebuild (b : bool) (s : State) : State :=
  {| wsPort := wsPort s; outFile := outFile s; rebuilding := rebuilding s;
     needsRebuild := b; clients := clients s;
     suspended := suspended s; configFile := configFile s;
     moduleMap := moduleMap s; scriptFile := scriptFile s;
     readyState := readyState s; trace := trace s |}.

Definition set_clients (cs : list Client) (s : State) : State :=
  {| wsPort := wsPort s; outFile := outFile s; rebuilding := rebuilding s;
     needsRebuild := needsRebuild s; clients := cs;
     suspended := suspended s; configFile := configFile s;
     moduleMap := moduleMap s; scriptFile := scriptFile s;
     readyState := readyState s; trace := trace s |}.

Definition set_suspended (l : list Suspended) (s : State) : State :=
  {| wsPort := wsPort s; outFile := outFile s; rebuilding := rebuilding s;
     needsRebuild := needsRebuild s; clients := clients s;
     suspended := l; configFile := configFile s;
     moduleMap := moduleMap s; scriptFile := scriptFile s;
     readyState := readyState s; trace := trace s |}.

Definition set_configFile (f : option ModuleNS) (s : State) : State :=
  {| wsPort := wsPort s; outFile := outFile s; rebuilding := rebuilding s;
     needsRebuild := needsRebuild s; clients := clients s;
     suspended := suspended s; configFile := f;
     moduleMap := moduleMap s; scriptFile := scriptFile s;
     readyState := readyState s; trace := trace s |}.

Definition set_moduleMap (m : option ModuleNS) (s : State) : State :=
  {| wsPort := wsPort s; outFile := outFile s; rebuilding := rebuilding s;
     needsRebuild := needsRebuild s; clients := clients s;
     suspended := suspended s; configFile := configFile s;
     moduleMap := m; scriptFile := scriptFile s;
     readyState := readyState s; trace := trace s |}.

Definition set_scriptFile (f : FileState) (s : State) : State :=
  {| wsPort := wsPort s; outFile := outFile s; rebuilding := rebuilding s;
     needsRebuild := needsRebuild s; clients := clients s;
     suspended := suspended s; configFile := configFile s;
     moduleMap := moduleMap s; scriptFile := f;
     readyState := readyState s; trace := trace s |}.

Definition set_readyState (r : Client -> N) (s : State) : State :=
  {| wsPort := wsPort s; outFile := outFile s; rebuilding := rebuilding s;
     needsRebuild := needsRebuild s; clients := clients s;
     suspended := suspended s; configFile := configFile s;
     moduleMap := moduleMap s; scriptFile := scriptFile s;
     readyState := r; trace := trace s |}.

Definition set_trace (t : list Action) (s : State) : State :=
  {| wsPort := wsPort s; outFile := outFile s; rebuilding := rebuilding s;
     needsRebuild := needsRebuild s; clients := clients s;
     suspended := suspended s; configFile := configFile s;
     moduleMap := moduleMap s; scriptFile := scriptFile s;
     readyState := readyState s; trace := t |}.

(** Emit one observable action. *)
Definition emit (a : Action) : M State unit :=
  modify (fun s => set_trace (trace s ++ [a]) s).

(** Park the running activation of [rebuild] at an await. *)
Definition park (a : Suspended) : M State unit :=
  modify (fun s => set_suspended (suspended s ++ [a]) s).

(** *** builder.ts: loadConfig *)

(** [await import(url)] of the configuration file. The engine loads a module
    once for a specifier (ECMAScript requires the host to give the same
    module each time the same specifier is imported from the same module),
    and [loadConfig] always builds the same specifier from [configPath]:
    when the module map already holds the module, a later import yields
    that module again, whatever the file holds by then. *)
Definition importConfig (onDisk : ModuleNS) : M State ModuleNS :=
  cached <- gets moduleMap ;;
  match cached with
  | Some m => ret m
  | None => modify (set_moduleMap (Some onDisk)) ;; ret onDisk
  end.

(** The body of [loadConfig]. *)
Definition loadConfigBody : M State UserscriptConfig :=
  f <- gets configFile ;;
  match f with
  | None => throw ConfigNotFound
  | Some onDisk =>
      configModule <- importConfig onDisk ;;
      let config :=
        match mod_default configModule with
        | Some c => c
        | None => mod_named configModule
        end in
      match raw_metadata config with
      | None => throw InvalidConfig
      | Some md => ret {| metadata := md; build := raw_build config |}
      end
  end.

(** [loadConfig(configPath)]: the promise it returns, by its outcome. *)
Definition loadConfig : M State (Exc UserscriptConfig) :=
  emit CallLoadConfig ;;
  async loadConfigBody.

(** *** The HTTP endpoint *)

Definition textPlain : list (str * str) :=
  [(lit "Content-Type", lit "text/plain")].

(** The request listener of [createServer], on [req.url]. *)
Definition handleRequest (url : str) : M State unit :=
  file <- gets outFile ;;
  if Js.eqb url (lit "/" ++ file) || Js.eqb url (lit "/") then
    f <- gets scriptFile ;;
    if negb (existsSync f) then
      emit (Respond {| status := 404; headers := textPlain;
                       body := lit "Userscript not found" |})
    else
      tryCatch
        (content <- readFileSync f ;;
         emit (Respond {| status := 200;
                          headers :=
                            [(lit "Content-Type", lit "text/javascript");
                             (lit "Access-Control-Allow-Origin", lit "*")];
                          body := content |}))
        (fun _ =>
           emit (Respond {| status := 500; headers := textPlain;
                            body := lit "Error reading userscript" |}))
  else
    emit (Respond {| status := 404; headers := textPlain;
                     body := lit "Not found" |}).

(** The path of a request URL, in the words of the specification of the
    endpoint: the part of [req.url] before the query string. The listener
    does not compute it. *)
Definition pathOf (url : str) : str :=
  match find (lit "?") url with
  | Some i => firstn i url
  | None => url
  end.

(** *** The live-update channel *)

(** [clients.add(ws)] on the insertion-ordered set. *)
Definition setAdd (ws : Client) (cs : list Client) : list Client :=
  if existsb (Nat.eqb ws) cs then cs else cs ++ [ws].

(** [clients.delete(ws)]. *)
Definition setDelete (ws : Client) (cs : list Client) : list Client :=
  filter (fun c => negb (Nat.eqb ws c)) cs.

(** The handler of the server's "connection" event. *)
Definition onConnection (ws : Client) : M State unit :=
  modify (fun s => set_clients (setAdd ws (clients s)) s) ;;
  size <- gets (fun s => length (clients s)) ;;
  emit (LogClientConnected size).

(** The handler of a socket's "close" event. *)
Definition onClose (ws : Client) : M State unit :=
  modify (fun s => set_clients (setDelete ws (clients s)) s) ;;
  size <- gets (fun s => length (clients s)) ;;
  emit (LogClientDisconnected size).

(** [Math.round(n / 1024)]. *)
Definition roundKb (n : nat) : Z := ((Z.of_nat n + 512) / 1024)%Z.

(** [notifyClients()]. *)
Definition notifyClients : M State unit :=
  tryCatch
    (f <- gets scriptFile ;;
     scriptContent <- readFileSync f ;;
     let code := reloadCode scriptContent in
     let message := {| type := lit "reload"; code := code |} in
     cs <- gets clients ;;
     forEach cs
       (fun client =>
          state <- gets (fun s => readyState s client) ;;
          if (state =? 1)%N then emit (Send client message) else ret tt) ;;
     emit (LogSentReload (length cs) (roundKb (length code))))
    (fun error => emit (LogReadFailed error)).

(** *** The rebuild coordinator *)

(** [rebuild()] from its call to its first await. *)
Definition rebuild : M State unit :=
  busy <- gets rebuilding ;;
  if busy then modify (set_needsRebuild true)
  else
    modify (set_rebuilding true) ;;
    emit LogRebuilding ;;
    promise <- loadConfig ;;
    park (AwaitLoadConfig promise).

(** The statements of [rebuild] after its [try] block. *)
Definition afterTry : M State unit :=
  modify (set_rebuilding false) ;;
  again <- gets needsRebuild ;;
  if again then modify (set_needsRebuild false) ;; rebuild
  else ret tt.

(** [rebuild()] from the await it is parked at, once the awaited promise has
    settled; [bundler] is the outcome of the promise of [build]. The [try]
    block either reaches the next await ([false]) or is left ([true]). *)
Definition rebuildResume (a : Suspended) (bundler : Exc unit)
  : M State unit :=
  left <-
    tryCatch
      (match a with
       | AwaitLoadConfig promise =>
           freshConfig <- settled promise ;;
           port <- gets wsPort ;;
           emit (CallBuild freshConfig true port) ;;
           park AwaitBuild ;;
           ret false
       | AwaitBuild =>
           settled bundler ;;
           emit LogRebuildComplete ;;
           notifyClients ;;
           ret true
       end)
      (fun error => emit (LogBuildFailed error) ;; ret true) ;;
  if left then afterTry else ret tt.

(** *** The event loop *)

(** What the event loop delivers to the server, one at a time: watcher
    events, the settling of the promise awaited by the [k]-th parked
    activation, the connection of a socket and its "close" event, HTTP
    requests; and what the environment does between them: a socket changes
    its transport state, the configuration file or the built script is
    written or removed. *)
Inductive Event :=
| Change (path : str)
| Add (path : str)
| Settle (k : nat) (bundler : Exc unit)
| Connection (ws : Client)
| Close (ws : Client)
| Request (url : str)
| TransportState (ws : Client) (state : N)
| ConfigWritten (f : option ModuleNS)
| ScriptWritten (f : FileState).

Fixpoint removeNth {A} (k : nat) (l : list A) : list A :=
  match k, l with
  | _, [] => []
  | O, _ :: l' => l'
  | S k', x :: l' => x :: removeNth k' l'
  end.

(** One turn of the event loop. *)
Definition step (e : Event) : M State unit :=
  match e with
  | Change path => emit (LogFileChanged path) ;; rebuild
  | Add path => emit (LogFileAdded path) ;; rebuild
  | Settle k bundler =>
      parked <- gets suspended ;;
      match nth_error parked k with
      | Some a =>
          modify (set_suspended (removeNth k parked)) ;;
          rebuildResume a bundler
      | None => ret tt
      end
  | Connection ws => onConnection ws
  | Close ws => onClose ws
  | Request url => handleRequest url
  | TransportState ws state =>
      modify
        (fun s =>
           set_readyState
             (fun c => if Nat.eqb c ws then state else readyState s c) s)
  | ConfigWritten f => modify (set_configFile f)
  | ScriptWritten f => modify (set_scriptFile f)
  end.

(** The turns of the event loop for a sequence of events; an exception that
    leaves a handler ends the process. *)
Definition run (es : list Event) : M State unit := forEach es step.

(** The state after [es], from [s]. *)
Definition after (es : list Event) (s : State) : State := fst (run es s).

(** *** Start-up *)

(** A number as the options carry it: [NaN], which [parseInt] gives for a
    text that does not start with a number, or an integer, taken in the
    range in which the engine counts exactly (below 2^53 in absolute
    value). *)
Inductive Num :=
| NaN
| Finite (n : Z).

Record DevServerOptions := {
  port : option Num;
  opt_wsPort : option Num;
  configPath : option str
}.

(** [x || d] on an optional number: [undefined], [NaN] and 0 are falsy. *)
Definition orNumber (x : option Num) (d : Z) : Z :=
  match x with
  | Some (Finite n) => if (n =? 0)%Z then d else n
  | Some NaN | None => d
  end.

(** [x || d] on an optional string. *)
Definition orString (x : option str) (d : str) : str :=
  match x with
  | Some [] | None => d
  | Some v => v
  end.

Inductive Started :=
| Exit (code : nat)
| Running (s : State).

(** [startDevServer(options)] up to the point where the watcher and the
    servers listen. [defaultOutputFile] is what [getDefaultOutputFile]
    returns, [initialBuild] the outcome of the first [build], and the other
    arguments describe the environment; [script0] is the built script as it
    is on disk at that point, after the initial build. *)
Definition startDevServer (options : DevServerOptions)
    (defaultOutputFile : str) (config0 : option ModuleNS)
    (script0 : FileState) (ready0 : Client -> N) (initialBuild : Exc unit)
  : Started :=
  let port := orNumber (port options) 3000%Z in
  let wsPort := orNumber (opt_wsPort options) (port + 1)%Z in
  let boot :=
    {| wsPort := wsPort; outFile := []; rebuilding := false;
       needsRebuild := false; clients := []; suspended := [];
       configFile := config0; moduleMap := None; scriptFile := script0;
       readyState := ready0; trace := [] |} in
  match loadConfig boot with
  | (s, Ret (Ret config)) =>
      let file :=
        orString
          (match Builder.build config with
           | Some b => Builder.outFile b
           | None => None
           end)
          defaultOutputFile in
      match initialBuild with
      | Ret _ =>
          Running
            {| wsPort := wsPort; outFile := file; rebuilding := false;
               needsRebuild := false; clients := []; suspended := [];
               configFile := configFile s; moduleMap := moduleMap s;
               scriptFile := scriptFile s; readyState := readyState s;
               trace :=
                 trace s
                 ++ [LogBuilding; CallBuild config true wsPort;
                     LogInitialBuildComplete] |}
      | Throw _ => Exit 1
      end
  | _ => Exit 1
  end.

(** *** What the trace shows *)

Definition isStart (a : Action) : bool :=
  match a with
  | LogRebuilding => true
  | _ => false
  end.

Definition isEnd (a : Action) : bool :=
  match a with
  | LogRebuildComplete | LogBuildFailed _ => true
  | _ => false
  end.

Definition isSend (a : Action) : bool :=
  match a with
  | Send _ _ => true
  | _ => false
  end.

(** The rebuilds started so far. *)
Definition started (s : State) : nat := length (filter isStart (trace s)).

(** The rebuilds that have run to their end, in success or in failure. *)
Definition ended (s : State) : nat := length (filter isEnd (trace s)).

(** The clients a trace sends to, in order. *)
Definition recipients (t : list Action) : list Client :=
  flat_map (fun a => match a with Send c _ => [c] | _ => [] end) t.

(** Replays the start and end marks of a trace. The result is [Some b] when
    no rebuild starts while another is under way and none ends that was not
    under way, and then [b] tells whether one is under way at the end of the
    trace; it is [None] otherwise. *)
Fixpoint serial (underway : bool) (t : list Action) : option bool :=
  match t with
  | [] => Some underway
  | a :: t' =>
      if isStart a then (if underway then None else serial true t')
      else if isEnd a then (if underway then serial false t' else None)
      else serial underway t'
  end.

(** The server as the watcher finds it when it starts: no rebuild under way,
    none requested. *)
Definition Quiet (s : State) : Prop :=
  rebuilding s = false /\ needsRebuild s = false /\ suspended s = []
  /\ serial false (trace s) = Some false.

(** A watcher event, which calls [rebuild]. *)
Definition isTrigger (e : Event) : bool :=
  match e with
  | Change _ | Add _ => true
  | _ => false
  end.

End DevServer.

(** ** The injected client at run time

    The handlers of the client text of [HotReloadClient], as the script host
    runs them. *)

Module Runtime.

Local Open Scope eff_scope.

(** What the host page decides: whether [window.__USX_CLEANUP__] is a
    function and how a call to it ends, how the indirect [eval] of a text
    ends, and how the [WebSocket] constructor ends. *)
Record Host := {
  cleanup : option (Exc unit);
  evalGlobal : str -> Exc unit;
  webSocket : Exc unit
}.

(** The value of [data.code], as far as the handler and [eval] look at
    it. *)
Inductive Code :=
| CodeFalsy            (* undefined, null, false, 0 *)
| CodeText (s : str)   (* a string; the empty string is falsy *)
| CodeOther.           (* a truthy value that is not a string *)

(** [JSON.parse(event.data)], as far as the handler looks at it: the value
    [null], or any other value with its [type], when that is a string, and
    its [code]. *)
Inductive Json :=
| JNull
| JObject (type : option str) (code : Code).

Inductive Line :=
| Connected
| Reloading
| ReloadComplete
| Disconnected
| CleanupError (e : Error)
| ExecutionError (e : Error)
| SocketError
| ConnectFailed (e : Error).

Inductive Action :=
| NewWebSocket (port : Z)
| ConsoleLog (l : Line)
| ConsoleWarn (l : Line)
| ConsoleError (l : Line)
| CallCleanup
| Eval (code : str)
| EvalValue            (* [eval] of a value that is not a string *)
| WsClose (socket : nat)
| SetTimeout (ms : nat)
| ClearTimeout (timer : nat).

Record State := {
  HOT_RELOAD_PORT : Z;
  ws : option nat;              (* the socket object, by identity *)
  reconnectTimer : option nat;  (* a timer id, or null *)
  timers : list nat;            (* the timers that have not fired *)
  fresh : nat;                  (* the next identity the host hands out *)
  trace : list Action
}.

Definition set_ws (w : option nat) (s : State) : State :=
  {| HOT_RELOAD_PORT := HOT_RELOAD_PORT s; ws := w;
     reconnectTimer := reconnectTimer s; timers := timers s;
     fresh := fresh s; trace := trace s |}.

Definition set_reconnectTimer (t : option nat) (s : State) : State :=
  {| HOT_RELOAD_PORT := HOT_RELOAD_PORT s; ws := ws s;
     reconnectTimer := t; timers := timers s;
     fresh := fresh s; trace := trace s |}.

Definition set_timers (l : list nat) (s : State) : State :=
  {| HOT_RELOAD_PORT := HOT_RELOAD_PORT s; ws := ws s;
     reconnectTimer := reconnectTimer s; timers := l;
     fresh := fresh s; trace := trace s |}.

Definition set_fresh (n : nat) (s : State) : State :=
  {| HOT_RELOAD_PORT := HOT_RELOAD_PORT s; ws := ws s;
     reconnectTimer := reconnectTimer s; timers := timers s;
     fresh := n; trace := trace s |}.

Definition set_trace (t : list Action) (s : State) : State :=
  {| HOT_RELOAD_PORT := HOT_RELOAD_PORT s; ws := ws s;
     reconnectTimer := reconnectTimer s; timers := timers s;
     fresh := fresh s; trace := t |}.

Definition emit (a : Action) : M State unit :=
  modify (fun s => set_trace (trace s ++ [a]) s).

(** A new identity from the host. *)
Definition newId : M State nat :=
  n <- gets fresh ;;
  modify (set_fresh (S n)) ;;
  ret n.

(** [setTimeout(connect, 1000)]. *)
Definition setTimeout : M State nat :=
  t <- newId ;;
  emit (SetTimeout 1000) ;;
  modify (fun s => set_timers (timers s ++ [t]) s) ;;
  ret t.

(** [clearTimeout(t)]. *)
Definition clearTimeout (t : nat) : M State unit :=
  emit (ClearTimeout t) ;;
  modify
    (fun s =>
       set_timers (filter (fun u => negb (Nat.eqb t u)) (timers s)) s).

(** [connect()]. *)
Definition connect (h : Host) : M State unit :=
  tryCatch
    (port <- gets HOT_RELOAD_PORT ;;
     emit (NewWebSocket port) ;;
     settled (webSocket h) ;;
     sock <- newId ;;
     modify (set_ws (Some sock)))
    (fun error =>
       emit (ConsoleError (ConnectFailed error)) ;;
       t <- setTimeout ;;
       modify (set_reconnectTimer (Some t))).

(** [ws.onopen]. *)
Definition onopen : M State unit :=
  emit (ConsoleLog Connected) ;;
  timer <- gets reconnectTimer ;;
  match timer with
  | Some t => clearTimeout t ;; modify (set_reconnectTimer None)
  | None => ret tt
  end.

(** Whether a value of [data.code] is truthy. *)
Definition truthy (code : Code) : bool :=
  match code with
  | CodeText (_ :: _) | CodeOther => true
  | CodeText [] | CodeFalsy => false
  end.

(** [data.type === 'reload' && data.code]: the value to hand to [eval], if
    the test passes. *)
Definition reloadText (data : Json) : M State (option Code) :=
  match data with
  | JNull => throw TypeError
  | JObject type code =>
      match type with
      | Some t =>
          if Js.eqb t (lit "reload") && truthy code then ret (Some code)
          else ret None
      | None => ret None
      end
  end.

(** [ws.onmessage]; [parsed] is how [JSON.parse(event.data)] ends. *)
Definition onmessage (h : Host) (parsed : Exc Json) : M State unit :=
  data <- settled parsed ;;
  text <- reloadText data ;;
  match text with
  | Some code =>
      emit (ConsoleLog Reloading) ;;
      tryCatch
        (match cleanup h with
         | Some call =>
             tryCatch
               (emit CallCleanup ;; settled call)
               (fun cleanupError =>
                  emit (ConsoleWarn (CleanupError cleanupError)))
         | None => ret tt
         end ;;
         match code with
         | CodeText text => emit (Eval text) ;; settled (evalGlobal h text)
         | _ => emit EvalValue   (* [eval] returns such a value as it is *)
         end ;;
         emit (ConsoleLog ReloadComplete))
        (fun error => emit (ConsoleError (ExecutionError error)))
  | None => ret tt
  end.

(** [ws.onclose]. *)
Definition onclose : M State unit :=
  emit (ConsoleLog Disconnected) ;;
  t <- setTimeout ;;
  modify (set_reconnectTimer (Some t)).

(** [ws.onerror]. *)
Definition onerror : M State unit :=
  emit (ConsoleError SocketError) ;;
  w <- gets ws ;;
  match w with
  | Some sock => emit (WsClose sock)
  | None => throw TypeError
  end.

(** The listener of "beforeunload". *)
Definition beforeunload : M State unit :=
  w <- gets ws ;;
  match w with
  | Some sock => emit (WsClose sock)
  | None => ret tt
  end ;;
  timer <- gets reconnectTimer ;;
  match timer with
  | Some t => clearTimeout t
  | None => ret tt
  end.

Inductive Event :=
| Open
| Message (parsed : Exc Json)
| Closed
| Errored
| TimerFired (t : nat)
| BeforeUnload.

(** One turn of the host's event loop. *)
Definition step (h : Host) (e : Event) : M State unit :=
  match e with
  | Open => onopen
  | Message parsed => onmessage h parsed
  | Closed => onclose
  | Errored => onerror
  | TimerFired t =>
      pending <- gets timers ;;
      if existsb (Nat.eqb t) pending then
        modify (set_timers (filter (fun u => negb (Nat.eqb t u)) pending)) ;;
        connect h
      else ret tt
  | BeforeUnload => beforeunload
  end.

(** The client text starts running: the state after the first [connect]. *)
Definition start (h : Host) (port : Z) : State * Exc unit :=
  connect h
    {| HOT_RELOAD_PORT := port; ws := None; reconnectTimer := None;
       timers := []; fresh := 1; trace := [] |}.

End Runtime.

(** ** builder.ts: the default output file name *)

Module OutputFile.

Import DevServer.
Local Open Scope eff_scope.

(** What reading the property [name] of the parsed package file gives. *)
Inductive PropertyValue :=
| Falsy            (* undefined, null, false, 0 *)
| Text (s : str)   (* a string; the empty string is falsy *)
| Other.           (* a truthy value that is not a string: no [replace] *)

(** The value of [JSON.parse(text)], as far as the function looks at it. *)
Inductive Parsed :=
| Null                            (* reading a property of it throws *)
| Value (name : PropertyValue).   (* any other value *)

(** [s.replace(/^@/, "")]. *)
Definition stripLeadingAt (s : str) : str :=
  match s with
  | c :: s' => if (c =? 64)%N then s' else s
  | [] => []
  end.

(** [s.replace(/\//g, "-")]. *)
Definition slashesToDashes (s : str) : str :=
  map (fun c => if (c =? 47)%N then 45%N else c) s.

(** [getDefaultOutputFile()]; [packageJson] is the file at [pkgPath] and
    [parse] is [JSON.parse]. The [try] block either returns a name or is
    left, by its end or by an exception, for the last statement. *)
Definition getDefaultOutputFile {S} (packageJson : FileState)
    (parse : str -> Exc Parsed) : M S str :=
  returned <-
    tryCatch
      (if existsSync packageJson then
         text <- readFileSync packageJson ;;
         pkg <- settled (parse text) ;;
         name <- match pkg with
                 | Null => throw TypeError
                 | Value name => ret name
                 end ;;
         match name with
         | Text (c :: s) =>
             let filename := slashesToDashes (stripLeadingAt (c :: s)) in
             ret (Some (filename ++ lit ".user.js"))
         | Other => throw TypeError
         | _ => ret None
         end
       else ret None)
      (fun _error => ret None) ;;
  match returned with
  | Some file => ret file
  | None => ret (lit "bundle.user.js")
  end.

End OutputFile.

(** ** The injected client over the life of a page *)

Module Page.

Import Runtime.

(** The turns of the host's event loop for a sequence of events. An
    exception that leaves a handler is reported by the host; the page and
    the handlers of later events are not affected. *)
Definition run (h : Host) (es : list Event) (s : State) : State :=
  fold_left (fun s e => fst (step h e s)) es s.

End Page.

(** * Facts about the string operations *)

Section StringFacts.

Lemma eqb_eq (s t : str) : Js.eqb s t = true <-> s = t.
Proof.
  revert t; induction s as [|c s IH]; intros [|d t]; simpl;
    try (split; [discriminate | congruence]); try tauto.
  rewrite andb_true_iff, N.eqb_eq, IH.
  split; [intros [-> ->]; reflexivity | intros H; injection H; auto].
Qed.

Lemma startsWith_iff (p s : str) :
  startsWith p s = true <-> exists t, s = p ++ t.
Proof.
  revert s; induction p as [|c p IH]; intros s; simpl.
  - split; eauto.
  - destruct s as [|d s].
    + split; [discriminate | intros [t H]; discriminate].
    + rewrite andb_true_iff, N.eqb_eq, IH. split.
      * intros [-> [t ->]]. eauto.
      * intros [t H]. injection H as -> ->. eauto.
Qed.

Lemma startsWith_app (p t : str) : startsWith p (p ++ t) = true.
Proof. apply startsWith_iff. eauto. Qed.

Lemma startsWith_length (p s : str) :
  startsWith p s = true -> length p <= length s.
Proof.
  intros H. apply startsWith_iff in H as [t ->].
  rewrite length_app. lia.
Qed.

Lemma startsWith_app_l (p x y : str) :
  startsWith p x = true -> startsWith p (x ++ y) = true.
Proof.
  intros H. apply startsWith_iff in H as [t ->].
  rewrite <- app_assoc. apply startsWith_app.
Qed.

Lemma startsWith_app_inv (p x y : str) :
  startsWith p (x ++ y) = true -> length p <= length x ->
  startsWith p x = true.
Proof.
  revert x; induction p as [|c p IH]; intros x H L; simpl in *; auto.
  destruct x as [|d x]; simpl in *; [lia|].
  apply andb_true_iff in H as [-> H]. simpl. apply IH; auto. lia.
Qed.

(** [occurrences] lists exactly the offsets at which [p] is a prefix of the
    rest. *)
Lemma occurrences_In (p s : str) (i : nat) :
  In i (occurrences p s) <->
  startsWith p (skipn i s) = true /\ i <= length s.
Proof.
  revert i; induction s as [|c s IH]; intros i.
  - simpl. rewrite app_nil_r, skipn_nil.
    destruct (startsWith p []); simpl; split.
    + intros [<-|[]]. auto.
    + intros [_ L]. left. lia.
    + tauto.
    + intros [? _]. discriminate.
  - cbn [occurrences]. rewrite in_app_iff, in_map_iff.
    destruct i as [|i].
    + cbn [skipn]. split.
      * intros [H|[j [H _]]]; [|discriminate].
        destruct (startsWith p (c :: s));
          [split; [auto | simpl; lia] | destruct H].
      * intros [-> _]. left. left. reflexivity.
    + cbn [skipn length]. rewrite <- Nat.succ_le_mono, <- IH. split.
      * intros [H|[j [H J]]].
        -- destruct (startsWith p (c :: s)); simpl in H; [|tauto].
           destruct H as [H|[]]; discriminate.
        -- injection H as <-. exact J.
      * intros H. right. eauto.
Qed.

Lemma hd_error_map {A B} (f : A -> B) (l : list A) :
  hd_error (map f l) = option_map f (hd_error l).
Proof. destruct l; reflexivity. Qed.

(** [find] is the first of the [occurrences]. *)
Lemma find_hd (p s : str) : find p s = hd_error (occurrences p s).
Proof.
  induction s as [|c s IH]; simpl.
  - destruct (startsWith p []); reflexivity.
  - destruct (startsWith p (c :: s)); simpl; auto.
    rewrite hd_error_map, IH. reflexivity.
Qed.

Lemma find_In (p s : str) (i : nat) :
  find p s = Some i -> In i (occurrences p s).
Proof.
  rewrite find_hd. destruct (occurrences p s); simpl; [discriminate|].
  intros H. injection H as ->. auto.
Qed.

Lemma find_None (p s : str) : find p s = None <-> occurrences p s = [].
Proof.
  rewrite find_hd. destruct (occurrences p s); simpl; split;
    auto; discriminate.
Qed.

(** What [find] returns is an occurrence, and the least one. *)
Lemma find_Some (p s : str) (i : nat) :
  find p s = Some i ->
  startsWith p (skipn i s) = true /\ i <= length s
  /\ forall j, j < i -> startsWith p (skipn j s) = false.
Proof.
  revert i; induction s as [|c s IH]; intros i; simpl.
  - destruct (startsWith p []) eqn:E; [|discriminate].
    intros H; injection H as <-. simpl. repeat split; auto. lia.
  - destruct (startsWith p (c :: s)) eqn:E.
    + intros H; injection H as <-. simpl. repeat split; auto; lia.
    + destruct (find p s) as [k|] eqn:F; simpl; [|discriminate].
      intros H; injection H as <-.
      destruct (IH k eq_refl) as (A & B & C). simpl.
      repeat split; auto; [lia|].
      intros [|j] J; simpl; auto. apply C. lia.
Qed.

Lemma find_exists (p s : str) (i : nat) :
  startsWith p (skipn i s) = true -> i <= length s -> find p s <> None.
Proof.
  intros H L. rewrite find_None. intros E.
  assert (I : In i (occurrences p s)) by (apply occurrences_In; auto).
  rewrite E in I. destruct I.
Qed.

Lemma find_bound (p s : str) (i : nat) :
  find p s = Some i -> i + length p <= length s.
Proof.
  intros H. apply find_Some in H as (A & B & _).
  apply startsWith_length in A. rewrite length_skipn in A. lia.
Qed.

(** An occurrence inside [x] is found at the same place in [x ++ y]. *)
Lemma find_app_l (p x y : str) (i : nat) :
  find p x = Some i -> find p (x ++ y) = Some i.
Proof.
  revert i; induction x as [|c x IH]; intros i; simpl.
  - destruct (startsWith p []) eqn:E; [|discriminate].
    intros H; injection H as <-.
    destruct p; [|discriminate]. destruct y; reflexivity.
  - destruct (startsWith p (c :: x)) eqn:E.
    + intros H; injection H as <-.
      change (c :: x ++ y) with ((c :: x) ++ y).
      rewrite startsWith_app_l; auto.
    + destruct (find p x) as [k|] eqn:F; simpl; [|discriminate].
      intros H; injection H as <-.
      rewrite (IH k eq_refl). simpl.
      destruct (startsWith p (c :: x ++ y)) eqn:G; auto.
      apply find_bound in F.
      change (c :: x ++ y) with ((c :: x) ++ y) in G.
      apply startsWith_app_inv in G; [congruence | simpl; lia].
Qed.

(** A pattern whose first code unit is absent from [x] occurs in [x ++ y]
    only inside [y]. *)
Lemma occurrences_skip (c : char) (p x y : str) :
  existsb (N.eqb c) x = false ->
  occurrences (c :: p) (x ++ y)
  = map (Nat.add (length x)) (occurrences (c :: p) y).
Proof.
  induction x as [|d x IH]; intros H.
  - simpl. rewrite map_id. reflexivity.
  - simpl in H. apply orb_false_iff in H as [D H].
    cbn [app occurrences startsWith]. rewrite D. simpl.
    rewrite IH, map_map; auto.
Qed.

Lemma find_skip (c : char) (p x y : str) :
  existsb (N.eqb c) x = false ->
  find (c :: p) (x ++ y) = option_map (Nat.add (length x)) (find (c :: p) y).
Proof.
  intros H. rewrite !find_hd, occurrences_skip, hd_error_map; auto.
Qed.

(** Occurrences in a suffix are occurrences in the whole. *)
Lemma occurrences_skipn (p s : str) (k j : nat) :
  k <= length s -> In j (occurrences p (skipn k s)) ->
  In (k + j) (occurrences p s).
Proof.
  intros K H. apply occurrences_In in H as [A B].
  apply occurrences_In. rewrite skipn_skipn in A.
  rewrite length_skipn in B. split; [|lia].
  rewrite Nat.add_comm. exact A.
Qed.

Lemma atMostOnce_length (p s : str) :
  length (occurrences p s) <= 1 -> AtMostOnce p s.
Proof.
  unfold AtMostOnce. destruct (occurrences p s) as [|x [|y l]]; simpl.
  - intros _ i j [].
  - intros _ i j [<-|[]] [<-|[]]. reflexivity.
  - lia.
Qed.

Lemma atMostOnce_skipn (p s : str) (k : nat) :
  k <= length s -> AtMostOnce p s -> AtMostOnce p (skipn k s).
Proof.
  intros K U i j I J.
  apply (@occurrences_skipn p s k _ K) in I, J.
  specialize (U _ _ I J). lia.
Qed.

(** Past its only occurrence, a pattern is not found. *)
Lemma find_past (p s : str) (i k : nat) :
  AtMostOnce p s -> find p s = Some i -> i < k -> k <= length s ->
  find p (skipn k s) = None.
Proof.
  intros U F L K. destruct (find p (skipn k s)) as [j|] eqn:G; auto.
  apply find_In in F, G. apply (@occurrences_skipn p s k _ K) in G.
  specialize (U _ _ F G). lia.
Qed.

Lemma find_None_skipn (p s : str) (k : nat) :
  k <= length s -> find p s = None -> find p (skipn k s) = None.
Proof.
  intros K F. destruct (find p (skipn k s)) as [j|] eqn:G; auto.
  apply find_In, (@occurrences_skipn p s k _ K) in G.
  apply find_None in F. rewrite F in G. destruct G.
Qed.

Lemma find_None_Absent (p s : str) :
  p <> [] -> find p s = None -> Absent p s.
Proof.
  intros P F j. destruct (le_gt_dec j (length s)) as [L|L].
  - destruct (startsWith p (skipn j s)) eqn:E; auto.
    exfalso. revert F. apply find_exists with j; auto.
  - rewrite skipn_all2 by lia. destruct p; [congruence | reflexivity].
Qed.

Lemma find_Some_FirstAt (p s : str) (i : nat) :
  find p s = Some i ->
  FirstAt p s (firstn i s) (skipn (i + length p) s)
  /\ length (firstn i s) = i.
Proof.
  intros F. apply find_Some in F as (A & B & C).
  assert (L : length (firstn i s) = i) by (rewrite length_firstn; lia).
  split; auto. split.
  - apply startsWith_iff in A as [t E].
    rewrite Nat.add_comm, <- skipn_skipn, E, skipn_app, skipn_all, Nat.sub_diag.
    simpl. rewrite <- E. symmetry. apply firstn_skipn.
  - rewrite L. exact C.
Qed.

Lemma indexOf_0 (s p : str) :
  indexOf s p 0
  = match find p s with Some i => Z.of_nat i | None => (-1)%Z end.
Proof. reflexivity. Qed.

Lemma indexOf_from (s p : str) (k : nat) :
  k <= length s ->
  indexOf s p k
  = match find p (skipn k s) with
    | Some i => Z.of_nat (k + i)
    | None => (-1)%Z
    end.
Proof. intros K. unfold indexOf. rewrite Nat.min_l; auto. Qed.

Lemma trimStart_suffix (s : str) :
  exists k, k <= length s /\ trimStart s = skipn k s.
Proof.
  induction s as [|c s (k & K & E)]; simpl.
  - exists 0. auto.
  - destruct (isWhiteSpace c).
    + exists (S k). split; [lia | exact E].
    + exists 0. split; [lia | reflexivity].
Qed.

Lemma trimStart_idem (s : str) : trimStart (trimStart s) = trimStart s.
Proof.
  induction s as [|c s IH]; simpl; auto.
  destruct (isWhiteSpace c) eqn:E; auto. simpl. rewrite E. reflexivity.
Qed.

End StringFacts.

(** * The reload payload *)

Section ReloadPayload.

Import DevServer.

Lemma stripHeader_absent (a : str) :
  find headerEndMarker a = None -> stripHeader a = a.
Proof.
  intros F. unfold stripHeader. rewrite indexOf_0, F. reflexivity.
Qed.

Lemma stripHeader_found (a : str) (i : nat) :
  find headerEndMarker a = Some i ->
  stripHeader a = trimStart (skipn (i + length headerEndMarker) a).
Proof.
  intros F. unfold stripHeader, slice. rewrite indexOf_0, F.
  destruct (Z.eqb_spec (Z.of_nat i) (-1)) as [E|_]; [lia|].
  rewrite <- Nat2Z.inj_add, Nat2Z.id. reflexivity.
Qed.

(** The three ways the second stage can go. *)
Lemma stripHotReload_cases (c : str) :
  (find hotReloadMarker c = None /\ stripHotReload c = c)
  \/ (exists j, find hotReloadMarker c = Some j
        /\ find hotReloadEndMarker (skipn j c) = None
        /\ stripHotReload c = c)
  \/ (exists j k, find hotReloadMarker c = Some j
        /\ find hotReloadEndMarker (skipn j c) = Some k
        /\ stripHotReload c
           = trimStart (skipn (j + k + length hotReloadEndMarker) c)).
Proof.
  unfold stripHotReload, slice. rewrite indexOf_0.
  destruct (find hotReloadMarker c) as [j|] eqn:F; [|left; auto].
  right.
  destruct (Z.eqb_spec (Z.of_nat j) (-1)) as [E|_]; [lia|].
  assert (J : j <= length c) by (apply find_Some in F; tauto).
  rewrite Nat2Z.id, indexOf_from by exact J.
  destruct (find hotReloadEndMarker (skipn j c)) as [k|] eqn:G.
  - right. exists j, k. repeat split; auto.
    destruct (Z.eqb_spec (Z.of_nat (j + k)) (-1)) as [E|_]; [lia|].
    rewrite <- Nat2Z.inj_add, Nat2Z.id. reflexivity.
  - left. exists j. auto.
Qed.

(** Both stages return a suffix of their input. *)
Lemma stripHeader_suffix (a : str) :
  exists k, k <= length a /\ stripHeader a = skipn k a.
Proof.
  destruct (find headerEndMarker a) as [i|] eqn:F.
  - rewrite (stripHeader_found _ F).
    destruct (trimStart_suffix (skipn (i + length headerEndMarker) a))
      as (k & K & ->).
    rewrite length_skipn in K. apply find_bound in F.
    exists (k + (i + length headerEndMarker)).
    rewrite skipn_skipn. split; [lia | reflexivity].
  - rewrite stripHeader_absent by exact F. exists 0. split; [lia | reflexivity].
Qed.

Lemma stripHotReload_suffix (c : str) :
  exists k, k <= length c /\ stripHotReload c = skipn k c.
Proof.
  destruct (stripHotReload_cases c)
    as [[_ ->]|[(j & _ & _ & ->)|(j & k & F & G & ->)]];
    try (exists 0; split; [lia | reflexivity]).
  destruct (trimStart_suffix (skipn (j + k + length hotReloadEndMarker) c))
    as (n & N & ->).
  rewrite length_skipn in N. apply find_bound in G.
  rewrite length_skipn in G. apply find_Some in F as (_ & J & _).
  exists (n + (j + k + length hotReloadEndMarker)).
  rewrite skipn_skipn. split; [lia | reflexivity].
Qed.

(** C3, as amended. The two stages of the payload strip, in terms of where
    the markers first occur. First stage: when the header end marker is
    absent the text is kept, otherwise what follows its first occurrence is
    kept, without leading white space. Second stage, applied to the result
    of the first in both cases: when the client marker is absent, or when no
    closing text "})();" occurs at or after it, the text is kept; otherwise
    what follows the first closing text at or after the marker is kept,
    without leading white space. *)
Theorem reload_code_two_stage (a : str) :
  reloadCode a = stripHotReload (stripHeader a)
  /\ ((Absent headerEndMarker a /\ stripHeader a = a)
      \/ exists pre post,
           FirstAt headerEndMarker a pre post
           /\ stripHeader a = trimStart post)
  /\ forall c,
       (Absent hotReloadMarker c /\ stripHotReload c = c)
       \/ exists pre post,
            FirstAt hotReloadMarker c pre post
            /\ ((Absent hotReloadEndMarker (hotReloadMarker ++ post)
                 /\ stripHotReload c = c)
                \/ exists u v,
                     FirstAt hotReloadEndMarker (hotReloadMarker ++ post) u v
                     /\ stripHotReload c = trimStart v).
Proof.
  split; [reflexivity|]. split.
  - destruct (find headerEndMarker a) as [i|] eqn:F.
    + right. destruct (find_Some_FirstAt _ _ F) as [A _].
      eexists _, _. split; [exact A|]. apply stripHeader_found, F.
    + left. split; [|apply stripHeader_absent, F].
      apply find_None_Absent; [discriminate | exact F].
  - intros c.
    destruct (stripHotReload_cases c)
      as [[F E]|[(j & F & G & E)|(j & k & F & G & E)]].
    + left. split; auto. apply find_None_Absent; [discriminate | exact F].
    + right. destruct (find_Some_FirstAt _ _ F) as [A L].
      eexists _, _. split; [exact A|]. left. split; auto.
      assert (S : skipn j c
                  = hotReloadMarker ++ skipn (j + length hotReloadMarker) c).
      { destruct A as [A _]. rewrite A at 1.
        rewrite skipn_app, L, Nat.sub_diag, skipn_all2 by lia.
        reflexivity. }
      rewrite <- S. apply find_None_Absent; [discriminate | exact G].
    + right. destruct (find_Some_FirstAt _ _ F) as [A L].
      eexists _, _. split; [exact A|]. right.
      assert (S : skipn j c
                  = hotReloadMarker ++ skipn (j + length hotReloadMarker) c).
      { destruct A as [A _]. rewrite A at 1.
        rewrite skipn_app, L, Nat.sub_diag, skipn_all2 by lia.
        reflexivity. }
      rewrite <- S. destruct (find_Some_FirstAt _ _ G) as [B _].
      eexists _, _. split; [exact B|].
      rewrite E, skipn_skipn. f_equal. f_equal. lia.
Qed.

(** C3, as stated, fails on a text without header that holds a client
    block: the header end marker is absent, yet the text is not used as it
    is, because the second stage still removes the block. *)
Lemma reload_code_headerless_not_as_is :
  let a := lit "// Hot reload client - injected in development mode
(function() { connect(); })();
console.log(1);" in
  Absent headerEndMarker a
  /\ reloadCode a = lit "console.log(1);"
  /\ reloadCode a <> a.
Proof.
  intros a. split; [|split].
  - apply find_None_Absent; [discriminate | reflexivity].
  - reflexivity.
  - intros E. vm_compute in E. discriminate.
Qed.

(** Once a marker occurs at most once in the text, the stage that removes
    it leaves a text without it, or the text itself. *)
Lemma stripHeader_clean (a : str) :
  AtMostOnce headerEndMarker a ->
  find headerEndMarker (stripHeader a) = None.
Proof.
  intros U. destruct (find headerEndMarker a) as [i|] eqn:F.
  - rewrite (stripHeader_found _ F).
    destruct (trimStart_suffix (skipn (i + length headerEndMarker) a))
      as (k & K & ->).
    rewrite length_skipn in K. pose proof (find_bound _ _ F) as B.
    rewrite skipn_skipn. apply find_past with i; auto; [|lia].
    unfold headerEndMarker at 1. simpl. lia.
  - rewrite stripHeader_absent; auto.
Qed.

Lemma stripHotReload_idem (c : str) :
  AtMostOnce hotReloadMarker c ->
  stripHotReload (stripHotReload c) = stripHotReload c.
Proof.
  intros U.
  destruct (stripHotReload_cases c)
    as [[F E]|[(j & F & G & E)|(j & k & F & G & E)]].
  - rewrite E, E. reflexivity.
  - rewrite E, E. reflexivity.
  - rewrite E.
    destruct (trimStart_suffix (skipn (j + k + length hotReloadEndMarker) c))
      as (n & N & ->).
    rewrite length_skipn in N. pose proof (find_bound _ _ G) as B.
    rewrite length_skipn in B. rewrite skipn_skipn.
    pose proof (find_bound _ _ F) as J.
    assert (Z : find hotReloadMarker
                  (skipn (n + (j + k + length hotReloadEndMarker)) c) = None).
    { apply find_past with j; auto; [|lia].
      unfold hotReloadEndMarker. simpl. lia. }
    destruct (stripHotReload_cases
                (skipn (n + (j + k + length hotReloadEndMarker)) c))
      as [[_ ->]|[(j' & F' & _)|(j' & k' & F' & _)]]; congruence.
Qed.

Lemma stripHotReload_no_marker (c : str) :
  find hotReloadMarker c = None \/ find hotReloadEndMarker c = None ->
  stripHotReload c = c.
Proof.
  intros H.
  destruct (stripHotReload_cases c)
    as [[_ E]|[(j & _ & _ & E)|(j & k & F & G & _)]]; auto.
  destruct H as [H|H]; [congruence|].
  apply find_Some in F as (_ & J & _).
  apply (@find_None_skipn _ c j J) in H. congruence.
Qed.

(** C4, as stated, fails on a script whose own code holds the text of the
    header end marker: the second strip cuts at that occurrence. *)
Lemma reload_code_not_idempotent :
  let a := lit "// ==UserScript==
// @name         Test
// ==/UserScript==
const end = '// ==/UserScript==';" in
  reloadCode a = lit "const end = '// ==/UserScript==';"
  /\ reloadCode (reloadCode a) = lit "';"
  /\ reloadCode (reloadCode a) <> reloadCode a.
Proof.
  intros a. split; [|split].
  - reflexivity.
  - reflexivity.
  - intros E. vm_compute in E. discriminate.
Qed.

(** C4, as amended. On a text in which the header end marker and the client
    marker each occur at most once, the strip applied twice gives what it
    gives applied once; and on a text in which the client marker, or its
    closing text, does not occur, the strip gives the text as the header
    stage leaves it. *)
Theorem reload_code_idempotent (a : str) :
  (length (occurrences headerEndMarker a) <= 1 ->
   length (occurrences hotReloadMarker a) <= 1 ->
   reloadCode (reloadCode a) = reloadCode a)
  /\ (occurrences hotReloadMarker a = []
      \/ occurrences hotReloadEndMarker a = [] ->
      reloadCode a = stripHeader a).
Proof.
  split.
  - intros UH UM. apply atMostOnce_length in UH, UM.
    unfold reloadCode.
    destruct (stripHeader_suffix a) as (k1 & K1 & E1).
    destruct (stripHotReload_suffix (stripHeader a)) as (k2 & K2 & E2).
    assert (H0 : stripHeader (stripHotReload (stripHeader a))
                 = stripHotReload (stripHeader a)).
    { apply stripHeader_absent. rewrite E2.
      apply find_None_skipn; auto. apply stripHeader_clean, UH. }
    rewrite H0. apply stripHotReload_idem.
    rewrite E1. apply atMostOnce_skipn; auto.
  - intros H. unfold reloadCode. apply stripHotReload_no_marker.
    destruct (stripHeader_suffix a) as (k & K & ->).
    destruct H as [H|H]; [left|right];
      apply find_None_skipn; auto; apply find_None; exact H.
Qed.

(** The amended C4 at a script with header, client and code. *)
Lemma reload_code_idempotent_witness :
  let a :=
    Builder.artifact
      (lit "// ==UserScript==
// @name         Test
// ==/UserScript==
" ++ Builder.nl ++ HotReloadClient.getHotReloadClient 3001)
      (lit "console.log(1);") in
  reloadCode (reloadCode a) = reloadCode a.
Proof.
  intros a. apply (proj1 (reload_code_idempotent a)); vm_compute; lia.
Defined.

End ReloadPayload.

(** * The injected client text *)

Section ClientText.

Import HotReloadClient DevServer.

(** A decimal digit or the minus sign. *)
Let numeric (d : char) : bool := ((48 <=? d) && (d <=? 57) || (d =? 45))%N.

Lemma uint_numeric (d : Decimal.uint) :
  forallb numeric (lit (NilEmpty.string_of_uint d)) = true.
Proof. induction d; simpl; auto. Qed.

Lemma ofInt_numeric (n : Z) : forallb numeric (ofInt n) = true.
Proof.
  unfold ofInt, NilZero.string_of_int, NilZero.string_of_uint.
  destruct (Z.to_int n) as [d|d]; destruct d; simpl;
    try exact (uint_numeric _); reflexivity.
Qed.

Lemma numeric_no_brace (s : str) :
  forallb numeric s = true -> existsb (N.eqb 125) s = false.
Proof.
  induction s as [|d s IH]; cbn [existsb forallb]; auto.
  intros H. apply andb_true_iff in H as [D H]. rewrite (IH H), orb_false_r.
  apply N.eqb_neq. intros <-. discriminate D.
Qed.

Lemma clientHead_marker :
  clientHead
  = Builder.nl ++ hotReloadMarker ++ Builder.nl
    ++ lit "(function() {
  const HOT_RELOAD_PORT = ".
Proof. reflexivity. Qed.

Lemma clientHead_find : find hotReloadMarker clientHead = Some 1.
Proof. reflexivity. Qed.

Lemma clientHead_no_brace : existsb (N.eqb 125) (skipn 1 clientHead) = false.
Proof. reflexivity. Qed.

Lemma clientTail_occurrences :
  occurrences hotReloadEndMarker clientTail = [1883].
Proof. vm_compute. reflexivity. Qed.

Lemma clientTail_end :
  clientTail = firstn 1883 clientTail ++ hotReloadEndMarker ++ Builder.nl.
Proof. vm_compute. reflexivity. Qed.

Lemma clientTail_length : length clientTail = 1889.
Proof. vm_compute. reflexivity. Qed.

(** Where the closing text occurs in the client followed by any text: only
    the occurrences of the tail count, shifted. *)
Lemma client_occurrences (port : Z) (user : str) :
  occurrences hotReloadEndMarker
    (skipn 1 (getHotReloadClient port ++ user))
  = map (Nat.add (length (ofInt port) + 92))
      (occurrences hotReloadEndMarker (clientTail ++ user)).
Proof.
  unfold getHotReloadClient.
  replace (skipn 1 ((clientHead ++ ofInt port ++ clientTail) ++ user))
    with ((skipn 1 clientHead ++ ofInt port) ++ clientTail ++ user)
    by (rewrite <- !app_assoc; reflexivity).
  change hotReloadEndMarker with (125%N :: lit ")();").
  rewrite occurrences_skip.
  - rewrite length_app, Nat.add_comm. reflexivity.
  - rewrite existsb_app. apply orb_false_iff. split.
    + exact clientHead_no_brace.
    + apply numeric_no_brace, ofInt_numeric.
Qed.

(** C10, as stated, fails at its words "located at its end": the client
    text ends with a line feed, after the closing text. *)
Lemma client_does_not_end_with_closing_text :
  ~ exists body, getHotReloadClient 3001 = body ++ hotReloadEndMarker.
Proof.
  intros [body E]. apply (f_equal (fun s => hd_error (rev s))) in E.
  rewrite rev_app_distr in E. vm_compute in E. discriminate.
Qed.

(** C10, as amended. For every port, the client text is a line feed, the
    marker line, and a rest; the closing text "})();" occurs in it exactly
    once, followed by one line feed that ends the text; and the second stage
    of the strip, on the client text followed by any text, gives that text
    without its leading white space. *)
Theorem client_block_round_trip (port : Z) (user : str) :
  let client := getHotReloadClient port in
  (exists rest, client = Builder.nl ++ hotReloadMarker ++ Builder.nl ++ rest)
  /\ occurrences hotReloadEndMarker client = [length client - 6]
  /\ (exists body, client = body ++ hotReloadEndMarker ++ Builder.nl)
  /\ stripHotReload (client ++ user) = trimStart user.
Proof.
  intros client.
  assert (L : length client = 93 + length (ofInt port) + 1889).
  { unfold client, getHotReloadClient.
    rewrite !length_app, clientTail_length. reflexivity. }
  assert (B : client
              = (clientHead ++ ofInt port ++ firstn 1883 clientTail)
                ++ hotReloadEndMarker ++ Builder.nl).
  { unfold client, getHotReloadClient.
    rewrite clientTail_end at 1. rewrite <- !app_assoc. reflexivity. }
  split; [|split; [|split]].
  - unfold client, getHotReloadClient. rewrite clientHead_marker.
    rewrite <- !app_assoc. eauto.
  - unfold client at 1. unfold getHotReloadClient.
    rewrite app_assoc.
    change hotReloadEndMarker with (125%N :: lit ")();").
    rewrite occurrences_skip.
    + change (125%N :: lit ")();") with hotReloadEndMarker.
      rewrite clientTail_occurrences, length_app, L. simpl. f_equal.
      change (length clientHead) with 93. lia.
    + rewrite existsb_app. apply orb_false_iff. split.
      * reflexivity.
      * apply numeric_no_brace, ofInt_numeric.
  - eauto.
  - destruct (stripHotReload_cases (client ++ user))
      as [[F _]|[(j & F & G & _)|(j & k & F & G & ->)]].
    + exfalso. unfold client, getHotReloadClient in F.
      rewrite <- app_assoc, (find_app_l _ _ _ clientHead_find) in F.
      discriminate.
    + exfalso. unfold client, getHotReloadClient in F.
      rewrite <- app_assoc, (find_app_l _ _ _ clientHead_find) in F.
      injection F as <-. revert G. rewrite find_hd.
      unfold client. rewrite client_occurrences, hd_error_map, <- find_hd.
      rewrite (@find_app_l hotReloadEndMarker clientTail user 1883).
      * discriminate.
      * rewrite find_hd, clientTail_occurrences. reflexivity.
    + unfold client, getHotReloadClient in F.
      rewrite <- app_assoc, (find_app_l _ _ _ clientHead_find) in F.
      injection F as <-. revert G. rewrite find_hd.
      unfold client at 1. rewrite client_occurrences, hd_error_map, <- find_hd.
      rewrite (@find_app_l hotReloadEndMarker clientTail user 1883)
        by (rewrite find_hd, clientTail_occurrences; reflexivity).
      intros G. injection G as <-.
      rewrite B, <- !app_assoc.
      replace (1 + (length (ofInt port) + 92 + 1883)
               + length hotReloadEndMarker)
        with (length (clientHead ++ ofInt port ++ firstn 1883 clientTail
                       ++ hotReloadEndMarker)).
      * rewrite !app_assoc, <- (app_assoc _ Builder.nl user).
        rewrite skipn_app, skipn_all, Nat.sub_diag. reflexivity.
      * rewrite !length_app, length_firstn, clientTail_length.
        change (length clientHead) with 93.
        change (length hotReloadEndMarker) with 5.
        change (Nat.min 1883 1889) with 1883. lia.
Qed.

End ClientText.

(** * The metadata header *)

Section Header.

Import Builder DevServer.

(** The array [lines] only grows. *)
Let Extends (l l' : list str) : Prop := exists x, l' = l ++ x.

Lemma extends_refl (l : list str) : Extends l l.
Proof. exists []. symmetry. apply app_nil_r. Qed.

Lemma extends_push (l0 l x : list str) : Extends l0 l -> Extends l0 (l ++ x).
Proof. intros [y ->]. exists (y ++ x). symmetry. apply app_assoc. Qed.

Lemma extends_fold {A} (f : list str -> A -> list str) :
  (forall l0 ls v, Extends l0 ls -> Extends l0 (f ls v)) ->
  forall vs l0 l, Extends l0 l -> Extends l0 (fold_left f vs l).
Proof.
  intros F vs. induction vs as [|v vs IH]; intros l0 l E; simpl; auto.
Qed.

Lemma extends_addLine (l0 l : list str) (key : str) (v : option OneOrMany) :
  Extends l0 l -> Extends l0 (addLine l key v).
Proof.
  intros E. destruct v as [[v|vs]|]; simpl; auto using extends_push.
  apply extends_fold; auto using extends_push.
Qed.

Lemma join_app (sep : str) (l1 l2 : list str) :
  l1 <> [] -> l2 <> [] ->
  join sep (l1 ++ l2) = join sep l1 ++ sep ++ join sep l2.
Proof.
  intros N1 N2. induction l1 as [|a [|b l1] IH]; [congruence| |].
  - destruct l2; [congruence | reflexivity].
  - change (join sep ((a :: b :: l1) ++ l2))
      with (a ++ sep ++ join sep ((b :: l1) ++ l2)).
    rewrite IH by discriminate.
    change (join sep (a :: b :: l1)) with (a ++ sep ++ join sep (b :: l1)).
    rewrite <- !app_assoc. reflexivity.
Qed.

Lemma splitLines_nonempty (s : str) : splitLines s <> [].
Proof.
  destruct s as [|c s]; simpl; [discriminate|].
  destruct (N.eqb c 10); [discriminate|].
  destruct (splitLines s); discriminate.
Qed.

Lemma splitLines_app (a b : str) :
  splitLines (a ++ nl ++ b) = splitLines a ++ splitLines b.
Proof.
  induction a as [|c a IH]; [reflexivity|].
  cbn [app splitLines]. destruct (N.eqb c 10).
  - fold (nl ++ b). rewrite IH. reflexivity.
  - fold (nl ++ b). rewrite IH.
    pose proof (splitLines_nonempty a) as N.
    destruct (splitLines a); [congruence | reflexivity].
Qed.

Lemma splitLines_join (lines : list str) :
  lines <> [] ->
  splitLines (join nl lines) = flat_map splitLines lines.
Proof.
  induction lines as [|a [|b l] IH]; intros N; [congruence| |].
  - simpl. rewrite app_nil_r. reflexivity.
  - change (join nl (a :: b :: l)) with (a ++ nl ++ join nl (b :: l)).
    rewrite splitLines_app, IH by discriminate. reflexivity.
Qed.

(** The lines [generateHeader] joins: the opening line, those of the
    metadata, the closing line and an empty line. *)
Lemma generateHeader_lines (m : UserscriptMetadata) :
  exists body,
    generateHeader m = join nl ((headerStart :: body) ++ [headerEnd; []]).
Proof.
  unfold generateHeader. cbv zeta.
  match goal with
  | |- context [join nl ((?X ++ [headerEnd]) ++ [[]])] =>
      assert (E : Extends [headerStart] X)
  end.
  { destruct (resource m); destruct (noframes m) as [[|]|];
      repeat first
        [ apply extends_addLine
        | apply extends_push
        | apply extends_fold;
          [intros; apply extends_addLine; assumption|]
        | apply extends_refl ]. }
  destruct E as [body ->]. exists body.
  rewrite <- app_assoc. reflexivity.
Qed.

(** The header holds its closing line, followed by a line feed. *)
Lemma generateHeader_end (m : UserscriptMetadata) :
  exists x, generateHeader m = x ++ headerEnd ++ nl.
Proof.
  destruct (generateHeader_lines m) as [body ->].
  rewrite join_app by discriminate.
  exists (join nl (headerStart :: body) ++ nl).
  rewrite <- !app_assoc. reflexivity.
Qed.

(** C9. The text [generateHeader] returns, cut at line feeds, is the line
    "// ==UserScript==", then the metadata lines, then the line
    "// ==/UserScript==" and an empty line. So every script the builder
    writes with that header in its banner holds the header end marker: the
    index the strip computes is not -1, and the strip takes its branch that
    cuts after the marker, not the fallback. This needs no assumption on the
    metadata values. *)
Theorem header_marks_every_artifact (config : UserscriptConfig)
    (dev : bool) (hotReloadPort : option Z) (chunk : str) :
  let header := generateHeader (metadata config) in
  let a := artifact (banner config dev hotReloadPort) chunk in
  (exists body,
     splitLines header = lit "// ==UserScript==" :: body
                         ++ [lit "// ==/UserScript=="; []])
  /\ indexOf a headerEndMarker 0 <> (-1)%Z
  /\ stripHeader a
     = trimStart
         (slice a (indexOf a headerEndMarker 0
                   + Z.of_nat (length headerEndMarker))%Z).
Proof.
  intros header a.
  assert (I : indexOf a headerEndMarker 0 <> (-1)%Z).
  { destruct (generateHeader_end (metadata config)) as [x E].
    assert (S : exists y, a = x ++ headerEndMarker ++ y).
    { unfold a, artifact, banner. rewrite E.
      destruct hotReloadPort as [port|];
        [destruct (dev && negb (port =? 0)%Z)|];
        rewrite <- !app_assoc; eauto. }
    destruct S as [y S]. rewrite indexOf_0.
    destruct (find headerEndMarker a) eqn:F; [lia|].
    exfalso. revert F. apply find_exists with (length x).
    - rewrite S, skipn_app, skipn_all, Nat.sub_diag. cbn [app skipn].
      apply startsWith_app.
    - rewrite S, length_app. lia. }
  split; [|split; auto].
  - unfold header.
    destruct (generateHeader_lines (metadata config)) as [body ->].
    rewrite splitLines_join by discriminate.
    exists (flat_map splitLines body).
    cbn [app flat_map]. rewrite flat_map_app. reflexivity.
  - unfold stripHeader.
    destruct (Z.eqb_spec (indexOf a headerEndMarker 0) (-1)); congruence.
Qed.

End Header.


(** * What the clients are sent for a built script *)

Section BuiltScript.

Import Builder HotReloadClient DevServer.

(** When the header holds the end marker once, the first stage cuts a text
    that starts with the header right after the header. *)
Lemma stripHeader_after_header (m : UserscriptMetadata) (rest : str) :
  length (occurrences headerEndMarker (generateHeader m)) <= 1 ->
  stripHeader (generateHeader m ++ rest) = trimStart rest.
Proof.
  intros U. apply atMostOnce_length in U.
  destruct (generateHeader_end m) as [x E].
  assert (L : length headerEndMarker = 18) by reflexivity.
  assert (O : In (length x) (occurrences headerEndMarker (generateHeader m))).
  { apply occurrences_In. rewrite E, skipn_app, skipn_all, Nat.sub_diag.
    cbn [app skipn]. split; [apply startsWith_app|].
    rewrite length_app. lia. }
  assert (F : find headerEndMarker (generateHeader m ++ rest)
              = Some (length x)).
  { destruct (find headerEndMarker (generateHeader m ++ rest)) as [j|] eqn:F.
    - f_equal. destruct (find_Some _ _ F) as (A & _ & C).
      destruct (Nat.lt_trichotomy j (length x)) as [J|[J|J]]; auto.
      + exfalso.
        assert (I : In j (occurrences headerEndMarker (generateHeader m))).
        { apply occurrences_In. split.
          - rewrite skipn_app in A.
            apply startsWith_app_inv with
              (skipn (j - length (generateHeader m)) rest); auto.
            rewrite length_skipn, E, !length_app, L. simpl. lia.
          - rewrite E, length_app. lia. }
        specialize (U _ _ I O). lia.
      + exfalso. specialize (C _ J). rewrite E in C.
        rewrite <- app_assoc, skipn_app, skipn_all, Nat.sub_diag in C.
        cbn [app skipn] in C. rewrite <- app_assoc in C.
        rewrite startsWith_app in C. discriminate.
    - exfalso. revert F. apply find_exists with (length x).
      + rewrite E, <- !app_assoc, skipn_app, skipn_all, Nat.sub_diag.
        cbn [app skipn]. apply startsWith_app.
      + rewrite E, !length_app. lia. }
  rewrite (stripHeader_found _ F), E, <- !app_assoc.
  change (headerEnd ++ nl ++ rest) with (headerEndMarker ++ nl ++ rest).
  replace (length x + length headerEndMarker)
    with (length (x ++ headerEndMarker)) by apply length_app.
  rewrite app_assoc, skipn_app, skipn_all, Nat.sub_diag. reflexivity.
Qed.

(** The second stage removes a client block that starts the text. *)
Lemma stripHotReload_client (port : Z) (rest : str) :
  stripHotReload (skipn 1 (getHotReloadClient port) ++ rest) = trimStart rest.
Proof.
  assert (S : skipn 1 (getHotReloadClient port) ++ rest
              = skipn 1 (getHotReloadClient port ++ rest))
    by reflexivity.
  assert (M : find hotReloadMarker
                (skipn 1 (getHotReloadClient port) ++ rest) = Some 0).
  { unfold getHotReloadClient. rewrite clientHead_marker.
    cbn [nl app skipn]. rewrite <- !app_assoc.
    unfold find. destruct (hotReloadMarker ++ _) eqn:X;
      rewrite <- X, startsWith_app; reflexivity. }
  assert (G : find hotReloadEndMarker
                (skipn 1 (getHotReloadClient port) ++ rest)
              = Some (length (ofInt port) + 92 + 1883)).
  { rewrite S, find_hd, client_occurrences, hd_error_map, <- find_hd.
    rewrite (@find_app_l hotReloadEndMarker clientTail rest 1883)
      by (rewrite find_hd, clientTail_occurrences; reflexivity).
    reflexivity. }
  destruct (stripHotReload_cases (skipn 1 (getHotReloadClient port) ++ rest))
    as [[F _]|[(j & F & G' & _)|(j & k & F & G' & ->)]];
    rewrite M in F; try discriminate; injection F as <-;
    rewrite skipn_O in G'; rewrite G in G'; try discriminate.
  injection G' as <-.
  unfold getHotReloadClient. rewrite clientTail_end.
  replace (skipn 1 (clientHead ++ ofInt port ++ firstn 1883 clientTail
                    ++ hotReloadEndMarker ++ nl) ++ rest)
    with ((skipn 1 clientHead ++ ofInt port ++ firstn 1883 clientTail
           ++ hotReloadEndMarker) ++ nl ++ rest)
    by (change (skipn 1 (clientHead ++ ofInt port ++ firstn 1883 clientTail
                         ++ hotReloadEndMarker ++ nl))
          with (skipn 1 clientHead ++ ofInt port ++ firstn 1883 clientTail
                ++ hotReloadEndMarker ++ nl);
        rewrite <- !app_assoc; reflexivity).
  replace (0 + (length (ofInt port) + 92 + 1883) + length hotReloadEndMarker)
    with (length (skipn 1 clientHead ++ ofInt port ++ firstn 1883 clientTail
                  ++ hotReloadEndMarker)).
  - rewrite skipn_app, skipn_all, Nat.sub_diag. reflexivity.
  - rewrite !length_app, length_firstn, clientTail_length.
    change (length (skipn 1 clientHead)) with 92.
    change (length hotReloadEndMarker) with 5.
    change (Nat.min 1883 1889) with 1883. lia.
Qed.

(** A header, a line feed, the client, a line feed and a chunk: the strip
    leaves the chunk. *)
Lemma reloadCode_with_client (m : UserscriptMetadata) (port : Z)
    (chunk : str) :
  length (occurrences headerEndMarker (generateHeader m)) <= 1 ->
  reloadCode (generateHeader m ++ nl ++ getHotReloadClient port ++ nl ++ chunk)
  = trimStart chunk.
Proof.
  intros U. unfold reloadCode.
  rewrite stripHeader_after_header by exact U.
  assert (T : trimStart (nl ++ getHotReloadClient port ++ nl ++ chunk)
              = skipn 1 (getHotReloadClient port ++ nl ++ chunk)).
  { unfold getHotReloadClient. rewrite clientHead_marker.
    rewrite <- !app_assoc. reflexivity. }
  rewrite T.
  change (skipn 1 (getHotReloadClient port ++ nl ++ chunk))
    with (skipn 1 (getHotReloadClient port) ++ nl ++ chunk).
  rewrite stripHotReload_client. reflexivity.
Qed.

(** X1. For a script built in development mode with a non-zero port, whose
    header holds the end marker once (no metadata value repeats it), the
    code of the reload message is the bundled chunk without its leading
    white space: header and client are removed, nothing of the chunk is. *)
Theorem reload_code_of_dev_build (config : UserscriptConfig) (port : Z)
    (chunk : str) :
  length (occurrences headerEndMarker (generateHeader (metadata config)))
  <= 1 ->
  port <> 0%Z ->
  reloadCode (artifact (banner config true (Some port)) chunk)
  = trimStart chunk.
Proof.
  intros U P. unfold artifact, banner.
  destruct (Z.eqb_spec port 0) as [|_]; [contradiction|].
  cbn [andb negb]. rewrite <- !app_assoc.
  apply reloadCode_with_client, U.
Qed.

(** X1 at a configuration named "Test" and port 3001. *)
Lemma reload_code_of_dev_build_witness :
  let config :=
    {| metadata :=
         {| name := lit "Test"; namespace := None; version := None;
            description := None; author := None; match_ := None;
            exclude := None; include := None; grant := None;
            updateURL := None; downloadURL := None; supportURL := None;
            icon := None; runAt := None; require := None; resource := None;
            sandbox := None; connect := None; noframes := None |};
       build := None |} in
  reloadCode
    (artifact (banner config true (Some 3001%Z)) (lit "
console.log(1);"))
  = lit "console.log(1);".
Proof.
  intros config.
  apply (@reload_code_of_dev_build config 3001 (lit "
console.log(1);")); [vm_compute; lia | discriminate].
Defined.

(** X2. For a script built without the client (production mode, or no
    port), under the same condition on the header and when the chunk does
    not hold the client marker, the strip gives the chunk without its
    leading white space. *)
Theorem reload_code_of_plain_build (config : UserscriptConfig)
    (chunk : str) :
  length (occurrences headerEndMarker (generateHeader (metadata config)))
  <= 1 ->
  occurrences hotReloadMarker chunk = [] ->
  reloadCode (artifact (banner config false None) chunk) = trimStart chunk
  /\ reloadCode (artifact (banner config true (Some 0%Z)) chunk)
     = trimStart chunk.
Proof.
  intros U N.
  assert (R : reloadCode (generateHeader (metadata config) ++ nl ++ chunk)
              = trimStart chunk).
  { unfold reloadCode. rewrite stripHeader_after_header by exact U.
    change (trimStart (nl ++ chunk)) with (trimStart chunk).
    apply stripHotReload_no_marker. left.
    destruct (trimStart_suffix chunk) as (k & K & ->).
    apply find_None_skipn; auto. apply find_None. exact N. }
  split; exact R.
Qed.

(** X2 at a configuration named "Test". *)
Lemma reload_code_of_plain_build_witness :
  let config :=
    {| metadata :=
         {| name := lit "Test"; namespace := None; version := None;
            description := None; author := None; match_ := None;
            exclude := None; include := None; grant := None;
            updateURL := None; downloadURL := None; supportURL := None;
            icon := None; runAt := None; require := None; resource := None;
            sandbox := None; connect := None; noframes := None |};
       build := None |} in
  reloadCode (artifact (banner config false None) (lit "console.log(1);"))
  = lit "console.log(1);".
Proof.
  intros config.
  apply (@reload_code_of_plain_build config (lit "console.log(1);"));
    [vm_compute; lia | reflexivity].
Defined.

(** X3. The strip only drops a prefix: the code of the reload message is a
    suffix of the text of the script, and it is either the whole text or a
    text without leading white space. *)
Theorem reload_code_is_suffix (a : str) :
  (exists k, k <= length a /\ reloadCode a = skipn k a)
  /\ (reloadCode a = a \/ trimStart (reloadCode a) = reloadCode a).
Proof.
  split.
  - unfold reloadCode.
    destruct (stripHeader_suffix a) as (k1 & K1 & E1).
    destruct (stripHotReload_suffix (stripHeader a)) as (k2 & K2 & E2).
    exists (k2 + k1). rewrite E2, E1, skipn_skipn. split; auto.
    rewrite E1, length_skipn in K2. lia.
  - unfold reloadCode.
    destruct (stripHotReload_cases (stripHeader a))
      as [[_ ->]|[(j & _ & _ & ->)|(j & k & _ & _ & ->)]];
      try (right; apply trimStart_idem).
    + destruct (find headerEndMarker a) as [i|] eqn:F.
      * right. rewrite (stripHeader_found _ F). apply trimStart_idem.
      * left. apply stripHeader_absent, F.
    + destruct (find headerEndMarker a) as [i|] eqn:F.
      * right. rewrite (stripHeader_found _ F). apply trimStart_idem.
      * left. apply stripHeader_absent, F.
Qed.

End BuiltScript.

(** * The development server *)

Section Server.

Import Builder DevServer.
Local Open Scope eff_scope.

(** Run the code of a handler on a state given by its fields. *)
Ltac handler :=
  cbv [step run after forEach handleRequest notifyClients rebuild afterTry
       rebuildResume loadConfig loadConfigBody importConfig onConnection
       onClose emit park readFileSync existsSync
       bind ret throw tryCatch gets modify settled async
       set_rebuilding set_needsRebuild set_clients set_suspended
       set_configFile set_moduleMap set_scriptFile set_readyState set_trace
       wsPort outFile rebuilding needsRebuild clients suspended configFile
       moduleMap scriptFile readyState trace fst snd negb].

(** C8, as stated, fails on a request whose URL carries a query string:
    the path of "/?v=1" is "/" and the script can be read, yet the answer is
    404 "Not found". The listener compares the whole of [req.url]. *)
Lemma query_string_is_not_found :
  let s :=
    {| wsPort := 3001; outFile := lit "bundle.user.js"; rebuilding := false;
       needsRebuild := false; clients := []; suspended := [];
       configFile := None; moduleMap := None;
       scriptFile := Readable (lit "console.log(1);");
       readyState := fun _ => 0%N; trace := [] |} in
  let url := lit "/?v=1" in
  pathOf url = lit "/"
  /\ existsSync (scriptFile s) = true
  /\ step (Request url) s
     = (set_trace
          (trace s
           ++ [Respond {| status := 404;
                          headers := [(lit "Content-Type", lit "text/plain")];
                          body := lit "Not found" |}]) s,
        Ret tt).
Proof. intros s url. repeat split. Qed.

(** C8, as amended. The endpoint answers every request, and the handler does
    not throw. The answer goes by the request URL as a whole, the path
    together with the query string if there is one. For the URL "/" or "/"
    followed by the output file name: 200 with Content-Type text/javascript,
    Access-Control-Allow-Origin * and the text of the script as body when
    the script can be read; 404 text/plain when it does not exist; 500
    text/plain when reading it throws. For every other URL: 404
    text/plain. *)
Theorem endpoint_contract (s : State) (url : str) :
  exists r,
    step (Request url) s = (set_trace (trace s ++ [Respond r]) s, Ret tt)
    /\ (url = lit "/" \/ url = lit "/" ++ outFile s ->
        match scriptFile s with
        | Readable content =>
            r = {| status := 200;
                   headers :=
                     [(lit "Content-Type", lit "text/javascript");
                      (lit "Access-Control-Allow-Origin", lit "*")];
                   body := content |}
        | Missing =>
            status r = 404
            /\ headers r = [(lit "Content-Type", lit "text/plain")]
        | Unreadable _ =>
            status r = 500
            /\ headers r = [(lit "Content-Type", lit "text/plain")]
        end)
    /\ (url <> lit "/" -> url <> lit "/" ++ outFile s ->
        status r = 404
        /\ headers r = [(lit "Content-Type", lit "text/plain")]).
Proof.
  destruct s as [wp file busy again cs parked cf mm script ready t].
  handler.
  destruct (Js.eqb url (lit "/" ++ file) || Js.eqb url (lit "/")) eqn:U.
  - destruct script as [|content|e]; eexists; (split; [reflexivity|]);
      split; auto; intros N1 N2; exfalso;
      apply orb_true_iff in U as [U|U]; apply eqb_eq in U; auto.
  - eexists; split; [reflexivity|]. split; auto.
    intros [->| ->]; exfalso; apply orb_false_iff in U as [U1 U2].
    + rewrite (proj2 (eqb_eq _ _) eq_refl) in U2. discriminate.
    + rewrite (proj2 (eqb_eq _ _) eq_refl) in U1. discriminate.
Qed.

(** C8 at a request for "/" while the script is on disk. *)
Lemma endpoint_contract_witness :
  let s :=
    {| wsPort := 3001; outFile := lit "bundle.user.js"; rebuilding := false;
       needsRebuild := false; clients := []; suspended := [];
       configFile := None; moduleMap := None;
       scriptFile := Readable (lit "console.log(1);");
       readyState := fun _ => 0%N; trace := [] |} in
  exists r,
    step (Request (lit "/")) s = (set_trace (trace s ++ [Respond r]) s, Ret tt)
    /\ status r = 200 /\ body r = lit "console.log(1);".
Proof.
  intros s. destruct (endpoint_contract s (lit "/")) as (r & E & H & _).
  exists r. split; [exact E|].
  specialize (H (or_introl eq_refl)). simpl in H. rewrite H.
  split; reflexivity.
Defined.

(** The loop of [notifyClients] sends to the open clients, in the order of
    the set, and changes nothing else. *)
Lemma forEach_send (message : ReloadPayload) (cs : list Client) (s : State) :
  forEach cs
    (fun client =>
       state <- gets (fun s => readyState s client) ;;
       if (state =? 1)%N then emit (Send client message) else ret tt) s
  = (set_trace
       (trace s
        ++ map (fun c => Send c message)
             (filter (fun c => (readyState s c =? 1)%N) cs)) s,
     Ret tt).
Proof.
  revert s. induction cs as [|c cs IH]; intros s.
  - destruct s. cbn. rewrite app_nil_r. reflexivity.
  - cbn [forEach filter]. unfold bind at 1. unfold bind at 1.
    unfold gets at 1.
    destruct (readyState s c =? 1)%N.
    + unfold emit, modify. rewrite IH. destruct s. cbn.
      rewrite <- app_assoc. reflexivity.
    + unfold ret at 1. rewrite IH. reflexivity.
Qed.

(** What [notifyClients] adds to the trace. *)
Let notified (s : State) : list Action :=
  match scriptFile s with
  | Readable content =>
      map (fun c =>
             Send c {| type := lit "reload"; code := reloadCode content |})
        (filter (fun c => (readyState s c =? 1)%N) (clients s))
      ++ [LogSentReload (length (clients s))
            (roundKb (length (reloadCode content)))]
  | Missing => [LogReadFailed (Failure (lit "ENOENT"))]
  | Unreadable e => [LogReadFailed e]
  end.

Lemma notifyClients_trace (s : State) :
  notifyClients s = (set_trace (trace s ++ notified s) s, Ret tt).
Proof.
  unfold notifyClients, notified, tryCatch.
  unfold bind at 1. unfold gets at 1.
  destruct (scriptFile s) as [|content|e] eqn:F.
  - destruct s. reflexivity.
  - unfold bind at 1. unfold readFileSync, ret at 1.
    unfold bind at 1. unfold gets at 1.
    unfold bind at 1. rewrite forEach_send.
    destruct s. cbn. rewrite <- app_assoc. reflexivity.
  - destruct s. reflexivity.
Qed.

Lemma recipients_sends (message : ReloadPayload) (cs : list Client) :
  recipients (map (fun c => Send c message) cs) = cs.
Proof. induction cs as [|c cs IH]; simpl; congruence. Qed.

Lemma recipients_app (t u : list Action) :
  recipients (t ++ u) = recipients t ++ recipients u.
Proof. apply flat_map_app. Qed.

Lemma filter_split {A} (f : A -> bool) (l : list A) :
  length (filter f l) + length (filter (fun x => negb (f x)) l) = length l.
Proof.
  induction l as [|x l IH]; simpl; auto.
  destruct (f x); simpl; lia.
Qed.

(** C6. When [notifyClients] can read the script, it sends the reload
    message, built from the text of the script, to the clients of the set
    whose [readyState] is 1 (open), each once and in the order of the set,
    and to no other; it does not throw. With three clients in the set of
    which exactly one is not open, two receive the message. *)
Theorem broadcast_reaches_open_clients (s : State) (content : str) :
  scriptFile s = Readable content ->
  exists sent,
    notifyClients s = (set_trace (trace s ++ sent) s, Ret tt)
    /\ recipients sent
       = filter (fun c => (readyState s c =? 1)%N) (clients s)
    /\ (forall c m,
          In (Send c m) sent ->
          m = {| type := lit "reload"; code := reloadCode content |})
    /\ (NoDup (clients s) -> NoDup (recipients sent))
    /\ (length (clients s) = 3 ->
        length (filter (fun c => negb (readyState s c =? 1)%N) (clients s))
        = 1 ->
        length (recipients sent) = 2).
Proof.
  intros F. exists (notified s). split; [apply notifyClients_trace|].
  unfold notified. rewrite F.
  assert (R : recipients
                (map (fun c =>
                        Send c {| type := lit "reload";
                                  code := reloadCode content |})
                   (filter (fun c => (readyState s c =? 1)%N) (clients s))
                 ++ [LogSentReload (length (clients s))
                       (roundKb (length (reloadCode content)))])
              = filter (fun c => (readyState s c =? 1)%N) (clients s)).
  { rewrite recipients_app, recipients_sends. apply app_nil_r. }
  split; [exact R|]. split.
  - intros c m I. apply in_app_iff in I as [I|[I|[]]]; [|discriminate].
    apply in_map_iff in I as (c' & E & _). congruence.
  - split; [intros N; rewrite R; apply NoDup_filter, N|].
    intros L N. rewrite R.
    pose proof (filter_split (fun c => (readyState s c =? 1)%N) (clients s)).
    lia.
Qed.

(** C6 at three clients of which the second has closed. *)
Lemma broadcast_reaches_open_clients_witness :
  let s :=
    {| wsPort := 3001; outFile := lit "bundle.user.js"; rebuilding := true;
       needsRebuild := false; clients := [1; 2; 3]; suspended := [];
       configFile := None; moduleMap := None;
       scriptFile := Readable (lit "console.log(1);");
       readyState := fun c => if Nat.eqb c 2 then 3%N else 1%N;
       trace := [] |} in
  exists sent,
    notifyClients s = (set_trace (trace s ++ sent) s, Ret tt)
    /\ recipients sent = [1; 3].
Proof.
  intros s.
  destruct (@broadcast_reaches_open_clients s (lit "console.log(1);") eq_refl)
    as (sent & E & R & _).
  exists sent. split; [exact E | exact R].
Defined.

(** *** The handlers in closed form *)

(** The outcome of a call to [loadConfig] in state [s], and the module map
    it leaves. *)
Let loadResult (s : State) : Exc UserscriptConfig := snd (loadConfigBody s).

Let loadMap (s : State) : option ModuleNS := moduleMap (fst (loadConfigBody s)).

(** The state in which [rebuild], called when no rebuild is under way,
    parks. *)
Let begun (s : State) : State :=
  set_suspended (suspended s ++ [AwaitLoadConfig (loadResult s)])
    (set_moduleMap (loadMap s)
       (set_trace (trace s ++ [LogRebuilding; CallLoadConfig])
          (set_rebuilding true s))).

Lemma rebuild_busy (s : State) :
  rebuilding s = true -> rebuild s = (set_needsRebuild true s, Ret tt).
Proof.
  intros B. unfold rebuild, bind, gets. rewrite B. reflexivity.
Qed.

Lemma rebuild_idle (s : State) :
  rebuilding s = false -> rebuild s = (begun s, Ret tt).
Proof.
  intros B. unfold rebuild, bind at 1, gets at 1. rewrite B.
  destruct s as [wp file busy again cs parked cf mm script ready t].
  destruct cf as [[[[[md|] b]|] [[md'|] b']]|];
    destruct mm as [[[[[md2|] b2]|] [[md3|] b3]]|];
    cbv - [app]; rewrite <- app_assoc; reflexivity.
Qed.

Lemma afterTry_done (s : State) :
  needsRebuild s = false -> afterTry s = (set_rebuilding false s, Ret tt).
Proof.
  intros N. unfold afterTry, bind, modify, gets.
  destruct s; simpl in *. rewrite N. reflexivity.
Qed.

Lemma afterTry_again (s : State) :
  needsRebuild s = true ->
  afterTry s
  = (begun (set_needsRebuild false (set_rebuilding false s)), Ret tt).
Proof.
  intros N. rewrite <- rebuild_idle by reflexivity.
  unfold afterTry, bind, modify, gets.
  destruct s; simpl in *. rewrite N. reflexivity.
Qed.

Lemma resume_loaded (s : State) (config : UserscriptConfig)
    (bundler : Exc unit) :
  rebuildResume (AwaitLoadConfig (Ret config)) bundler s
  = (set_suspended (suspended s ++ [AwaitBuild])
       (set_trace (trace s ++ [CallBuild config true (wsPort s)]) s),
     Ret tt).
Proof. destruct s. reflexivity. Qed.

Lemma resume_load_failed (s : State) (e : Error) (bundler : Exc unit) :
  rebuildResume (AwaitLoadConfig (Throw e)) bundler s
  = afterTry (set_trace (trace s ++ [LogBuildFailed e]) s).
Proof. destruct s. reflexivity. Qed.

Lemma resume_build_failed (s : State) (e : Error) :
  rebuildResume AwaitBuild (Throw e) s
  = afterTry (set_trace (trace s ++ [LogBuildFailed e]) s).
Proof. destruct s. reflexivity. Qed.

Lemma resume_built (s : State) :
  rebuildResume AwaitBuild (Ret tt) s
  = afterTry (set_trace (trace s ++ LogRebuildComplete :: notified s) s).
Proof.
  unfold rebuildResume, tryCatch, bind, settled, emit, modify.
  rewrite notifyClients_trace. unfold ret.
  destruct s. cbn [set_trace trace]. rewrite <- app_assoc. reflexivity.
Qed.

(** *** Traces *)

(** An action that neither starts nor ends a rebuild. *)
Let calm (a : Action) : bool := negb (isStart a || isEnd a).

Lemma serial_app (o : bool) (t u : list Action) :
  serial o (t ++ u)
  = match serial o t with
    | Some o' => serial o' u
    | None => None
    end.
Proof.
  revert o. induction t as [|a t IH]; intros o; simpl; auto.
  destruct (isStart a); [destruct o; auto|].
  destruct (isEnd a); [destruct o; auto|]. auto.
Qed.

Lemma serial_calm (o : bool) (u : list Action) :
  forallb calm u = true -> serial o u = Some o.
Proof.
  induction u as [|a u IH]; simpl; auto.
  intros H. apply andb_true_iff in H as [A H]. unfold calm in A.
  destruct (isStart a); [discriminate|].
  destruct (isEnd a); [discriminate|]. auto.
Qed.

Lemma filter_calm (u : list Action) :
  forallb calm u = true -> filter isStart u = [] /\ filter isEnd u = [].
Proof.
  induction u as [|a u IH]; simpl; auto.
  intros H. apply andb_true_iff in H as [A H]. unfold calm in A.
  destruct (isStart a); [discriminate|].
  destruct (isEnd a); [discriminate|]. auto.
Qed.

Lemma notified_calm (s : State) : forallb calm (notified s) = true.
Proof.
  unfold notified. destruct (scriptFile s); auto.
  rewrite forallb_app. simpl. rewrite andb_true_r.
  induction (filter _ (clients s)); simpl; auto.
Qed.

Lemma started_app (s : State) (u : list Action) :
  started (set_trace (trace s ++ u) s)
  = started s + length (filter isStart u).
Proof. unfold started. simpl. rewrite filter_app, length_app. reflexivity. Qed.

Lemma ended_app (s : State) (u : list Action) :
  ended (set_trace (trace s ++ u) s) = ended s + length (filter isEnd u).
Proof. unfold ended. simpl. rewrite filter_app, length_app. reflexivity. Qed.

(** *** One turn of the event loop *)

Lemma step_trigger (e : Event) (s : State) :
  isTrigger e = true ->
  exists l,
    step e s = rebuild (set_trace (trace s ++ [l]) s) /\ calm l = true.
Proof.
  destruct e; try discriminate; intros _;
    [exists (LogFileChanged path) | exists (LogFileAdded path)];
    (split; [|reflexivity]); destruct s; reflexivity.
Qed.

Lemma step_settle (k : nat) (bundler : Exc unit) (s : State) :
  step (Settle k bundler) s
  = match nth_error (suspended s) k with
    | Some a =>
        rebuildResume a bundler
          (set_suspended (removeNth k (suspended s)) s)
    | None => (s, Ret tt)
    end.
Proof.
  unfold step, bind, gets. destruct (nth_error (suspended s) k); reflexivity.
Qed.

Lemma request_responds (s : State) (url : str) :
  exists r,
    step (Request url) s = (set_trace (trace s ++ [Respond r]) s, Ret tt).
Proof.
  destruct s as [wp file busy again cs parked cf mm script ready t].
  handler.
  destruct (Js.eqb url (lit "/" ++ file) || Js.eqb url (lit "/"));
    [destruct script|]; eexists; reflexivity.
Qed.

(** The events that do not concern the coordinator leave its variables and
    the parked activations alone, and add no start or end of a rebuild. *)
Lemma step_other (e : Event) (s : State) :
  isTrigger e = false -> (forall k b, e <> Settle k b) ->
  exists s' u,
    step e s = (s', Ret tt)
    /\ trace s' = trace s ++ u /\ forallb calm u = true
    /\ rebuilding s' = rebuilding s /\ needsRebuild s' = needsRebuild s
    /\ suspended s' = suspended s /\ moduleMap s' = moduleMap s
    /\ wsPort s' = wsPort s.
Proof.
  intros T S. destruct e; try discriminate.
  - exfalso. eapply S. reflexivity.
  - destruct s. eexists _, [_]. cbv - [setAdd length app].
    repeat split; reflexivity.
  - destruct s. eexists _, [_]. cbv - [setDelete length app].
    repeat split; reflexivity.
  - destruct (request_responds s url) as (r & E).
    destruct s. eexists _, [_]. split; [exact E|]. repeat split; reflexivity.
  - destruct s. eexists _, []. cbv - [app Nat.eqb].
    repeat split; try reflexivity. simpl. symmetry. apply app_nil_r.
  - destruct s. eexists _, []. cbv - [app].
    repeat split; try reflexivity. simpl. symmetry. apply app_nil_r.
  - destruct s. eexists _, []. cbv - [app].
    repeat split; try reflexivity. simpl. symmetry. apply app_nil_r.
Qed.

(** *** The invariant of the coordinator *)

(** The trace is serial and shows a rebuild under way exactly when
    [rebuilding] is set; one activation is parked then, none otherwise; and
    [needsRebuild] is set only during a rebuild. *)
Let Inv (s : State) : Prop :=
  serial false (trace s) = Some (rebuilding s)
  /\ length (suspended s) = (if rebuilding s then 1 else 0)
  /\ (needsRebuild s = true -> rebuilding s = true).

(** What one event does to the variables of the coordinator and to the
    counts of rebuilds started and ended. *)
Let moves (e : Event) (s s' : State) : Prop :=
  match e with
  | Change _ | Add _ =>
      if rebuilding s
      then exists l,
             s' = set_needsRebuild true (set_trace (trace s ++ [l]) s)
             /\ calm l = true
      else rebuilding s' = true /\ needsRebuild s' = false
           /\ started s' = started s + 1 /\ ended s' = ended s
           /\ exists p, suspended s' = [AwaitLoadConfig p]
  | Settle k _ =>
      (s' = s /\ nth_error (suspended s) k = None)
      \/ (rebuilding s = true /\ rebuilding s' = true
          /\ needsRebuild s' = needsRebuild s
          /\ started s' = started s /\ ended s' = ended s
          /\ (exists c, suspended s = [AwaitLoadConfig (Ret c)])
          /\ suspended s' = [AwaitBuild])
      \/ (rebuilding s = true /\ ended s' = ended s + 1
          /\ needsRebuild s' = false /\ rebuilding s' = needsRebuild s
          /\ started s' = started s + (if needsRebuild s then 1 else 0)
          /\ exists p,
               suspended s'
               = if needsRebuild s then [AwaitLoadConfig p] else [])
  | _ =>
      rebuilding s' = rebuilding s /\ needsRebuild s' = needsRebuild s
      /\ suspended s' = suspended s
      /\ started s' = started s /\ ended s' = ended s
  end.

Ltac fields :=
  cbn [fst snd wsPort outFile rebuilding needsRebuild clients suspended
       configFile moduleMap scriptFile readyState trace
       set_rebuilding set_needsRebuild set_clients set_suspended
       set_configFile set_moduleMap set_scriptFile set_readyState set_trace]
    in *.

Lemma begun_fields (s : State) :
  rebuilding (begun s) = true
  /\ needsRebuild (begun s) = needsRebuild s
  /\ suspended (begun s) = suspended s ++ [AwaitLoadConfig (loadResult s)]
  /\ trace (begun s) = trace s ++ [LogRebuilding; CallLoadConfig]
  /\ started (begun s) = started s + 1
  /\ ended (begun s) = ended s
  /\ wsPort (begun s) = wsPort s.
Proof.
  unfold begun, started, ended. fields.
  rewrite !filter_app, !length_app. simpl. repeat split; lia.
Qed.

(** The statements after the [try] block, run when the activation has left
    the block: the trace shows no rebuild under way any more. *)
Lemma afterTry_moves (s : State) :
  suspended s = [] -> serial false (trace s) = Some false ->
  exists s',
    afterTry s = (s', Ret tt) /\ Inv s'
    /\ rebuilding s' = needsRebuild s /\ needsRebuild s' = false
    /\ started s' = started s + (if needsRebuild s then 1 else 0)
    /\ ended s' = ended s
    /\ trace s'
       = trace s
         ++ (if needsRebuild s then [LogRebuilding; CallLoadConfig] else [])
    /\ (exists p,
          suspended s' = if needsRebuild s then [AwaitLoadConfig p] else [])
    /\ wsPort s' = wsPort s.
Proof.
  intros P T. destruct (needsRebuild s) eqn:N.
  - rewrite afterTry_again by exact N. eexists. split; [reflexivity|].
    destruct (begun_fields (set_needsRebuild false (set_rebuilding false s)))
      as (B1 & B2 & B3 & B4 & B5 & B6 & B7).
    unfold Inv. rewrite B1, B2, B3, B4, B5, B6, B7.
    unfold started, ended. fields. rewrite P, serial_app, T.
    repeat match goal with |- _ /\ _ => split end;
      try reflexivity; try lia; try discriminate.
    eexists. reflexivity.
  - rewrite afterTry_done by exact N. eexists. split; [reflexivity|].
    unfold Inv, started, ended. fields. rewrite P, T, N, app_nil_r.
    repeat match goal with |- _ /\ _ => split end;
      try reflexivity; try lia; try discriminate.
    exists (Throw ConfigNotFound). reflexivity.
Qed.

Lemma step_other_moves (e : Event) (s : State) :
  isTrigger e = false -> (forall k b, e <> Settle k b) -> Inv s ->
  snd (step e s) = Ret tt /\ Inv (fst (step e s))
  /\ rebuilding (fst (step e s)) = rebuilding s
  /\ needsRebuild (fst (step e s)) = needsRebuild s
  /\ suspended (fst (step e s)) = suspended s
  /\ started (fst (step e s)) = started s
  /\ ended (fst (step e s)) = ended s.
Proof.
  intros T S (I1 & I2 & I3).
  destruct (@step_other e s T S) as (s' & u & E & X1 & X2 & X3 & X4 & X5 & _).
  rewrite E. fields. destruct (@filter_calm _ X2) as [Q1 Q2].
  unfold Inv, started, ended.
  rewrite X1, X3, X4, X5, serial_app, I1, !filter_app, !length_app, Q1, Q2.
  simpl. rewrite !Nat.add_0_r. repeat split; auto using serial_calm.
Qed.

(** Every event keeps the invariant; no handler throws. *)
Lemma step_moves (e : Event) (s : State) :
  Inv s ->
  snd (step e s) = Ret tt /\ Inv (fst (step e s))
  /\ moves e s (fst (step e s)).
Proof.
  intros (I1 & I2 & I3).
  destruct (isTrigger e) eqn:T.
  - destruct (@step_trigger e s T) as (l & E & C). rewrite E.
    assert (M : forall s',
               moves e s s'
               = if rebuilding s
                 then exists l0,
                        s' = set_needsRebuild true
                               (set_trace (trace s ++ [l0]) s)
                        /\ calm l0 = true
                 else rebuilding s' = true /\ needsRebuild s' = false
                      /\ started s' = started s + 1 /\ ended s' = ended s
                      /\ exists p, suspended s' = [AwaitLoadConfig p])
      by (intros; destruct e; try discriminate; reflexivity).
    rewrite M. clear M.
    assert (C' : isStart l = false /\ isEnd l = false).
    { unfold calm in C. destruct (isStart l), (isEnd l); auto; discriminate. }
    destruct C' as [C1 C2].
    destruct (rebuilding s) eqn:B.
    + rewrite rebuild_busy by exact B. fields.
      split; [reflexivity|]. split; [|eauto].
      unfold Inv. fields. rewrite serial_app, I1, B. simpl.
      rewrite C1, C2. auto.
    + rewrite rebuild_idle by exact B. fields.
      destruct (begun_fields (set_trace (trace s ++ [l]) s))
        as (B1 & B2 & B3 & B4 & B5 & B6 & B7).
      unfold Inv. rewrite B1, B2, B3, B4, B5, B6.
      unfold started, ended. fields.
      rewrite !filter_app, !length_app, !serial_app, I1.
      simpl. rewrite C1, C2. simpl.
      destruct (needsRebuild s) eqn:N; [specialize (I3 eq_refl); discriminate|].
      destruct (suspended s); [|discriminate].
      repeat match goal with |- _ /\ _ => split end;
        try reflexivity; try lia; try discriminate.
      eexists. reflexivity.
  - destruct e; try discriminate.
    + rewrite step_settle. cbn [moves].
      destruct (suspended s) as [|a [|a' l]] eqn:P; cbn [length] in I2.
      * destruct k; simpl; (split; [reflexivity|]);
          (split; [unfold Inv; rewrite P; auto | auto]).
      * destruct (rebuilding s) eqn:B; [|discriminate].
        destruct k as [|k]; simpl;
          [|destruct k; simpl; (split; [reflexivity|]);
            (split; [unfold Inv; rewrite P, B; auto | auto])].
        assert (F : forall u,
                  length (filter isStart u) = 0 ->
                  length (filter isEnd u) = 1 ->
                  serial true u = Some false ->
                  let s1 := set_trace (trace s ++ u) (set_suspended [] s) in
                  snd (afterTry s1) = Ret tt /\ Inv (fst (afterTry s1))
                  /\ ((fst (afterTry s1) = s /\ Some a = None)
                      \/ (true = true /\ rebuilding (fst (afterTry s1)) = true
                          /\ needsRebuild (fst (afterTry s1)) = needsRebuild s
                          /\ started (fst (afterTry s1)) = started s
                          /\ ended (fst (afterTry s1)) = ended s
                          /\ (exists c, [a] = [AwaitLoadConfig (Ret c)])
                          /\ suspended (fst (afterTry s1)) = [AwaitBuild])
                      \/ (true = true
                          /\ ended (fst (afterTry s1)) = ended s + 1
                          /\ needsRebuild (fst (afterTry s1)) = false
                          /\ rebuilding (fst (afterTry s1)) = needsRebuild s
                          /\ started (fst (afterTry s1))
                             = started s
                               + (if needsRebuild s then 1 else 0)
                          /\ exists p,
                               suspended (fst (afterTry s1))
                               = if needsRebuild s
                                 then [AwaitLoadConfig p] else []))).
        { intros u U1 U2 U3 s1.
          destruct (@afterTry_moves s1)
            as (s' & E & J & A1 & A2 & A3 & A4 & _ & A5 & _).
          - reflexivity.
          - unfold s1. fields. rewrite serial_app, I1. exact U3.
          - rewrite E. fields. split; [reflexivity|]. split; [exact J|].
            right. right. rewrite A1, A2, A3, A4.
            unfold s1, started, ended. fields.
            rewrite !filter_app, !length_app, U1, U2, Nat.add_0_r.
            repeat match goal with |- _ /\ _ => split end;
              try reflexivity. exact A5. }
        destruct a as [[config|e]|].
        -- rewrite resume_loaded. fields.
           split; [reflexivity|]. split.
           ++ unfold Inv. fields. rewrite serial_app, I1, B. auto.
           ++ right. left. unfold started, ended. fields.
              rewrite !filter_app, !length_app. simpl.
              repeat match goal with |- _ /\ _ => split end;
                try reflexivity; try exact B; try lia.
              eauto.
        -- rewrite resume_load_failed.
           apply (F [LogBuildFailed e]); reflexivity.
        -- destruct bundler as [[]|e].
           ++ rewrite resume_built.
              pose proof (notified_calm (set_suspended [] s)) as Q.
              destruct (@filter_calm _ Q) as [Q1 Q2].
              apply (F (LogRebuildComplete :: notified (set_suspended [] s))).
              ** simpl. rewrite Q1. reflexivity.
              ** simpl. rewrite Q2. reflexivity.
              ** simpl. apply serial_calm, Q.
           ++ rewrite resume_build_failed.
              apply (F [LogBuildFailed e]); reflexivity.
      * destruct (rebuilding s); discriminate.
    + apply step_other_moves; [reflexivity | discriminate | unfold Inv; auto].
    + apply step_other_moves; [reflexivity | discriminate | unfold Inv; auto].
    + apply step_other_moves; [reflexivity | discriminate | unfold Inv; auto].
    + apply step_other_moves; [reflexivity | discriminate | unfold Inv; auto].
    + apply step_other_moves; [reflexivity | discriminate | unfold Inv; auto].
    + apply step_other_moves; [reflexivity | discriminate | unfold Inv; auto].
Qed.

(** *** Sequences of events *)

Lemma after_nil (s : State) : after [] s = s.
Proof. reflexivity. Qed.

Lemma after_cons (e : Event) (es : list Event) (s : State) :
  Inv s -> after (e :: es) s = after es (fst (step e s)).
Proof.
  intros I. destruct (@step_moves e s I) as (R & _).
  unfold after, run. cbn [forEach]. unfold bind.
  destruct (step e s) as [s' r]. simpl in R. subst r. reflexivity.
Qed.

Lemma after_one (e : Event) (s : State) : after [e] s = fst (step e s).
Proof.
  unfold after, run. cbn [forEach]. unfold bind, ret.
  destruct (step e s) as [s' [[]|x]]; reflexivity.
Qed.

(** The event loop never ends by an exception, and keeps the invariant. *)
Lemma run_inv (es : list Event) (s : State) :
  Inv s -> run es s = (after es s, Ret tt) /\ Inv (after es s).
Proof.
  revert s. induction es as [|e es IH]; intros s I.
  - split; [reflexivity | exact I].
  - destruct (@step_moves e s I) as (R & J & _).
    rewrite after_cons by exact I.
    destruct (IH _ J) as [E K]. split; [|exact K].
    unfold run in *. cbn [forEach]. unfold bind.
    destruct (step e s) as [s' r]. simpl in *. subst r. exact E.
Qed.

Lemma after_app (es fs : list Event) (s : State) :
  Inv s -> after (es ++ fs) s = after fs (after es s).
Proof.
  revert s. induction es as [|e es IH]; intros s I; [reflexivity|].
  destruct (@step_moves e s I) as (_ & J & _).
  cbn [app]. rewrite !after_cons by exact I. apply IH, J.
Qed.

Lemma quiet_inv (s : State) : Quiet s -> Inv s.
Proof.
  intros (Q1 & Q2 & Q3 & Q4). unfold Inv. rewrite Q1, Q2, Q3, Q4.
  repeat split. discriminate.
Qed.

(** In a serial trace the rebuilds started are those ended, and the one
    under way. *)
Lemma serial_counts (t : list Action) (o o' : bool) :
  serial o t = Some o' ->
  length (filter isStart t) + (if o then 1 else 0)
  = length (filter isEnd t) + (if o' then 1 else 0).
Proof.
  revert o. induction t as [|a t IH]; intros o; simpl.
  - intros H. injection H as <-. reflexivity.
  - destruct (isStart a) eqn:A, (isEnd a) eqn:B;
      try (destruct a; discriminate).
    + destruct o; [discriminate|]. intros H. apply IH in H. simpl in *. lia.
    + destruct o; [|discriminate]. intros H. apply IH in H. simpl in *. lia.
    + apply IH.
Qed.


(** *** Watcher events during a rebuild *)

(** How many more promises have to settle before the server is idle. *)
Let rank (s : State) : nat :=
  match suspended s with
  | [AwaitLoadConfig _] => 2
  | [AwaitBuild] => 1
  | _ => 0
  end + (if needsRebuild s then 2 else 0).

Lemma settle_rank (bundler : Exc unit) (s : State) :
  Inv s -> rank (fst (step (Settle 0 bundler) s)) <= rank s - 1.
Proof.
  intros I. destruct (@step_moves (Settle 0 bundler) s I) as (_ & _ & M).
  destruct I as (I1 & I2 & I3). cbn [moves] in M. unfold rank.
  destruct M as [[-> N]|[(B & _ & N & _ & _ & [c P] & Q)
                        |(B & _ & N & _ & _ & [p Q])]].
  - destruct (suspended s); [|discriminate].
    destruct (rebuilding s); [discriminate|].
    destruct (needsRebuild s); [specialize (I3 eq_refl); discriminate|].
    simpl. lia.
  - rewrite N, P, Q. destruct (needsRebuild s); simpl; lia.
  - rewrite N, Q, B in *.
    destruct (suspended s) as [|[|] [|]]; try discriminate;
      destruct (needsRebuild s); simpl; lia.
Qed.

Lemma rank_idle (s : State) : Inv s -> rank s = 0 -> rebuilding s = false.
Proof.
  intros (_ & I2 & _) R. unfold rank in R.
  destruct (rebuilding s); auto.
  destruct (suspended s) as [|[|] [|]]; try discriminate;
    destruct (needsRebuild s); simpl in R; lia.
Qed.

(** What events other than those of the watcher can start. *)
Lemma no_trigger_starts (rest : list Event) (s s1 : State) :
  Inv s1 -> forallb (fun e => negb (isTrigger e)) rest = true ->
  (needsRebuild s1 = needsRebuild s /\ started s1 = started s
   /\ (needsRebuild s = true -> rebuilding s1 = true))
  \/ (needsRebuild s1 = false
      /\ started s1 = started s + (if needsRebuild s then 1 else 0)) ->
  let s' := after rest s1 in
  (needsRebuild s' = needsRebuild s /\ started s' = started s
   /\ (needsRebuild s = true -> rebuilding s' = true))
  \/ (needsRebuild s' = false
      /\ started s' = started s + (if needsRebuild s then 1 else 0)).
Proof.
  revert s1. induction rest as [|x rest IH]; intros s1 I1 T H; [exact H|].
  simpl in T. apply andb_true_iff in T as [T1 T2].
  destruct (@step_moves x s1 I1) as (_ & J & M).
  cbv zeta. rewrite after_cons by exact I1. apply IH; auto. clear IH T2.
  destruct x; try discriminate; cbn [moves] in M;
    try (destruct M as (M1 & M2 & _ & M3 & _); rewrite M1, M2, M3; exact H).
  destruct M as [[-> _]|[(_ & B & N & S & _)|(_ & _ & N & _ & S & _)]];
    [exact H| |].
  - rewrite B, N, S. destruct H as [(H1 & H2 & H3)|H]; auto.
  - rewrite N, S. right. split; [reflexivity|].
    destruct H as [(H1 & H2 & H3)|(H1 & H2)].
    + rewrite H1, H2. reflexivity.
    + rewrite H1, H2. lia.
Qed.








(** The same run on a server whose configuration loads and whose bundler
    succeeds, with one open client: two rebuilds, each with one call of
    [build] and one reload message, the second starting after the first has
    completed. *)
Example two_changes_run :
  let config :=
    {| metadata :=
         {| name := lit "Test"; namespace := None; version := None;
            description := None; author := None; match_ := None;
            exclude := None; include := None; grant := None;
            updateURL := None; downloadURL := None; supportURL := None;
            icon := None; runAt := None; require := None; resource := None;
            sandbox := None; connect := None; noframes := None |};
       build := None |} in
  let file :=
    {| mod_default :=
         Some {| raw_metadata := Some (metadata config);
                 raw_build := None |};
       mod_named := {| raw_metadata := None; raw_build := None |} |} in
  let s0 :=
    {| wsPort := 3001; outFile := lit "bundle.user.js"; rebuilding := false;
       needsRebuild := false; clients := [7]; suspended := [];
       configFile := Some file; moduleMap := Some file;
       scriptFile := Readable (lit "console.log(1);");
       readyState := fun _ => 1%N; trace := [] |} in
  let message := {| type := lit "reload"; code := lit "console.log(1);" |} in
  trace
    (after [Change (lit "src/main.ts"); Change (lit "src/main.ts");
            Settle 0 (Ret tt); Settle 0 (Ret tt); Settle 0 (Ret tt);
            Settle 0 (Ret tt)] s0)
  = [LogFileChanged (lit "src/main.ts"); LogRebuilding; CallLoadConfig;
     LogFileChanged (lit "src/main.ts");
     CallBuild config true 3001; LogRebuildComplete;
     Send 7 message; LogSentReload 1 0;
     LogRebuilding; CallLoadConfig;
     CallBuild config true 3001; LogRebuildComplete;
     Send 7 message; LogSentReload 1 0].
Proof. reflexivity. Qed.

(** *** Failed rebuilds *)



(** *** The set of clients *)

(** Only the connection and the close of a socket change the set. *)
Lemma step_clients (e : Event) (s : State) :
  clients (fst (step e s))
  = match e with
    | Connection ws => setAdd ws (clients s)
    | Close ws => setDelete ws (clients s)
    | _ => clients s
    end.
Proof.
  assert (R : forall s1, clients (fst (rebuild s1)) = clients s1).
  { intros s1. destruct (rebuilding s1) eqn:B.
    - rewrite rebuild_busy by exact B. reflexivity.
    - rewrite rebuild_idle by exact B. reflexivity. }
  assert (A : forall s1, clients (fst (afterTry s1)) = clients s1).
  { intros s1. destruct (needsRebuild s1) eqn:N.
    - rewrite afterTry_again by exact N. reflexivity.
    - rewrite afterTry_done by exact N. reflexivity. }
  destruct e; try (destruct s; reflexivity).
  - destruct (@step_trigger (Change path) s eq_refl) as (l & -> & _).
    rewrite R. reflexivity.
  - destruct (@step_trigger (Add path) s eq_refl) as (l & -> & _).
    rewrite R. reflexivity.
  - rewrite step_settle.
    destruct (nth_error (suspended s) k) as [[[c|x]|]|]; [| | |reflexivity].
    + rewrite resume_loaded. reflexivity.
    + rewrite resume_load_failed, A. reflexivity.
    + destruct bundler as [[]|x].
      * rewrite resume_built, A. reflexivity.
      * rewrite resume_build_failed, A. reflexivity.
  - destruct (request_responds s url) as (r & ->). reflexivity.
Qed.

Lemma setAdd_NoDup (ws : Client) (cs : list Client) :
  NoDup cs -> NoDup (setAdd ws cs).
Proof.
  intros N. unfold setAdd. destruct (existsb (Nat.eqb ws) cs) eqn:E; auto.
  apply NoDup_app; auto.
  - repeat constructor. intros [].
  - intros x I [X|[]]. subst x.
    assert (X : existsb (Nat.eqb ws) cs = true).
    { apply existsb_exists. exists ws. split; auto. apply Nat.eqb_refl. }
    congruence.
Qed.

(** The set of clients holds no socket twice. *)
Lemma clients_NoDup (es : list Event) (s : State) :
  Inv s -> NoDup (clients s) -> NoDup (clients (after es s)).
Proof.
  revert s. induction es as [|e es IH]; intros s I N; [exact N|].
  destruct (@step_moves e s I) as (_ & J & _).
  rewrite after_cons by exact I. apply IH; [exact J|].
  rewrite step_clients.
  destruct e; auto using setAdd_NoDup. apply NoDup_filter, N.
Qed.

(** *** The configuration across rebuilds *)

(** Once the module map holds the configuration module, the outcome of
    [loadConfig] does not depend on what the file holds, only on whether
    the file exists. *)
Lemma loadConfig_ignores_edits (s : State) (m f1 f2 : ModuleNS) :
  moduleMap s = Some m ->
  snd (loadConfig (set_configFile (Some f1) s))
  = snd (loadConfig (set_configFile (Some f2) s)).
Proof.
  intros H. destruct s. simpl in H. subst.
  destruct m as [[[[md|] b]|] [[md'|] b']]; reflexivity.
Qed.

(** The module map, once filled, never changes. *)
Lemma moduleMap_kept (es : list Event) (s : State) (m : ModuleNS) :
  Inv s -> moduleMap s = Some m -> moduleMap (after es s) = Some m.
Proof.
  revert s. induction es as [|e es IH]; intros s I H; [exact H|].
  destruct (@step_moves e s I) as (_ & J & _).
  rewrite after_cons by exact I. apply IH; [exact J|]. clear IH.
  assert (B : forall s1, moduleMap s1 = Some m ->
                         moduleMap (begun s1) = Some m).
  { intros s1 H1.
    destruct s1 as [wp file busy again cs parked cf mm script ready t].
    simpl in H1. subst. unfold begun, loadMap. fields.
    destruct m as [[[[md|] b]|] [[md'|] b']]; destruct cf; reflexivity. }
  assert (A : forall s1, moduleMap s1 = Some m ->
                         moduleMap (fst (afterTry s1)) = Some m).
  { intros s1 H1. destruct (needsRebuild s1) eqn:N.
    - rewrite afterTry_again by exact N. apply B. exact H1.
    - rewrite afterTry_done by exact N. exact H1. }
  destruct (isTrigger e) eqn:T.
  - destruct (@step_trigger e s T) as (l & -> & _).
    destruct (rebuilding s) eqn:R.
    + rewrite rebuild_busy by exact R. exact H.
    + rewrite rebuild_idle by exact R. apply B. exact H.
  - destruct e; try discriminate;
      try (match goal with
           | |- moduleMap (fst (step ?e s)) = _ =>
               destruct (@step_other e s eq_refl)
                 as (s' & u & E & _ & _ & _ & _ & _ & M & _);
               [discriminate | rewrite E; fields; congruence]
           end).
    rewrite step_settle.
    destruct (nth_error (suspended s) k) as [[[c|x]|]|]; [| | |exact H].
    + rewrite resume_loaded. exact H.
    + rewrite resume_load_failed. apply A. exact H.
    + destruct bundler as [[]|x].
      * rewrite resume_built. apply A. exact H.
      * rewrite resume_build_failed. apply A. exact H.
Qed.

(** C2 fails on the code. A server starts on a configuration named "Test";
    the file is then rewritten to name the script "Edited", which the state
    shows; a change event follows and the promise of [loadConfig] settles.
    The rebuild calls [loadConfig] anew, yet the configuration it hands to
    [build] is the one loaded at start-up, named "Test": the import of the
    same file yields the module of the first load. *)
Theorem config_edit_not_picked_up :
  let meta n :=
    {| name := n; namespace := None; version := None; description := None;
       author := None; match_ := None; exclude := None; include := None;
       grant := None; updateURL := None; downloadURL := None;
       supportURL := None; icon := None; runAt := None; require := None;
       resource := None; sandbox := None; connect := None;
       noframes := None |} in
  let file n :=
    {| mod_default :=
         Some {| raw_metadata := Some (meta n); raw_build := None |};
       mod_named := {| raw_metadata := None; raw_build := None |} |} in
  exists s,
    startDevServer
      {| port := None; opt_wsPort := None; configPath := None |}
      (lit "bundle.user.js") (Some (file (lit "Test"))) Missing
      (fun _ => 0%N) (Ret tt)
    = Running s
    /\ let s' :=
         after [ConfigWritten (Some (file (lit "Edited")));
                Change (lit "userscript.config.ts");
                Settle 0 (Ret tt)] s in
       configFile s' = Some (file (lit "Edited"))
       /\ skipn (length (trace s)) (trace s')
          = [LogFileChanged (lit "userscript.config.ts"); LogRebuilding;
             CallLoadConfig;
             CallBuild {| metadata := meta (lit "Test"); build := None |}
               true 3001].
Proof.
  intros meta file. eexists. split; [reflexivity|].
  split; reflexivity.
Qed.

(** The server that has started is in the state the watcher expects, and
    its module map holds the configuration module. *)
Lemma startDevServer_quiet (options : DevServerOptions) (d : str)
    (config0 : option ModuleNS) (script0 : FileState) (ready0 : Client -> N)
    (initialBuild : Exc unit) (s : State) :
  startDevServer options d config0 script0 ready0 initialBuild = Running s ->
  Quiet s /\ moduleMap s = config0 /\ config0 <> None.
Proof.
  unfold startDevServer.
  destruct config0 as [[[[[md|] b]|] [[md'|] b']]|];
    destruct initialBuild as [[]|e]; cbv - [orString orNumber Z.add];
    try discriminate; intros H; injection H as <-;
    (split; [repeat split|split; [reflexivity | discriminate]]).
Qed.

(** So, on a server that has started, at any later time, [loadConfig] gives
    the same outcome whatever the configuration file has been rewritten
    to. *)
Lemma edits_never_picked_up (options : DevServerOptions) (d : str)
    (config0 : option ModuleNS) (script0 : FileState) (ready0 : Client -> N)
    (initialBuild : Exc unit) (s : State) (es : list Event)
    (f1 f2 : ModuleNS) :
  startDevServer options d config0 script0 ready0 initialBuild = Running s ->
  snd (loadConfig (set_configFile (Some f1) (after es s)))
  = snd (loadConfig (set_configFile (Some f2) (after es s))).
Proof.
  intros H. apply startDevServer_quiet in H as (Q & M & N).
  destruct config0 as [m|]; [|congruence].
  apply loadConfig_ignores_edits with m.
  apply moduleMap_kept; [apply quiet_inv, Q | exact M].
Qed.

(** *** What an event adds to the trace *)

Lemma removeNth_In {A} (k : nat) (l : list A) (x : A) :
  In x (removeNth k l) -> In x l.
Proof.
  revert k. induction l as [|y l IH]; intros k; [destruct k; auto|].
  destruct k as [|k]; simpl; [auto|]. intros [E|I]; eauto.
Qed.

Lemma afterTry_trace (s : State) :
  trace (fst (afterTry s))
  = trace s
    ++ (if needsRebuild s then [LogRebuilding; CallLoadConfig] else []).
Proof.
  destruct (needsRebuild s) eqn:N.
  - rewrite afterTry_again by exact N. reflexivity.
  - rewrite afterTry_done by exact N. simpl. symmetry. apply app_nil_r.
Qed.

Lemma step_watch (e : Event) (s : State) :
  isTrigger e = true ->
  exists l,
    step e s = rebuild (set_trace (trace s ++ [l]) s)
    /\ match l with LogFileChanged _ | LogFileAdded _ => True | _ => False end.
Proof.
  destruct e; try discriminate; intros _;
    [exists (LogFileChanged path) | exists (LogFileAdded path)];
    (split; [|exact I]); destruct s; reflexivity.
Qed.

(** The reason an action of the server has to be in the trace: [build] is
    called when the promise of [loadConfig] has been fulfilled, in
    development mode and with the port of the channel; a message is sent
    when the promise of [build] has been fulfilled, with the code of the
    script then on disk, to a client of the set that is open. *)
Let justified (e : Event) (s : State) (a : Action) : Prop :=
  match a with
  | CallBuild c d p =>
      d = true /\ p = wsPort s
      /\ exists k b,
           e = Settle k b
           /\ nth_error (suspended s) k = Some (AwaitLoadConfig (Ret c))
  | Send c m =>
      exists k content,
        e = Settle k (Ret tt)
        /\ nth_error (suspended s) k = Some AwaitBuild
        /\ scriptFile s = Readable content
        /\ m = {| type := lit "reload"; code := reloadCode content |}
        /\ In c (clients s) /\ readyState s c = 1%N
  | _ => True
  end.

Lemma step_adds (e : Event) (s : State) :
  exists u,
    trace (fst (step e s)) = trace s ++ u /\ Forall (justified e s) u.
Proof.
  destruct (isTrigger e) eqn:T.
  { destruct (@step_watch e s T) as (l & -> & L).
    destruct (rebuilding s) eqn:B.
    - rewrite rebuild_busy by (fields; exact B). exists [l].
      split; [reflexivity|]. destruct l; try contradiction; repeat constructor.
    - rewrite rebuild_idle by (fields; exact B).
      exists [l; LogRebuilding; CallLoadConfig].
      split; [unfold begun; fields; rewrite <- app_assoc; reflexivity|].
      destruct l; try contradiction; repeat constructor. }
  destruct e; try discriminate.
  - rewrite step_settle.
    destruct (nth_error (suspended s) k) as [[[c|x]|]|] eqn:P.
    + rewrite resume_loaded. exists [CallBuild c true (wsPort s)].
      split; [reflexivity|]. constructor; [|constructor].
      split; [reflexivity|]. split; [reflexivity|]. eauto.
    + rewrite resume_load_failed, afterTry_trace. fields.
      eexists (LogBuildFailed x :: _). rewrite <- app_assoc.
      split; [reflexivity|]. destruct (needsRebuild s); repeat constructor.
    + destruct bundler as [[]|x].
      * rewrite resume_built, afterTry_trace. fields.
        eexists (LogRebuildComplete :: _ ++ _).
        rewrite <- app_assoc. split; [reflexivity|].
        constructor; [exact I|]. apply Forall_app. split.
        -- unfold notified. fields.
           destruct (scriptFile s) as [|content|x] eqn:F;
             [repeat constructor| |repeat constructor].
           apply Forall_app. split; [|repeat constructor].
           apply Forall_forall. intros a H.
           apply in_map_iff in H as (c & <- & H).
           apply filter_In in H as [H1 H2]. apply N.eqb_eq in H2.
           exists k, content. auto 10.
        -- destruct (needsRebuild s); repeat constructor.
      * rewrite resume_build_failed, afterTry_trace. fields.
        eexists (LogBuildFailed x :: _). rewrite <- app_assoc.
        split; [reflexivity|]. destruct (needsRebuild s); repeat constructor.
    + exists []. split; [symmetry; apply app_nil_r | constructor].
  - destruct s. eexists [_]. split; [reflexivity | repeat constructor].
  - destruct s. eexists [_]. split; [reflexivity | repeat constructor].
  - destruct (request_responds s url) as (r & ->). exists [Respond r].
    split; [reflexivity | repeat constructor].
  - exists []. split; [destruct s; symmetry; apply app_nil_r | constructor].
  - exists []. split; [destruct s; symmetry; apply app_nil_r | constructor].
  - exists []. split; [destruct s; symmetry; apply app_nil_r | constructor].
Qed.

Lemma afterTry_returns (s : State) : snd (afterTry s) = Ret tt.
Proof.
  destruct (needsRebuild s) eqn:N.
  - rewrite afterTry_again by exact N. reflexivity.
  - rewrite afterTry_done by exact N. reflexivity.
Qed.

(** X4. A reload message enters the trace in one turn of the event loop
    only: the one in which the promise of [build] awaited by [rebuild] is
    fulfilled. The message then carries the code of the script on disk, and
    its receiver is a client of the set whose [readyState] is 1. No other
    event sends anything: a client that connects is sent nothing until a
    later rebuild succeeds. *)
Theorem reload_sent_only_after_build (e : Event) (s : State) (c : Client)
    (m : ReloadPayload) :
  In (Send c m) (trace (fst (step e s))) ->
  In (Send c m) (trace s)
  \/ exists k content,
       e = Settle k (Ret tt)
       /\ nth_error (suspended s) k = Some AwaitBuild
       /\ scriptFile s = Readable content
       /\ m = {| type := lit "reload"; code := reloadCode content |}
       /\ In c (clients s) /\ readyState s c = 1%N.
Proof.
  intros H. destruct (step_adds e s) as (u & E & J). rewrite E in H.
  apply in_app_iff in H as [H|H]; [left; exact H | right].
  rewrite Forall_forall in J. exact (J _ H).
Qed.

(** X4 at a server whose build has just succeeded, with one open client. *)
Lemma reload_sent_only_after_build_witness :
  let s :=
    {| wsPort := 3001; outFile := lit "bundle.user.js"; rebuilding := true;
       needsRebuild := false; clients := [7]; suspended := [AwaitBuild];
       configFile := None; moduleMap := None;
       scriptFile := Readable (lit "console.log(1);");
       readyState := fun _ => 1%N; trace := [] |} in
  let m := {| type := lit "reload"; code := lit "console.log(1);" |} in
  In (Send 7 m) (trace (fst (step (Settle 0 (Ret tt)) s)))
  /\ (In (Send 7 m) (trace s)
      \/ exists k content,
           Settle 0 (Ret tt) = Settle k (Ret tt)
           /\ nth_error (suspended s) k = Some AwaitBuild
           /\ scriptFile s = Readable content
           /\ m = {| type := lit "reload"; code := reloadCode content |}
           /\ In 7 (clients s) /\ readyState s 7 = 1%N).
Proof.
  intros s m.
  assert (H : In (Send 7 m) (trace (fst (step (Settle 0 (Ret tt)) s))))
    by (simpl; auto).
  split; [exact H|].
  exact (@reload_sent_only_after_build (Settle 0 (Ret tt)) s 7 m H).
Defined.

(** X5. The whole path of a hot reload. When the promise of [build] is
    fulfilled and the script on disk is what the builder writes in
    development mode for the port of the channel (the header, the client and
    a bundled chunk), the turn does not throw and the trace gains, in this
    order: the completion line; for each client of the set that is open, in
    the order of the set, one message whose code is the chunk without its
    leading white space; the line that counts the clients of the set, open
    or not; and the start of the next rebuild when one was requested. *)
Theorem rebuilt_chunk_reaches_clients (s : State) (config : UserscriptConfig)
    (chunk : str) :
  suspended s = [AwaitBuild] ->
  scriptFile s
  = Readable (artifact (banner config true (Some (wsPort s))) chunk) ->
  length (occurrences headerEndMarker (generateHeader (metadata config)))
  <= 1 ->
  wsPort s <> 0%Z ->
  let message := {| type := lit "reload"; code := trimStart chunk |} in
  exists s',
    step (Settle 0 (Ret tt)) s = (s', Ret tt)
    /\ trace s'
       = trace s
         ++ [LogRebuildComplete]
         ++ map (fun c => Send c message)
              (filter (fun c => (readyState s c =? 1)%N) (clients s))
         ++ [LogSentReload (length (clients s))
               (roundKb (length (trimStart chunk)))]
         ++ (if needsRebuild s then [LogRebuilding; CallLoadConfig] else []).
Proof.
  intros P F U W message.
  assert (R : reloadCode
                (artifact (banner config true (Some (wsPort s))) chunk)
              = trimStart chunk).
  { unfold artifact, banner.
    destruct (Z.eqb_spec (wsPort s) 0) as [|_]; [contradiction|].
    cbn [andb negb]. rewrite <- !app_assoc.
    apply reloadCode_with_client, U. }
  rewrite step_settle, P. cbn [nth_error removeNth]. rewrite resume_built.
  match goal with |- exists s', afterTry ?x = _ /\ _ => set (s1 := x) end.
  exists (fst (afterTry s1)). split.
  - rewrite <- (afterTry_returns s1). apply surjective_pairing.
  - rewrite afterTry_trace. unfold s1, notified. fields. rewrite F, R.
    repeat first [rewrite <- app_assoc | progress cbn [app]]. reflexivity.
Qed.

(** X5 at a script built for port 3001, with two clients in the set of
    which the second has closed. *)
Lemma rebuilt_chunk_reaches_clients_witness :
  let config :=
    {| metadata :=
         {| name := lit "Test"; namespace := None; version := None;
            description := None; author := None; match_ := None;
            exclude := None; include := None; grant := None;
            updateURL := None; downloadURL := None; supportURL := None;
            icon := None; runAt := None; require := None; resource := None;
            sandbox := None; connect := None; noframes := None |};
       build := None |} in
  let chunk := lit "
console.log(1);" in
  let s :=
    {| wsPort := 3001; outFile := lit "bundle.user.js"; rebuilding := true;
       needsRebuild := false; clients := [1; 2]; suspended := [AwaitBuild];
       configFile := None; moduleMap := None;
       scriptFile :=
         Readable (artifact (banner config true (Some 3001%Z)) chunk);
       readyState := fun c => if Nat.eqb c 2 then 3%N else 1%N;
       trace := [] |} in
  exists s',
    step (Settle 0 (Ret tt)) s = (s', Ret tt)
    /\ trace s'
       = [LogRebuildComplete;
          Send 1 {| type := lit "reload"; code := lit "console.log(1);" |};
          LogSentReload 2 0].
Proof.
  intros config chunk s.
  assert (U : length (occurrences headerEndMarker
                        (generateHeader (metadata config))) <= 1)
    by (vm_compute; lia).
  assert (W : wsPort s <> 0%Z) by discriminate.
  destruct (@rebuilt_chunk_reaches_clients s config chunk eq_refl eq_refl U W)
    as (s' & E & T).
  exists s'. split; [exact E|]. rewrite T. reflexivity.
Defined.

(** *** Watcher events are not lost, and nothing is retried *)

(** The rebuilds started never become fewer. *)
Lemma started_grows (e : Event) (s : State) :
  Inv s -> started s <= started (fst (step e s)).
Proof.
  intros I. destruct (@step_moves e s I) as (_ & _ & M).
  destruct (step_adds e s) as (u & E & _).
  unfold started. rewrite E, filter_app, length_app. lia.
Qed.

(** X6. No watcher event is lost. From the state in which the watcher
    starts, after any events, let a watcher event arrive, followed by any
    events. Then either a rebuild has started since the event arrived, or a
    rebuild is under way with the request for another recorded. So whenever
    the server is idle again, at least one rebuild has started after the
    event. *)
Theorem watcher_event_not_lost (s0 : State) (es rest : list Event)
    (e : Event) :
  Quiet s0 -> isTrigger e = true ->
  let s := after es s0 in
  let s' := after (e :: rest) s in
  (started s + 1 <= started s'
   \/ (rebuilding s' = true /\ needsRebuild s' = true))
  /\ (rebuilding s' = false -> started s + 1 <= started s').
Proof.
  intros Q T s s'.
  destruct (@run_inv es s0 (quiet_inv Q)) as [_ I]. fold s in I.
  assert (G : forall rest s1,
             Inv s1 ->
             started s <= started s1 ->
             started s + 1 <= started s1
             \/ (rebuilding s1 = true /\ needsRebuild s1 = true) ->
             started s + 1 <= started (after rest s1)
             \/ (rebuilding (after rest s1) = true
                 /\ needsRebuild (after rest s1) = true)).
  { clear rest s'. intros rest.
    induction rest as [|x rest IH]; intros s1 I1 L0 H; [exact H|].
    destruct (@step_moves x s1 I1) as (_ & J & M).
    rewrite after_cons by exact I1.
    pose proof (@started_grows x s1 I1) as L.
    apply IH; [exact J | lia |].
    destruct H as [H|[H1 H2]]; [left; lia|].
    destruct x; cbn [moves] in M;
      try (destruct M as (M1 & M2 & _); right; split; congruence).
    - rewrite H1 in M. destruct M as (l & -> & _). right. split; auto.
    - rewrite H1 in M. destruct M as (l & -> & _). right. split; auto.
    - destruct M as [[-> _]|[(_ & B & N & _)|(_ & _ & _ & _ & S & _)]].
      + right. split; auto.
      + right. split; congruence.
      + rewrite H2 in S. left. lia. }
  assert (H : started s + 1 <= started s'
              \/ (rebuilding s' = true /\ needsRebuild s' = true)).
  { unfold s'. rewrite after_cons by exact I.
    destruct (@step_moves e s I) as (_ & J & M).
    apply G; [exact J | apply started_grows, I |].
    destruct e; try discriminate; cbn [moves] in M;
      destruct (rebuilding s) eqn:B;
      try (destruct M as (l & -> & _); right; split; [exact B | reflexivity]);
      destruct M as (_ & _ & S & _); left; lia. }
  split; [exact H|]. intros B.
  destruct H as [H|[H _]]; [exact H | congruence].
Qed.

(** X6 at two changes with the first rebuild failing to load the
    configuration. *)
Lemma watcher_event_not_lost_witness :
  let s0 :=
    {| wsPort := 3001; outFile := lit "bundle.user.js"; rebuilding := false;
       needsRebuild := false; clients := []; suspended := [];
       configFile := None; moduleMap := None; scriptFile := Missing;
       readyState := fun _ => 0%N; trace := [] |} in
  let es := [Change (lit "src/main.ts")] in
  let rest := [Settle 0 (Ret tt); Settle 0 (Ret tt)] in
  Quiet s0
  /\ rebuilding (after (Change (lit "src/a.ts") :: rest) (after es s0)) = false
  /\ started (after es s0) + 1
     <= started (after (Change (lit "src/a.ts") :: rest) (after es s0)).
Proof.
  intros s0 es rest.
  assert (Q : Quiet s0) by (repeat split; reflexivity).
  split; [exact Q|]. split; [reflexivity|].
  exact (proj2 (@watcher_event_not_lost s0 es rest (Change (lit "src/a.ts"))
                  Q eq_refl) eq_refl).
Defined.

(** X7. Nothing is retried and the server comes to rest. From the state in
    which the watcher starts, after any events: events other than those of
    the watcher start at most one more rebuild, the one already requested,
    whatever the promises settle to, so a failed rebuild is not started
    again; and once four promises have settled the server is idle, with no
    activation parked, every rebuild started has ended, and exactly the
    requested rebuild, if any, has been added. *)
Theorem server_comes_to_rest (s0 : State) (es : list Event) :
  Quiet s0 ->
  let s := after es s0 in
  let more := if needsRebuild s then 1 else 0 in
  (forall rest,
      forallb (fun e => negb (isTrigger e)) rest = true ->
      started (after rest s) <= started s + more)
  /\ forall b1 b2 b3 b4,
       let s' :=
         after [Settle 0 b1; Settle 0 b2; Settle 0 b3; Settle 0 b4] s in
       rebuilding s' = false /\ needsRebuild s' = false
       /\ suspended s' = []
       /\ started s' = started s + more
       /\ ended s' = started s'.
Proof.
  intros Q s more.
  destruct (@run_inv es s0 (quiet_inv Q)) as [_ I]. fold s in I.
  assert (H0 : (needsRebuild s = needsRebuild s /\ started s = started s
                /\ (needsRebuild s = true -> rebuilding s = true))
               \/ (needsRebuild s = false
                   /\ started s
                      = started s + (if needsRebuild s then 1 else 0))).
  { left. repeat split. apply I. }
  split.
  - intros rest T.
    destruct (@no_trigger_starts rest s s I T H0) as [(_ & K & _)|(_ & K)];
      rewrite K; unfold more; lia.
  - intros b1 b2 b3 b4 s'.
    assert (T : forallb (fun e => negb (isTrigger e))
                  [Settle 0 b1; Settle 0 b2; Settle 0 b3; Settle 0 b4]
                = true) by reflexivity.
    pose proof (@no_trigger_starts _ s s I T H0) as K. fold s' in K.
    destruct (@run_inv [Settle 0 b1; Settle 0 b2; Settle 0 b3; Settle 0 b4]
                s I) as [_ I']. fold s' in I'.
    assert (R : rank s <= 4).
    { unfold rank. destruct (suspended s) as [|[|] [|]];
        destruct (needsRebuild s); simpl; lia. }
    assert (Z : rebuilding s' = false).
    { destruct (@step_moves (Settle 0 b1) s I) as (_ & J3 & _).
      pose proof (@settle_rank b1 s I) as D1.
      destruct (@step_moves (Settle 0 b2) _ J3) as (_ & J4 & _).
      pose proof (@settle_rank b2 _ J3) as D2.
      destruct (@step_moves (Settle 0 b3) _ J4) as (_ & J5 & _).
      pose proof (@settle_rank b3 _ J4) as D3.
      destruct (@step_moves (Settle 0 b4) _ J5) as (_ & J6 & _).
      pose proof (@settle_rank b4 _ J5) as D4.
      unfold s'. rewrite !after_cons, after_nil by auto.
      apply rank_idle; [exact J6 | lia]. }
    destruct I' as (I1 & I2 & I3).
    assert (N : needsRebuild s' = false).
    { destruct (needsRebuild s'); auto. specialize (I3 eq_refl). congruence. }
    assert (P : suspended s' = []).
    { rewrite Z in I2. destruct (suspended s'); [reflexivity | discriminate]. }
    assert (S : started s' = started s + more).
    { destruct K as [(K1 & K2 & K3)|(_ & K)]; [|exact K].
      unfold more. destruct (needsRebuild s); [|lia].
      specialize (K3 eq_refl). congruence. }
    repeat match goal with |- _ /\ _ => split end; auto.
    apply serial_counts in I1. unfold started, ended in *.
    rewrite Z in I1. simpl in I1. lia.
Qed.

(** X7 at a rebuild under way with another requested, both failing. *)
Lemma server_comes_to_rest_witness :
  let s0 :=
    {| wsPort := 3001; outFile := lit "bundle.user.js"; rebuilding := false;
       needsRebuild := false; clients := []; suspended := [];
       configFile := None; moduleMap := None; scriptFile := Missing;
       readyState := fun _ => 0%N; trace := [] |} in
  let es := [Change (lit "src/main.ts"); Change (lit "src/main.ts")] in
  let x := Throw (Failure (lit "bundler")) in
  Quiet s0
  /\ started (after [Settle 0 x; Settle 0 x; Settle 0 x; Settle 0 x]
                (after es s0)) = 2.
Proof.
  intros s0 es x.
  assert (Q : Quiet s0) by (repeat split; reflexivity).
  split; [exact Q|].
  destruct (@server_comes_to_rest s0 es Q) as [_ H].
  destruct (H x x x x) as (_ & _ & _ & S & _). exact S.
Defined.

(** *** The calls of the builder *)

Lemma step_wsPort (e : Event) (s : State) :
  wsPort (fst (step e s)) = wsPort s.
Proof.
  assert (R : forall s1, wsPort (fst (rebuild s1)) = wsPort s1).
  { intros s1. destruct (rebuilding s1) eqn:B.
    - rewrite rebuild_busy by exact B. reflexivity.
    - rewrite rebuild_idle by exact B. reflexivity. }
  assert (A : forall s1, wsPort (fst (afterTry s1)) = wsPort s1).
  { intros s1. destruct (needsRebuild s1) eqn:N.
    - rewrite afterTry_again by exact N. reflexivity.
    - rewrite afterTry_done by exact N. reflexivity. }
  destruct e; try (destruct s; reflexivity).
  - destruct (@step_trigger (Change path) s eq_refl) as (l & -> & _).
    rewrite R. reflexivity.
  - destruct (@step_trigger (Add path) s eq_refl) as (l & -> & _).
    rewrite R. reflexivity.
  - rewrite step_settle.
    destruct (nth_error (suspended s) k) as [[[c|x]|]|]; [| | |reflexivity].
    + rewrite resume_loaded. reflexivity.
    + rewrite resume_load_failed, A. reflexivity.
    + destruct bundler as [[]|x].
      * rewrite resume_built, A. reflexivity.
      * rewrite resume_build_failed, A. reflexivity.
  - destruct (request_responds s url) as (r & ->). reflexivity.
Qed.

(** What the configuration module gives [loadConfig]: lines 21 to 27 of
    builder.ts. *)
Let exported (m : ModuleNS) : Exc UserscriptConfig :=
  let config :=
    match mod_default m with
    | Some c => c
    | None => mod_named m
    end in
  match raw_metadata config with
  | None => Throw InvalidConfig
  | Some md => Ret {| metadata := md; build := raw_build config |}
  end.

Lemma loadConfigBody_cached (s : State) (m : ModuleNS) :
  moduleMap s = Some m ->
  loadConfigBody s
  = (s, match configFile s with
        | None => Throw ConfigNotFound
        | Some _ => exported m
        end).
Proof.
  intros H. destruct s as [wp file busy again cs parked cf mm script ready t].
  simpl in H. subst mm. destruct cf as [f|]; [|reflexivity].
  destruct m as [[[[md|] b]|] [[md'|] b']]; reflexivity.
Qed.

(** The server that has started. *)
Lemma startDevServer_running (options : DevServerOptions) (d : str)
    (config0 : option ModuleNS) (script0 : FileState) (ready0 : Client -> N)
    (initialBuild : Exc unit) (s : State) :
  startDevServer options d config0 script0 ready0 initialBuild = Running s ->
  exists m c0,
    config0 = Some m /\ exported m = Ret c0 /\ moduleMap s = Some m
    /\ wsPort s
       = orNumber (opt_wsPort options)
           (orNumber (port options) 3000 + 1)%Z
    /\ trace s
       = [CallLoadConfig; LogBuilding; CallBuild c0 true (wsPort s);
          LogInitialBuildComplete]
    /\ suspended s = [] /\ clients s = []
    /\ outFile s
       = orString
           match Builder.build c0 with
           | Some b => Builder.outFile b
           | None => None
           end d.
Proof.
  unfold startDevServer.
  destruct config0 as [[[[[md|] b]|] [[md'|] b']]|];
    destruct initialBuild as [[]|e]; cbv - [orString orNumber Z.add];
    try discriminate; intros H; injection H as <-;
    eexists _, _; repeat split.
Qed.

(** X8. Every call of [build] made by a server that has started, the
    initial one and those of all later rebuilds, is in development mode and
    for one and the same port, the port of the channel: [options.wsPort]
    when it is a number other than 0 and [NaN], and otherwise the HTTP port
    plus one, the HTTP port being [options.port] when that is a number
    other than 0 and [NaN], and 3000 otherwise; so a [--port] that is not a
    number, for which the command line passes [NaN], gives 3000 and 3001.
    The numbers given are integers in the range in which the engine counts
    exactly. *)
Theorem builds_for_the_channel_port (options : DevServerOptions) (d : str)
    (config0 : option ModuleNS) (script0 : FileState) (ready0 : Client -> N)
    (initialBuild : Exc unit) (s : State) (es : list Event) :
  startDevServer options d config0 script0 ready0 initialBuild = Running s ->
  (forall n,
      port options = Some (Finite n) \/ opt_wsPort options = Some (Finite n) ->
      (Z.abs n < 2 ^ 53)%Z) ->
  let http :=
    match port options with
    | Some (Finite n) => if (n =? 0)%Z then 3000%Z else n
    | Some NaN | None => 3000%Z
    end in
  let channel :=
    match opt_wsPort options with
    | Some (Finite n) => if (n =? 0)%Z then (http + 1)%Z else n
    | Some NaN | None => (http + 1)%Z
    end in
  wsPort (after es s) = channel
  /\ forall c dev p,
       In (CallBuild c dev p) (trace (after es s)) ->
       dev = true /\ p = channel.
Proof.
  intros H _ http channel.
  pose proof (startDevServer_quiet _ _ _ _ _ _ H) as (Q & _).
  apply startDevServer_running
    in H as (m & c0 & _ & _ & _ & W & T & _).
  assert (C : wsPort s = channel).
  { rewrite W. reflexivity. }
  clear W. apply quiet_inv in Q.
  assert (B : forall c dev p,
             In (CallBuild c dev p) (trace s) -> dev = true /\ p = channel).
  { intros c dev p K. rewrite T in K. simpl in K.
    destruct K as [K|[K|[K|[K|[]]]]]; try discriminate.
    injection K as _ <- <-. auto. }
  clear T. revert s Q C B.
  induction es as [|e es IH]; intros s Q C B; [auto|].
  destruct (@step_moves e s Q) as (_ & J & _).
  rewrite after_cons by exact Q. apply IH; [exact J | | ].
  - rewrite step_wsPort. exact C.
  - intros c dev p K. destruct (step_adds e s) as (u & E & F).
    rewrite E in K. apply in_app_iff in K as [K|K]; [eauto|].
    rewrite Forall_forall in F. destruct (F _ K) as (-> & -> & _). auto.
Qed.

(** X8 at a server started with [--port 8080], and at one started with a
    [--port] that is not a number. *)
Lemma builds_for_the_channel_port_witness :
  let config :=
    {| metadata :=
         {| name := lit "Test"; namespace := None; version := None;
            description := None; author := None; match_ := None;
            exclude := None; include := None; grant := None;
            updateURL := None; downloadURL := None; supportURL := None;
            icon := None; runAt := None; require := None; resource := None;
            sandbox := None; connect := None; noframes := None |};
       build := None |} in
  let file :=
    {| mod_default :=
         Some {| raw_metadata := Some (metadata config);
                 raw_build := None |};
       mod_named := {| raw_metadata := None; raw_build := None |} |} in
  let start p :=
    startDevServer {| port := p; opt_wsPort := None; configPath := None |}
      (lit "bundle.user.js") (Some file) Missing (fun _ => 0%N) (Ret tt) in
  let es := [Change (lit "src/main.ts"); Settle 0 (Ret tt)] in
  (exists s,
      start (Some (Finite 8080)) = Running s
      /\ wsPort (after es s) = 8081%Z
      /\ In (CallBuild config true 8081) (trace (after es s)))
  /\ (exists s,
         start (Some NaN) = Running s /\ wsPort (after es s) = 3001%Z).
Proof.
  intros config file start es. split.
  - eexists. split; [reflexivity|]. split.
    + refine (proj1 (@builds_for_the_channel_port
                       {| port := Some (Finite 8080); opt_wsPort := None;
                          configPath := None |}
                       (lit "bundle.user.js") (Some file) Missing
                       (fun _ => 0%N) (Ret tt) _ es eq_refl _)).
      intros n [K|K]; [injection K as <-; reflexivity | discriminate].
    + simpl. auto.
  - eexists. split; [reflexivity|].
    refine (proj1 (@builds_for_the_channel_port
                     {| port := Some NaN; opt_wsPort := None;
                        configPath := None |}
                     (lit "bundle.user.js") (Some file) Missing
                     (fun _ => 0%N) (Ret tt) _ es eq_refl _)).
    intros n [K|K]; discriminate.
Defined.

(** The module map holds a module that exports [c0], and every parked
    activation whose configuration has loaded holds [c0]. *)
Let Pinned (c0 : UserscriptConfig) (s : State) : Prop :=
  (exists m, moduleMap s = Some m /\ exported m = Ret c0)
  /\ forall c, In (AwaitLoadConfig (Ret c)) (suspended s) -> c = c0.

Lemma begun_pinned (c0 : UserscriptConfig) (s : State) :
  Pinned c0 s -> Pinned c0 (begun s).
Proof.
  intros [(m & M & X) P]. unfold begun, loadMap, loadResult.
  rewrite (loadConfigBody_cached _ M). fields. split; [eauto|].
  intros c H. apply in_app_iff in H as [H|[H|[]]]; [auto|].
  destruct (configFile s); [|discriminate]. congruence.
Qed.

Lemma afterTry_pinned (c0 : UserscriptConfig) (s : State) :
  Pinned c0 s -> Pinned c0 (fst (afterTry s)).
Proof.
  intros H. destruct (needsRebuild s) eqn:N.
  - rewrite afterTry_again by exact N. apply begun_pinned. exact H.
  - rewrite afterTry_done by exact N. exact H.
Qed.

Lemma step_pinned (c0 : UserscriptConfig) (e : Event) (s : State) :
  Pinned c0 s -> Pinned c0 (fst (step e s)).
Proof.
  intros H. destruct (isTrigger e) eqn:T.
  { destruct (@step_trigger e s T) as (l & -> & _).
    destruct (rebuilding s) eqn:B.
    - rewrite rebuild_busy by exact B. exact H.
    - rewrite rebuild_idle by exact B. apply begun_pinned. exact H. }
  destruct e; try discriminate;
    try (match goal with
         | |- Pinned c0 (fst (step ?e s)) =>
             destruct (@step_other e s eq_refl)
               as (s' & u & E & _ & _ & _ & _ & P & M & _);
             [discriminate
             | rewrite E; unfold Pinned in *; fields; rewrite P, M; exact H]
         end).
  rewrite step_settle.
  destruct (nth_error (suspended s) k) as [a|] eqn:K; [|exact H].
  assert (H' : forall t, Pinned c0 (set_trace t
                             (set_suspended (removeNth k (suspended s)) s))).
  { intros t. destruct H as [H1 H2]. split; [exact H1|]. fields.
    intros c I. apply removeNth_In in I. auto. }
  destruct a as [[c|x]|].
  - rewrite resume_loaded. destruct H as [H1 H2]. split; [exact H1|].
    fields. intros c1 I. apply in_app_iff in I as [I|[I|[]]]; [|discriminate].
    apply removeNth_In in I. auto.
  - rewrite resume_load_failed. apply afterTry_pinned, H'.
  - destruct bundler as [[]|x].
    + rewrite resume_built. apply afterTry_pinned, H'.
    + rewrite resume_build_failed. apply afterTry_pinned, H'.
Qed.

(** X9. The configuration a server builds with never changes. Every call of
    [build] made by a server that has started, at start-up and in all later
    rebuilds, is given the configuration loaded at start-up, whatever is
    written to the configuration file in between: the import in
    [loadConfig] yields the module of the first load. *)
Theorem builds_use_startup_config (options : DevServerOptions) (d : str)
    (config0 : option ModuleNS) (script0 : FileState) (ready0 : Client -> N)
    (initialBuild : Exc unit) (s : State) :
  startDevServer options d config0 script0 ready0 initialBuild = Running s ->
  exists c0,
    In (CallBuild c0 true (wsPort s)) (trace s)
    /\ forall es c dev p,
         In (CallBuild c dev p) (trace (after es s)) -> c = c0.
Proof.
  intros H.
  pose proof (startDevServer_quiet _ _ _ _ _ _ H) as (Q & _).
  apply startDevServer_running
    in H as (m & c0 & _ & X & M & _ & T & P & _).
  exists c0. split; [rewrite T; simpl; auto|].
  assert (B : forall c dev p, In (CallBuild c dev p) (trace s) -> c = c0).
  { intros c dev p K. rewrite T in K. simpl in K.
    destruct K as [K|[K|[K|[K|[]]]]]; try discriminate.
    injection K as <- _ _. reflexivity. }
  assert (I : Pinned c0 s).
  { split; [eauto|]. rewrite P. intros c []. }
  apply quiet_inv in Q. clear T X M P. intros es. revert s Q B I.
  induction es as [|e es IH]; intros s Q B I; [exact B|].
  destruct (@step_moves e s Q) as (_ & J & _).
  rewrite after_cons by exact Q.
  apply IH; [exact J | | apply step_pinned, I].
  intros c dev p K. destruct (step_adds e s) as (u & E & F).
  rewrite E in K. apply in_app_iff in K as [K|K]; [eauto|].
  rewrite Forall_forall in F.
  destruct (F _ K) as (_ & _ & k & b & _ & N).
  apply nth_error_In in N. apply I, N.
Qed.

(** X9 at a configuration file rewritten twice between rebuilds. *)
Lemma builds_use_startup_config_witness :
  let meta n :=
    {| name := n; namespace := None; version := None; description := None;
       author := None; match_ := None; exclude := None; include := None;
       grant := None; updateURL := None; downloadURL := None;
       supportURL := None; icon := None; runAt := None; require := None;
       resource := None; sandbox := None; connect := None;
       noframes := None |} in
  let file n :=
    {| mod_default :=
         Some {| raw_metadata := Some (meta n); raw_build := None |};
       mod_named := {| raw_metadata := None; raw_build := None |} |} in
  let es :=
    [ConfigWritten (Some (file (lit "Edited")));
     Change (lit "userscript.config.ts"); Settle 0 (Ret tt);
     Settle 0 (Ret tt);
     ConfigWritten (Some (file (lit "Again")));
     Change (lit "userscript.config.ts"); Settle 0 (Ret tt)] in
  exists s c0,
    startDevServer
      {| port := None; opt_wsPort := None; configPath := None |}
      (lit "bundle.user.js") (Some (file (lit "Test"))) Missing
      (fun _ => 0%N) (Ret tt)
    = Running s
    /\ In (CallBuild c0 true (wsPort s)) (trace s)
    /\ forall c dev p, In (CallBuild c dev p) (trace (after es s)) -> c = c0.
Proof.
  intros meta file es. eexists.
  destruct (@builds_use_startup_config
              {| port := None; opt_wsPort := None; configPath := None |}
              (lit "bundle.user.js") (Some (file (lit "Test"))) Missing
              (fun _ => 0%N) (Ret tt) _ eq_refl) as (c0 & A & B).
  exists c0. split; [reflexivity|]. split; [exact A | exact (B es)].
Defined.

(** *** The clients across events *)

Lemma setAdd_In (ws c : Client) (cs : list Client) :
  In c (setAdd ws cs) <-> c = ws \/ In c cs.
Proof.
  unfold setAdd. destruct (existsb (Nat.eqb ws) cs) eqn:E.
  - split; [auto|]. intros [->|H]; [|exact H].
    apply existsb_exists in E as (x & I & X).
    apply Nat.eqb_eq in X. subst x. exact I.
  - rewrite in_app_iff. simpl. split.
    + intros [H|[H|[]]]; auto.
    + intros [H|H]; auto.
Qed.

Lemma setDelete_In (ws c : Client) (cs : list Client) :
  In c (setDelete ws cs) <-> In c cs /\ c <> ws.
Proof.
  unfold setDelete. rewrite filter_In, negb_true_iff, Nat.eqb_neq.
  split; intros [H1 H2]; split; auto.
Qed.

Lemma stays_in (ws : Client) (rest : list Event) (s : State) :
  Inv s -> In ws (clients s) -> ~ In (Close ws) rest ->
  In ws (clients (after rest s)).
Proof.
  revert s. induction rest as [|e rest IH]; intros s I H N; [exact H|].
  destruct (@step_moves e s I) as (_ & J & _).
  rewrite after_cons by exact I. apply IH; [exact J | | ].
  - rewrite step_clients. destruct e; auto.
    + apply setAdd_In. auto.
    + apply setDelete_In. split; [exact H|].
      intros ->. apply N. left. reflexivity.
  - intros K. apply N. right. exact K.
Qed.

Lemma stays_out (ws : Client) (rest : list Event) (s : State) :
  Inv s -> ~ In ws (clients s) -> ~ In (Connection ws) rest ->
  exists u,
    trace (after rest s) = trace s ++ u /\ ~ In ws (recipients u)
    /\ ~ In ws (clients (after rest s)).
Proof.
  revert s. induction rest as [|e rest IH]; intros s I H N.
  - exists []. rewrite after_nil, app_nil_r. auto.
  - destruct (@step_moves e s I) as (_ & J & _).
    rewrite after_cons by exact I.
    destruct (IH (fst (step e s)) J) as (u & E & R & C).
    + rewrite step_clients. destruct e; auto.
      * intros K. apply setAdd_In in K as [->|K]; [|auto].
        apply N. left. reflexivity.
      * intros K. apply setDelete_In in K as [K _]. auto.
    + intros K. apply N. right. exact K.
    + destruct (step_adds e s) as (u1 & E1 & F).
      exists (u1 ++ u). rewrite E, E1, app_assoc. split; [reflexivity|].
      split; [|exact C]. rewrite recipients_app, in_app_iff.
      intros [K|K]; [|auto].
      unfold recipients in K. apply in_flat_map in K as (a & K1 & K2).
      rewrite Forall_forall in F. specialize (F _ K1).
      destruct a; try contradiction. destruct K2 as [<-|[]].
      destruct F as (_ & _ & _ & _ & _ & _ & F & _). auto.
Qed.

(** X10. The set of clients follows the connections. From the state in which
    the watcher starts and after any events: a socket that has connected is
    in the set for as long as it has not closed; a socket that has closed is
    out of the set for as long as it does not connect again, whatever its
    [readyState] says; and the set never holds a socket twice. *)
Theorem client_set_follows_connections (s0 : State) (es rest : list Event)
    (ws : Client) :
  Quiet s0 ->
  (~ In (Close ws) rest ->
   In ws (clients (after (es ++ Connection ws :: rest) s0)))
  /\ (~ In (Connection ws) rest ->
      ~ In ws (clients (after (es ++ Close ws :: rest) s0)))
  /\ (NoDup (clients s0) -> NoDup (clients (after es s0))).
Proof.
  intros Q. pose proof (quiet_inv Q) as I0.
  destruct (@run_inv es s0 I0) as [_ I].
  split; [|split].
  - intros N. rewrite after_app, after_cons by auto.
    destruct (@step_moves (Connection ws) _ I) as (_ & J & _).
    apply stays_in; [exact J | | exact N].
    rewrite step_clients. apply setAdd_In. auto.
  - intros N. rewrite after_app, after_cons by auto.
    destruct (@step_moves (Close ws) _ I) as (_ & J & _).
    destruct (@stays_out ws rest _ J) as (u & _ & _ & C); auto.
    rewrite step_clients. intros K. apply setDelete_In in K as [_ K]. auto.
  - apply clients_NoDup, I0.
Qed.

(** X10 at a socket that connects, closes and connects again. *)
Lemma client_set_follows_connections_witness :
  let s0 :=
    {| wsPort := 3001; outFile := lit "bundle.user.js"; rebuilding := false;
       needsRebuild := false; clients := []; suspended := [];
       configFile := None; moduleMap := None; scriptFile := Missing;
       readyState := fun _ => 1%N; trace := [] |} in
  Quiet s0
  /\ In 7 (clients
             (after ([Connection 7; Close 7]
                     ++ Connection 7 :: [Change (lit "src/main.ts")]) s0)).
Proof.
  intros s0.
  assert (Q : Quiet s0) by (repeat split; reflexivity).
  split; [exact Q|].
  apply (@client_set_follows_connections s0 [Connection 7; Close 7]
           [Change (lit "src/main.ts")] 7 Q).
  intros [H|[]]. discriminate.
Defined.

(** X11. A socket that has closed is sent nothing more. From the state in
    which the watcher starts, after any events and then the close of a
    socket, whatever follows, as long as that socket does not connect
    again: no message of what the trace gains is for that socket, whatever
    rebuilds succeed in between. *)
Theorem closed_client_gets_nothing (s0 : State) (es rest : list Event)
    (ws : Client) :
  Quiet s0 -> ~ In (Connection ws) rest ->
  let s := after (es ++ [Close ws]) s0 in
  exists u,
    trace (after rest s) = trace s ++ u /\ ~ In ws (recipients u).
Proof.
  intros Q N s. pose proof (quiet_inv Q) as I0.
  destruct (@run_inv (es ++ [Close ws]) s0 I0) as [_ I]. fold s in I.
  destruct (@stays_out ws rest s I) as (u & E & R & _); eauto.
  unfold s. rewrite after_app, after_one by exact I0.
  rewrite step_clients. intros K. apply setDelete_In in K as [_ K]. auto.
Qed.

(** X11 at a socket that closes before a rebuild completes, while another
    stays. *)
Lemma closed_client_gets_nothing_witness :
  let file :=
    {| mod_default :=
         Some {| raw_metadata :=
                   Some {| name := lit "Test"; namespace := None;
                           version := None; description := None;
                           author := None; match_ := None; exclude := None;
                           include := None; grant := None;
                           updateURL := None; downloadURL := None;
                           supportURL := None; icon := None; runAt := None;
                           require := None; resource := None;
                           sandbox := None; connect := None;
                           noframes := None |};
                 raw_build := None |};
       mod_named := {| raw_metadata := None; raw_build := None |} |} in
  let s0 :=
    {| wsPort := 3001; outFile := lit "bundle.user.js"; rebuilding := false;
       needsRebuild := false; clients := []; suspended := [];
       configFile := Some file; moduleMap := Some file;
       scriptFile := Readable (lit "console.log(1);");
       readyState := fun _ => 1%N; trace := [] |} in
  let es := [Connection 7; Connection 8; Change (lit "src/main.ts")] in
  let rest := [Settle 0 (Ret tt); Settle 0 (Ret tt)] in
  Quiet s0
  /\ exists u,
       trace (after rest (after (es ++ [Close 7]) s0))
       = trace (after (es ++ [Close 7]) s0) ++ u
       /\ ~ In 7 (recipients u).
Proof.
  intros file s0 es rest.
  assert (Q : Quiet s0) by (repeat split; reflexivity).
  split; [exact Q|].
  apply (@closed_client_gets_nothing s0 es rest 7 Q).
  intros [H|[H|[]]]; discriminate.
Defined.

(** *** A configuration file that has gone *)

Lemma begun_missing (s : State) :
  configFile s = None -> suspended s = [] ->
  begun s
  = set_suspended [AwaitLoadConfig (Throw ConfigNotFound)]
      (set_trace (trace s ++ [LogRebuilding; CallLoadConfig])
         (set_rebuilding true s)).
Proof.
  destruct s as [wp file busy again cs parked cf mm script ready t].
  simpl. intros -> ->. reflexivity.
Qed.

(** X12. When the configuration file has been removed, the next rebuild
    fails on it and the server stays up. From the state in which the watcher
    starts, after any events that leave the server idle: let the file be
    removed, a watcher event arrive and the promise of [loadConfig] settle.
    No handler throws; the trace gains the line of the event, the start of
    the rebuild, the call of [loadConfig] and the report of the error
    "Config file not found", so neither a call of [build] nor a message; and
    the server is idle again, nothing requested. *)
Theorem missing_config_fails_rebuild (s0 : State) (es : list Event)
    (e : Event) (bundler : Exc unit) :
  Quiet s0 -> isTrigger e = true ->
  let s := after es s0 in
  rebuilding s = false ->
  let events := [ConfigWritten None; e; Settle 0 bundler] in
  exists l,
    run events s = (after events s, Ret tt)
    /\ trace (after events s)
       = trace s
         ++ [l; LogRebuilding; CallLoadConfig; LogBuildFailed ConfigNotFound]
    /\ match l with
       | LogFileChanged _ | LogFileAdded _ => True
       | _ => False
       end
    /\ rebuilding (after events s) = false
    /\ needsRebuild (after events s) = false
    /\ suspended (after events s) = [].
Proof.
  intros Q T s B events.
  destruct (@run_inv es s0 (quiet_inv Q)) as [_ I]. fold s in I.
  destruct (@run_inv events s I) as [R _]. clearbody s.
  assert (P : suspended s = []).
  { destruct I as (_ & I2 & _). rewrite B in I2.
    destruct (suspended s); [reflexivity | discriminate]. }
  assert (N : needsRebuild s = false).
  { destruct I as (_ & _ & I3). destruct (needsRebuild s); auto.
    specialize (I3 eq_refl). congruence. }
  destruct (@step_moves (ConfigWritten None) s I) as (_ & J & _).
  change (fst (step (ConfigWritten None) s)) with (set_configFile None s) in J.
  destruct (@step_watch e (set_configFile None s) T) as (l & E & L).
  exists l. split; [exact R|]. split; [|split; [exact L|]];
    unfold events; rewrite after_cons by exact I;
    change (fst (step (ConfigWritten None) s)) with (set_configFile None s);
    rewrite after_cons by exact J; rewrite E, after_one;
    rewrite rebuild_idle by exact B;
    rewrite begun_missing by (fields; auto);
    rewrite step_settle; fields; cbn [nth_error removeNth];
    rewrite resume_load_failed, afterTry_done by exact N; fields.
  - rewrite <- !app_assoc. reflexivity.
  - auto.
Qed.

(** X12 at a server whose configuration file is removed after start-up. *)
Lemma missing_config_fails_rebuild_witness :
  let s0 :=
    {| wsPort := 3001; outFile := lit "bundle.user.js"; rebuilding := false;
       needsRebuild := false; clients := [1]; suspended := [];
       configFile := None; moduleMap := None;
       scriptFile := Readable (lit "console.log(1);");
       readyState := fun _ => 1%N; trace := [] |} in
  let events :=
    [ConfigWritten None; Change (lit "src/main.ts"); Settle 0 (Ret tt)] in
  Quiet s0
  /\ exists l,
       trace (after events (after [Connection 2] s0))
       = trace (after [Connection 2] s0)
         ++ [l; LogRebuilding; CallLoadConfig; LogBuildFailed ConfigNotFound].
Proof.
  intros s0 events.
  assert (Q : Quiet s0) by (repeat split; reflexivity).
  split; [exact Q|].
  destruct (@missing_config_fails_rebuild s0 [Connection 2]
              (Change (lit "src/main.ts")) (Ret tt) Q eq_refl eq_refl)
    as (l & _ & E & _).
  exists l. exact E.
Defined.

(** *** A script that cannot be read *)

(** X18. When the promise of [build] is fulfilled but the script cannot be
    read, because it is missing or because the read throws, the rebuild
    still ends as complete: the turn does not throw, nothing is sent to any
    client, the trace gains the completion line and the report that the
    script could not be read for the reload, and no report of a failed
    build; and the coordinator goes on as after any rebuild. *)
Theorem unreadable_script_sends_nothing (s : State) :
  suspended s = [AwaitBuild] ->
  (forall content, scriptFile s <> Readable content) ->
  exists s' error,
    step (Settle 0 (Ret tt)) s = (s', Ret tt)
    /\ trace s'
       = trace s
         ++ [LogRebuildComplete; LogReadFailed error]
         ++ (if needsRebuild s then [LogRebuilding; CallLoadConfig] else [])
    /\ rebuilding s' = needsRebuild s /\ needsRebuild s' = false
    /\ clients s' = clients s.
Proof.
  intros P F.
  rewrite step_settle, P. cbn [nth_error removeNth]. rewrite resume_built.
  match goal with |- exists s' e, afterTry ?x = _ /\ _ => set (s1 := x) end.
  assert (E : exists error,
             notified (set_suspended [] s) = [LogReadFailed error]).
  { unfold notified. fields.
    destruct (scriptFile s) as [|content|e]; eauto. destruct (F content).
    reflexivity. }
  destruct E as (error & E).
  exists (fst (afterTry s1)), error. split.
  - rewrite <- (afterTry_returns s1). apply surjective_pairing.
  - rewrite afterTry_trace. unfold s1. rewrite E. fields.
    split; [rewrite <- app_assoc; reflexivity|].
    destruct (needsRebuild s) eqn:N.
    + rewrite afterTry_again by exact N. repeat split.
    + rewrite afterTry_done by exact N. repeat split. exact N.
Qed.

(** X18 at a script that has been removed from disk, with one open client. *)
Lemma unreadable_script_sends_nothing_witness :
  let s :=
    {| wsPort := 3001; outFile := lit "bundle.user.js"; rebuilding := true;
       needsRebuild := false; clients := [1]; suspended := [AwaitBuild];
       configFile := None; moduleMap := None; scriptFile := Missing;
       readyState := fun _ => 1%N; trace := [] |} in
  exists s' error,
    step (Settle 0 (Ret tt)) s = (s', Ret tt)
    /\ trace s' = [LogRebuildComplete; LogReadFailed error]
    /\ rebuilding s' = false.
Proof.
  intros s.
  destruct (@unreadable_script_sends_nothing s eq_refl)
    as (s' & error & E & T & B & _); [discriminate|].
  exists s', error. split; [exact E|]. split; [exact T | exact B].
Defined.

(** *** Start-up *)

(** X19. Start-up fails fast. If the configuration file is missing, or its
    module exports no configuration with metadata (as default export or as
    the module itself), or the initial build fails, [startDevServer] ends
    the process with exit code 1. So a server that runs has loaded a
    configuration with metadata and has built once with success; and it
    starts with no rebuild under way or requested, no parked activation and
    no client. *)
Theorem startup_fails_fast (options : DevServerOptions) (d : str)
    (config0 : option ModuleNS) (script0 : FileState) (ready0 : Client -> N)
    (initialBuild : Exc unit) :
  let start :=
    startDevServer options d config0 script0 ready0 initialBuild in
  let loads :=
    exists m md,
      config0 = Some m
      /\ raw_metadata
           match mod_default m with
           | Some c => c
           | None => mod_named m
           end
         = Some md in
  (~ loads \/ initialBuild <> Ret tt -> start = Exit 1)
  /\ forall s,
       start = Running s ->
       loads /\ initialBuild = Ret tt /\ Quiet s /\ clients s = [].
Proof.
  intros start loads. unfold start. split.
  - intros [N|N].
    + destruct config0 as [m|]; [|reflexivity].
      destruct m as [[[[md1|] b]|] [[md2|] b']];
        try (exfalso; apply N; eexists _, _; split; reflexivity);
        reflexivity.
    + destruct initialBuild as [[]|e]; [congruence|].
      destruct config0 as [[[[[md|] b]|] [[md'|] b']]|]; reflexivity.
  - intros s H.
    pose proof (startDevServer_quiet _ _ _ _ _ _ H) as (Q & _).
    destruct (startDevServer_running _ _ _ _ _ _ H)
      as (m & c0 & -> & X & _ & _ & _ & _ & C & _).
    split; [|split; [|split; [exact Q | exact C]]].
    + unfold exported in X. exists m.
      destruct (raw_metadata _) as [md|]; [eauto | discriminate].
    + destruct initialBuild as [[]|e]; [reflexivity|].
      exfalso. revert H. unfold startDevServer.
      destruct m as [[[[md1|] b]|] [[md2|] b']]; discriminate.
Qed.

(** X19 at a directory without configuration file, and at a module that
    exports nothing with metadata. *)
Lemma startup_fails_fast_witness :
  let empty :=
    {| mod_default := None;
       mod_named := {| raw_metadata := None; raw_build := None |} |} in
  let start config0 :=
    startDevServer {| port := None; opt_wsPort := None; configPath := None |}
      (lit "bundle.user.js") config0 Missing (fun _ => 0%N) (Ret tt) in
  start None = Exit 1 /\ start (Some empty) = Exit 1.
Proof.
  intros empty start. split.
  - apply (@startup_fails_fast
             {| port := None; opt_wsPort := None; configPath := None |}
             (lit "bundle.user.js") None Missing (fun _ => 0%N) (Ret tt)).
    left. intros (m & md & H & _). discriminate.
  - apply (@startup_fails_fast
             {| port := None; opt_wsPort := None; configPath := None |}
             (lit "bundle.user.js") (Some empty) Missing (fun _ => 0%N)
             (Ret tt)).
    left. intros (m & md & H & M). injection H as <-. discriminate.
Defined.

End Server.

(** * The injected client at run time *)

Section ClientRuntime.

Import Runtime.

(** C7, as stated, fails on a reload message whose code is the empty text,
    which the server sends for a script that holds nothing but header and
    client: the handler runs neither the cleanup, though the page has one,
    nor the code. *)
Lemma reload_with_empty_code_skips_cleanup :
  let h := {| cleanup := Some (Ret tt); evalGlobal := fun _ => Ret tt;
              webSocket := Ret tt |} in
  let s := {| HOT_RELOAD_PORT := 3001; ws := Some 1; reconnectTimer := None;
              timers := []; fresh := 2; trace := [] |} in
  let script :=
    Builder.artifact
      (lit "// ==UserScript==
// @name         Test
// ==/UserScript==
" ++ Builder.nl ++ HotReloadClient.getHotReloadClient 3001) [] in
  DevServer.reloadCode script = []
  /\ cleanup h <> None
  /\ onmessage h
       (Ret (JObject (Some (lit "reload"))
               (CodeText (DevServer.reloadCode script)))) s
     = (s, Ret tt)
  /\ ~ In CallCleanup
         (trace
            (fst (onmessage h
                    (Ret (JObject (Some (lit "reload"))
                            (CodeText (DevServer.reloadCode script)))) s))).
Proof.
  intros h s script.
  assert (E : DevServer.reloadCode script = []) by (vm_compute; reflexivity).
  rewrite E. split; [reflexivity|]. split; [discriminate|].
  split; [reflexivity|]. intros [].
Qed.

(** C7, as amended. On a message of type "reload" whose code is a string
    that is not empty, the handler returns without throwing and changes
    nothing but the trace: the socket and the timers are as before, and
    nothing is closed. The trace gains, in this order: the announcement; the
    call of the cleanup, when the page has one, with a warning when that
    call throws; the evaluation of the code, whether or not the cleanup
    threw; and the completion line, or the error line when the evaluation
    throws. On a message of type "reload" whose code is the empty string or
    another falsy value, in any host and state, the handler returns at once:
    it changes nothing, and neither the cleanup nor any code runs. On a
    message of type "reload" whose code is truthy and not a string, the
    announcement and the cleanup are as for a string, and [eval], which
    returns such a value as it is, runs nothing and is followed by the
    completion line. *)
Theorem reload_message_handled (h : Host) (s : State) :
  let called :=
    match cleanup h with
    | Some (Ret _) => [CallCleanup]
    | Some (Throw e) => [CallCleanup; ConsoleWarn (CleanupError e)]
    | None => []
    end in
  (forall c cs,
      let code := c :: cs in
      onmessage h (Ret (JObject (Some (lit "reload")) (CodeText code))) s
      = (set_trace
           (trace s
            ++ [ConsoleLog Reloading]
            ++ called
            ++ [Eval code;
                match evalGlobal h code with
                | Ret _ => ConsoleLog ReloadComplete
                | Throw e => ConsoleError (ExecutionError e)
                end]) s,
         Ret tt))
  /\ onmessage h (Ret (JObject (Some (lit "reload")) (CodeText []))) s
     = (s, Ret tt)
  /\ onmessage h (Ret (JObject (Some (lit "reload")) CodeFalsy)) s
     = (s, Ret tt)
  /\ onmessage h (Ret (JObject (Some (lit "reload")) CodeOther)) s
     = (set_trace
          (trace s
           ++ [ConsoleLog Reloading]
           ++ called
           ++ [EvalValue; ConsoleLog ReloadComplete]) s,
        Ret tt).
Proof.
  destruct h as [cl ev wk]. destruct s as [port w timer pending next t].
  cbn [cleanup evalGlobal]. cbv zeta.
  split; [|split; [reflexivity|split; [reflexivity|]]].
  - intros c cs.
    destruct cl as [[[]|e]|]; cbv - [app];
      repeat match goal with
             | |- context [match ev ?x with Ret _ => _ | Throw _ => _ end] =>
                 destruct (ev x) as [[]|?]
             end;
      rewrite <- ?app_assoc; reflexivity.
  - destruct cl as [[[]|e]|]; cbv - [app]; rewrite <- ?app_assoc;
      reflexivity.
Qed.

(** What the handler does not catch: a message that is not JSON makes
    [JSON.parse] throw out of the handler, before the [try] block. *)
Example malformed_message_throws (h : Host) (s : State) :
  onmessage h (Throw SyntaxError) s = (s, Throw SyntaxError).
Proof. reflexivity. Qed.

(** *** What a handler adds to the trace *)

(** The reason an action of the client has to be in the trace: a socket is
    made for the port of the client; a text is run when it is the non-empty
    code of a reload message; [eval] is handed a value that is not a string
    when that is the truthy code of a reload message; and the cleanup is
    called on a reload message with a truthy code. *)
Let allowed (e : Event) (s : State) (a : Action) : Prop :=
  match a with
  | NewWebSocket p => p = HOT_RELOAD_PORT s
  | Eval c =>
      c <> []
      /\ e = Message (Ret (JObject (Some (lit "reload")) (CodeText c)))
  | EvalValue => e = Message (Ret (JObject (Some (lit "reload")) CodeOther))
  | CallCleanup =>
      exists code,
        e = Message (Ret (JObject (Some (lit "reload")) code))
        /\ truthy code = true
  | SetTimeout ms => ms = 1000
  | _ => True
  end.

Lemma handler_adds (h : Host) (e : Event) (s : State) :
  exists u,
    trace (fst (step h e s)) = trace s ++ u
    /\ HOT_RELOAD_PORT (fst (step h e s)) = HOT_RELOAD_PORT s
    /\ Forall (allowed e s) u.
Proof.
  destruct h as [cl ev wk]. destruct s as [port w timer pending next t].
  destruct e.
  - destruct timer as [x|]; eexists;
      (split; [cbv - [app filter Nat.eqb negb]; rewrite <- ?app_assoc;
               reflexivity|]);
      split; [reflexivity | repeat constructor | reflexivity
             | repeat constructor].
  - destruct parsed as [[|[ty|] code]|x];
      try (exists []; split; [symmetry; apply app_nil_r|];
           split; [reflexivity | constructor]).
    cbv [step onmessage reloadText bind settled].
    destruct (Js.eqb ty (lit "reload")) eqn:T; cbn [andb];
      [|exists []; split; [symmetry; apply app_nil_r|];
        split; [reflexivity | constructor]].
    apply eqb_eq in T. subst ty.
    destruct code as [|[|c cs]|]; cbn [truthy];
      try (exists []; split; [symmetry; apply app_nil_r|];
           split; [reflexivity | constructor]).
    + destruct cl as [[[]|x]|]; cbv - [app];
        match goal with
        | |- context [match ev ?x with Ret _ => _ | Throw _ => _ end] =>
            destruct (ev x) as [[]|?]
        end;
        eexists; (split; [rewrite <- ?app_assoc; reflexivity|]);
        (split; [reflexivity|]); repeat econstructor; discriminate.
    + destruct cl as [[[]|x]|]; cbv - [app];
        eexists; (split; [rewrite <- ?app_assoc; reflexivity|]);
        (split; [reflexivity|]); repeat econstructor.
  - eexists. split; [cbv - [app]; rewrite <- ?app_assoc; reflexivity|].
    split; [reflexivity | repeat constructor].
  - destruct w as [sock|]; eexists;
      (split; [cbv - [app]; rewrite <- ?app_assoc; reflexivity|]);
      split; [reflexivity | repeat constructor | reflexivity
             | repeat constructor].
  - cbv [step bind gets timers].
    destruct (existsb (Nat.eqb t0) pending);
      [|exists []; split; [symmetry; apply app_nil_r|];
        split; [reflexivity | constructor]].
    destruct wk as [[]|x]; eexists;
      (split; [cbv - [app filter Nat.eqb negb]; rewrite <- ?app_assoc;
               reflexivity|]);
      split; [reflexivity | repeat constructor | reflexivity
             | repeat constructor].
  - destruct w as [sock|], timer as [x|];
      try (exists []; split; [symmetry; apply app_nil_r|];
           split; [reflexivity | constructor]);
      eexists;
      (split; [cbv - [app filter Nat.eqb negb]; rewrite <- ?app_assoc;
               reflexivity|]);
      (split; [reflexivity|]); repeat constructor.
Qed.

Lemma run_app (h : Host) (es fs : list Event) (s : State) :
  Page.run h (es ++ fs) s = Page.run h fs (Page.run h es s).
Proof. apply fold_left_app. Qed.

(** X16. What the injected client does over the life of a page, whatever
    events arrive, whatever the messages hold and whether or not handlers
    throw. The port is never changed, and every socket the client makes is
    for that port; every timer it sets is for 1000 ms; the only texts it
    ever runs are the non-empty string codes of reload messages it has
    received; [eval] is handed a value that is not a string, which it
    returns without running anything, only for a reload message whose code
    is such a value and truthy; and the cleanup of the page is called only
    for a reload message it has received whose code is truthy. A message of
    another type, without code or with a falsy code, or that is not JSON
    runs nothing and calls nothing. *)
Theorem page_runs_only_reload_code (h : Host) (es : list Event) (s : State) :
  let reload code := Message (Ret (JObject (Some (lit "reload")) code)) in
  exists u,
    trace (Page.run h es s) = trace s ++ u
    /\ HOT_RELOAD_PORT (Page.run h es s) = HOT_RELOAD_PORT s
    /\ (forall p, In (NewWebSocket p) u -> p = HOT_RELOAD_PORT s)
    /\ (forall ms, In (SetTimeout ms) u -> ms = 1000)
    /\ (forall c, In (Eval c) u -> c <> [] /\ In (reload (CodeText c)) es)
    /\ (In EvalValue u -> In (reload CodeOther) es)
    /\ (In CallCleanup u ->
        exists code, In (reload code) es /\ truthy code = true).
Proof.
  intros reload. revert s. induction es as [|e es IH]; intros s.
  - exists []. simpl. rewrite app_nil_r.
    split; [reflexivity|]. split; [reflexivity|]. split; [intros p []|].
    split; [intros ms []|]. split; [intros c []|].
    split; intros [].
  - destruct (handler_adds h e s) as (u1 & E1 & P1 & F1).
    destruct (IH (fst (step h e s))) as (u & E & P & A & B & C & D & G).
    rewrite Forall_forall in F1.
    exists (u1 ++ u). cbn [Page.run fold_left].
    change (fold_left (fun s e => fst (step h e s)) es (fst (step h e s)))
      with (Page.run h es (fst (step h e s))).
    rewrite E, E1, P, P1, app_assoc.
    split; [reflexivity|]. split; [reflexivity|].
    split; [|split; [|split; [|split]]].
    + intros p H. apply in_app_iff in H as [H|H].
      * exact (F1 _ H).
      * rewrite <- P1. auto.
    + intros ms H. apply in_app_iff in H as [H|H]; [exact (F1 _ H) | auto].
    + intros c H. apply in_app_iff in H as [H|H].
      * destruct (F1 _ H) as [N ->]. split; [exact N | left; reflexivity].
      * destruct (C _ H) as [N K]. split; [exact N | right; exact K].
    + intros H. apply in_app_iff in H as [H|H].
      * left. exact (F1 _ H).
      * right. auto.
    + intros H. apply in_app_iff in H as [H|H].
      * destruct (F1 _ H) as (code & -> & T). exists code.
        split; [left; reflexivity | exact T].
      * destruct (G H) as (code & K & T). exists code.
        split; [right; exact K | exact T].
Qed.

(** X17. The client reconnects. When the socket closes, in any state, the
    handler returns after one log line and one timer of 1000 ms, which it
    keeps in [reconnectTimer]. When that timer fires, [connect] runs once: it
    makes a socket for the same port; if that succeeds the new socket
    replaces the old one, and [reconnectTimer] still holds the timer that
    fired, until the socket opens; if the constructor throws, the error is
    logged and a new timer of 1000 ms is set and kept, so the client goes on
    trying. In both cases the handler returns normally and the timer that
    fired is pending no more. *)
Theorem client_reconnects_after_close (h : Host) (s : State) :
  let s1 := fst (step h Closed s) in
  let t := fresh s in
  let s2 := fst (step h (TimerFired t) s1) in
  snd (step h Closed s) = Ret tt
  /\ trace s1 = trace s ++ [ConsoleLog Disconnected; SetTimeout 1000]
  /\ reconnectTimer s1 = Some t /\ In t (timers s1) /\ ws s1 = ws s
  /\ snd (step h (TimerFired t) s1) = Ret tt
  /\ ~ In t (timers s2)
  /\ match webSocket h with
     | Ret _ =>
         trace s2 = trace s1 ++ [NewWebSocket (HOT_RELOAD_PORT s)]
         /\ ws s2 = Some (fresh s1)
         /\ reconnectTimer s2 = Some t
     | Throw e =>
         trace s2
         = trace s1
           ++ [NewWebSocket (HOT_RELOAD_PORT s);
               ConsoleError (ConnectFailed e); SetTimeout 1000]
         /\ ws s2 = ws s
         /\ reconnectTimer s2 = Some (fresh s1)
         /\ In (fresh s1) (timers s2)
     end.
Proof.
  destruct h as [cl ev wk]. destruct s as [port w timer pending next t].
  cbv zeta.
  assert (X : existsb (Nat.eqb next) (pending ++ [next]) = true).
  { apply existsb_exists. exists next. split; [|apply Nat.eqb_refl].
    apply in_app_iff. right. left. reflexivity. }
  assert (Y : forall l, ~ In next (filter (fun u => negb (Nat.eqb next u)) l)).
  { intros l H. apply filter_In in H as [_ H].
    rewrite Nat.eqb_refl in H. discriminate. }
  assert (S1 : step {| cleanup := cl; evalGlobal := ev; webSocket := wk |}
                 Closed
                 {| HOT_RELOAD_PORT := port; ws := w; reconnectTimer := timer;
                    timers := pending; fresh := next; trace := t |}
               = ({| HOT_RELOAD_PORT := port; ws := w;
                     reconnectTimer := Some next;
                     timers := pending ++ [next]; fresh := S next;
                     trace := t ++ [ConsoleLog Disconnected;
                                    SetTimeout 1000] |}, Ret tt)).
  { cbv - [app]. rewrite <- app_assoc. reflexivity. }
  rewrite S1. cbn [fst snd trace reconnectTimer timers ws fresh
                   HOT_RELOAD_PORT webSocket].
  split; [reflexivity|]. split; [reflexivity|]. split; [reflexivity|].
  split; [apply in_app_iff; right; left; reflexivity|].
  split; [reflexivity|].
  cbv [step bind gets timers]. rewrite X.
  destruct wk as [[]|e]; cbv - [app filter Nat.eqb negb In].
  - split; [reflexivity|]. split; [apply Y|]. repeat split.
  - split; [reflexivity|]. split.
    + intros H. apply in_app_iff in H as [H|[H|[]]]; [revert H; apply Y|].
      revert H. clear. induction next; [discriminate|]. intros H.
      injection H as H. auto.
    + rewrite <- !app_assoc. split; [reflexivity|]. split; [reflexivity|].
      split; [reflexivity|]. apply in_app_iff. right. left. reflexivity.
Qed.

(** X20. A reconnect timer the client holds is cancelled when the socket
    opens and when the page unloads. In both handlers, which return
    normally, the timer kept in [reconnectTimer] is cleared, so that it is
    pending no more and its firing afterwards does nothing: no socket is
    made. When the socket opens the timer is also forgotten; when the page
    unloads the socket, if there is one, is closed first. *)
Theorem held_timer_is_cancelled (h : Host) (s : State) (t : nat)
    (e : Event) :
  reconnectTimer s = Some t ->
  e = Open \/ e = BeforeUnload ->
  let s1 := fst (step h e s) in
  snd (step h e s) = Ret tt
  /\ In (ClearTimeout t) (trace s1)
  /\ ~ In t (timers s1)
  /\ step h (TimerFired t) s1 = (s1, Ret tt)
  /\ (e = Open -> reconnectTimer s1 = None)
  /\ (e = BeforeUnload ->
      forall sock, ws s = Some sock -> In (WsClose sock) (trace s1)).
Proof.
  intros R E.
  destruct h as [cl ev wk]. destruct s as [port w timer pending next tr].
  simpl in R. subst timer.
  assert (Y : forall l, ~ In t (filter (fun u => negb (Nat.eqb t u)) l)).
  { intros l H. apply filter_In in H as [_ H].
    rewrite Nat.eqb_refl in H. discriminate. }
  assert (Z : existsb (Nat.eqb t)
                (filter (fun u => negb (Nat.eqb t u)) pending) = false).
  { destruct (existsb _ _) eqn:X; [|reflexivity].
    apply existsb_exists in X as (x & I & X).
    apply Nat.eqb_eq in X. subst x. destruct (Y _ I). }
  destruct E as [-> | ->].
  - cbv zeta. cbv - [app filter Nat.eqb negb In existsb].
    split; [reflexivity|]. split; [apply in_app_iff; right; left; reflexivity|].
    split; [apply Y|]. split; [|split; [reflexivity | discriminate]].
    cbv [step bind gets timers]. rewrite Z. reflexivity.
  - cbv zeta. destruct w as [sock|];
      cbv - [app filter Nat.eqb negb In existsb];
      (split; [reflexivity|]);
      (split; [apply in_app_iff; right; left; reflexivity|]);
      (split; [apply Y|]); (split; [|split; [discriminate|]]);
      try (cbv [step bind gets timers]; rewrite Z; reflexivity).
    + intros _ s0 H. injection H as <-.
      apply in_app_iff. left. apply in_app_iff. right. left. reflexivity.
    + intros _ s0 H. discriminate.
Qed.

(** X20 at a page that unloads while a reconnect is scheduled. *)
Lemma held_timer_is_cancelled_witness :
  let h := {| cleanup := None; evalGlobal := fun _ => Ret tt;
              webSocket := Ret tt |} in
  let s := {| HOT_RELOAD_PORT := 3001; ws := Some 1;
              reconnectTimer := Some 2; timers := [2]; fresh := 3;
              trace := [] |} in
  step h (TimerFired 2) (fst (step h BeforeUnload s))
  = (fst (step h BeforeUnload s), Ret tt).
Proof.
  intros h s.
  exact (proj1 (proj2 (proj2 (proj2
           (@held_timer_is_cancelled h s 2 BeforeUnload eq_refl
              (or_intror eq_refl)))))).
Defined.

End ClientRuntime.

(** * The default output file name *)

Section OutputFileName.

Import DevServer OutputFile.

Lemma slashesToDashes_no_slash (s : str) : ~ In 47%N (slashesToDashes s).
Proof.
  unfold slashesToDashes. intros H. apply in_map_iff in H as (c & E & _).
  destruct (N.eqb_spec c 47); [discriminate | congruence].
Qed.

Lemma slashesToDashes_fixed (s : str) :
  ~ In 47%N s -> slashesToDashes s = s.
Proof.
  induction s as [|c s IH]; intros H; [reflexivity|]. simpl.
  destruct (N.eqb_spec c 47) as [->|_]; [exfalso; apply H; left; reflexivity|].
  rewrite IH; [reflexivity|]. intros K. apply H. right. exact K.
Qed.

(** X13. [getDefaultOutputFile] always returns a file name, and which one:
    it does not throw, whatever the state of package.json; when the file can
    be read and parses to a value whose [name] is a non-empty string, the
    result is that name without a leading "@" and with every "/" turned into
    "-", followed by ".user.js"; in every other case (file missing or
    unreadable, not JSON, [null], no name, an empty name, a name that is not
    a string) it is "bundle.user.js". In all cases the result ends in
    ".user.js" and holds no "/", so that it is one segment of the URL the
    server answers. *)
Theorem default_output_file_is_a_name {S} (packageJson : FileState)
    (parse : str -> Exc Parsed) (s : S) :
  let named :=
    match packageJson with
    | Readable text =>
        match parse text with
        | Ret (Value (Text (c :: n))) => Some (c :: n)
        | _ => None
        end
    | _ => None
    end in
  let file :=
    match named with
    | Some name => slashesToDashes (stripLeadingAt name) ++ lit ".user.js"
    | None => lit "bundle.user.js"
    end in
  getDefaultOutputFile packageJson parse s = (s, Ret file)
  /\ (exists stem, file = stem ++ lit ".user.js")
  /\ ~ In 47%N file.
Proof.
  assert (D : ~ In 47%N (lit "bundle.user.js")).
  { intros H. vm_compute in H.
    repeat (destruct H as [H|H]; [discriminate|]). exact H. }
  assert (B : exists stem, lit "bundle.user.js" = stem ++ lit ".user.js").
  { exists (lit "bundle"). reflexivity. }
  unfold getDefaultOutputFile, tryCatch, bind. cbv zeta.
  destruct packageJson as [|text|e]; cbn [existsSync readFileSync];
    [repeat split; auto| |repeat split; auto].
  unfold ret at 1, settled.
  destruct (parse text) as [[|[|[|c n]|]]|e] eqn:P;
    try (repeat split; auto; fail).
  split; [reflexivity|]. split; [eexists; reflexivity|].
  intros H. apply in_app_iff in H as [H|H].
  - revert H. apply slashesToDashes_no_slash.
  - vm_compute in H.
    repeat (destruct H as [H|H]; [discriminate|]). exact H.
Qed.

(** X14. The name of a scoped package "@scope/name" gives the file name
    "scope-name.user.js", and the name of a package without scope gives
    that name followed by ".user.js", when scope and name hold no "/". *)
Theorem package_name_to_file_name {S} (text : str)
    (parse : str -> Exc Parsed) (s : S) :
  (forall scope name,
      parse text = Ret (Value (Text (lit "@" ++ scope ++ lit "/" ++ name))) ->
      ~ In 47%N scope -> ~ In 47%N name ->
      getDefaultOutputFile (Readable text) parse s
      = (s, Ret (scope ++ lit "-" ++ name ++ lit ".user.js")))
  /\ (forall c name,
         parse text = Ret (Value (Text (c :: name))) ->
         c <> 64%N -> ~ In 47%N (c :: name) ->
         getDefaultOutputFile (Readable text) parse s
         = (s, Ret (c :: name ++ lit ".user.js"))).
Proof.
  split.
  - intros scope name P A B.
    change (lit "@" ++ scope ++ lit "/" ++ name)
      with (64%N :: scope ++ 47%N :: name) in P.
    unfold getDefaultOutputFile, tryCatch, bind.
    cbn [existsSync readFileSync]. unfold ret at 1, settled. rewrite P.
    cbv beta iota zeta delta [ret].
    change (stripLeadingAt (64%N :: scope ++ 47%N :: name))
      with (scope ++ 47%N :: name).
    unfold slashesToDashes. rewrite map_app.
    change (map (fun c => if (c =? 47)%N then 45%N else c) (47%N :: name))
      with (45%N :: slashesToDashes name).
    fold (slashesToDashes scope).
    rewrite !slashesToDashes_fixed by assumption.
    rewrite <- app_assoc. reflexivity.
  - intros c name P A B.
    unfold getDefaultOutputFile, tryCatch, bind.
    cbn [existsSync readFileSync]. unfold ret at 1, settled. rewrite P.
    cbv beta iota zeta delta [ret stripLeadingAt].
    destruct (N.eqb_spec c 64) as [|_]; [contradiction|].
    rewrite slashesToDashes_fixed by assumption. reflexivity.
Qed.

(** X14 at the package "@usx/dev". *)
Lemma package_name_to_file_name_witness :
  let parse := fun _ : str => Ret (Value (Text (lit "@usx/dev"))) in
  getDefaultOutputFile (Readable (lit "{}")) parse tt
  = (tt, Ret (lit "usx-dev.user.js")).
Proof.
  intros parse.
  refine (proj1 (@package_name_to_file_name unit (lit "{}") parse tt)
            (lit "usx") (lit "dev") eq_refl _ _);
    intros H; vm_compute in H;
    repeat (destruct H as [H|H]; [discriminate|]); exact H.
Defined.

End OutputFileName.

(** * The header, line by line *)

Section HeaderLines.

Import Builder.

Lemma addLine_many (key : str) (vs : list str) (lines : list str) :
  fold_left (fun ls v => ls ++ [metaLine key v]) vs lines
  = lines ++ map (metaLine key) vs.
Proof.
  revert lines. induction vs as [|v vs IH]; intros lines; simpl.
  - symmetry. apply app_nil_r.
  - rewrite IH, <- app_assoc. reflexivity.
Qed.

Lemma addLine_app (lines : list str) (key : str) (value : option OneOrMany) :
  addLine lines key value
  = lines
    ++ match value with
       | None => []
       | Some (One v) => [metaLine key v]
       | Some (Many vs) => map (metaLine key) vs
       end.
Proof.
  destruct value as [[v|vs]|]; simpl;
    [reflexivity | apply addLine_many | symmetry; apply app_nil_r].
Qed.

Lemma addLine_resources (entries : list (str * str)) (lines : list str) :
  fold_left
    (fun ls e =>
       addLine ls (lit "resource") (Some (One (fst e ++ lit " " ++ snd e))))
    entries lines
  = lines
    ++ map (fun e => metaLine (lit "resource") (fst e ++ lit " " ++ snd e))
         entries.
Proof.
  revert lines. induction entries as [|e es IH]; intros lines; simpl.
  - symmetry. apply app_nil_r.
  - rewrite IH, <- app_assoc. reflexivity.
Qed.

Lemma splitLines_single (l : str) : ~ In 10%N l -> splitLines l = [l].
Proof.
  induction l as [|c l IH]; intros H; [reflexivity|]. simpl.
  destruct (N.eqb_spec c 10) as [->|_]; [exfalso; apply H; left; reflexivity|].
  rewrite IH; [reflexivity|]. intros K. apply H. right. exact K.
Qed.

Lemma splitLines_each (lines : list str) :
  Forall (fun l => ~ In 10%N l) lines -> flat_map splitLines lines = lines.
Proof.
  induction 1 as [|l lines H _ IH]; simpl; [reflexivity|].
  rewrite splitLines_single, IH by exact H. reflexivity.
Qed.

(** X15. The header, line by line. [generateHeader] joins with line feeds:
    the opening line; one line "// @key value" for each metadata value that
    is present, the key padded with spaces to 12 characters, in the order
    name, namespace, version, description, author, match, exclude, include,
    icon, grant, require, resource, connect, run-at, sandbox, noframes,
    updateURL, downloadURL, supportURL, an array giving one line for each
    of its elements in their order and none when it is empty, a resource
    giving "name url", and noframes the bare line "// @noframes" when it is
    true; the closing line; and an empty line. The second line is the name,
    after "// @name" and nine spaces. When no value holds a line feed,
    cutting the header at line feeds gives these lines back. *)
Theorem header_line_by_line (m : UserscriptMetadata) :
  let each key value :=
    match value with
    | None => []
    | Some (One v) => [metaLine key v]
    | Some (Many vs) => map (metaLine key) vs
    end in
  let body :=
    [metaLine (lit "name") (name m)]
    ++ each (lit "namespace") (one (namespace m))
    ++ each (lit "version") (one (version m))
    ++ each (lit "description") (one (description m))
    ++ each (lit "author") (one (author m))
    ++ each (lit "match") (match_ m)
    ++ each (lit "exclude") (exclude m)
    ++ each (lit "include") (include m)
    ++ each (lit "icon") (one (icon m))
    ++ each (lit "grant") (grant m)
    ++ each (lit "require") (require m)
    ++ match resource m with
       | Some entries =>
           map (fun e =>
                  metaLine (lit "resource") (fst e ++ lit " " ++ snd e))
             entries
       | None => []
       end
    ++ each (lit "connect") (connect m)
    ++ each (lit "run-at")
         (option_map (fun r => One (runAtText r)) (runAt m))
    ++ each (lit "sandbox")
         (option_map (fun s => One (sandboxText s)) (sandbox m))
    ++ match noframes m with
       | Some true => [lit "// @noframes"]
       | _ => []
       end
    ++ each (lit "updateURL") (one (updateURL m))
    ++ each (lit "downloadURL") (one (downloadURL m))
    ++ each (lit "supportURL") (one (supportURL m)) in
  let lines := headerStart :: body ++ [headerEnd; []] in
  generateHeader m = join nl lines
  /\ nth_error lines 1 = Some (lit "// @name         " ++ name m)
  /\ (Forall (fun l => ~ In 10%N l) body ->
      splitLines (generateHeader m) = lines).
Proof.
  intros each body lines.
  assert (E : generateHeader m = join nl lines).
  { unfold generateHeader. cbv zeta. rewrite !addLine_app.
    f_equal. unfold lines, body, each.
    destruct (resource m) as [entries|], (noframes m) as [[|]|];
      rewrite ?addLine_resources, ?addLine_app, <- ?app_assoc;
      cbn [app]; rewrite <- ?app_assoc; try reflexivity. }
  split; [exact E|]. split; [reflexivity|].
  intros F. rewrite E, splitLines_join by discriminate.
  apply splitLines_each. unfold lines.
  constructor; [|apply Forall_app; split; [exact F|]].
  - intros H. vm_compute in H.
    repeat (destruct H as [H|H]; [discriminate|]). exact H.
  - constructor; [|constructor; [intros []|constructor]].
    intros H. vm_compute in H.
    repeat (destruct H as [H|H]; [discriminate|]). exact H.
Qed.

(** X15 at a script with a name, two match patterns and noframes. *)
Lemma header_line_by_line_witness :
  let m :=
    {| name := lit "Test"; namespace := None; version := None;
       description := None; author := None;
       match_ := Some (Many [lit "https://a.example/*";
                             lit "https://b.example/*"]);
       exclude := None; include := None; grant := Some (Many []);
       updateURL := None; downloadURL := None; supportURL := None;
       icon := None; runAt := None; require := None; resource := None;
       sandbox := None; connect := None; noframes := Some true |} in
  splitLines (generateHeader m)
  = [lit "// ==UserScript==";
     lit "// @name         Test";
     lit "// @match        https://a.example/*";
     lit "// @match        https://b.example/*";
     lit "// @noframes";
     lit "// ==/UserScript==";
     []].
Proof.
  intros m.
  refine (proj2 (proj2 (header_line_by_line m)) _).
  repeat constructor; intros H; vm_compute in H;
    repeat (destruct H as [H|H]; [discriminate|]); exact H.
Defined.

End HeaderLines.
